(** * eye-overlay: the picture-in-picture position controller and the
      gaze/cursor repositioning policy

    A shallow embedding of [components/meet-pip.tsx] (the physics engine and
    the drag / resize / side-change handlers of [MeetPip]) and of
    [components/eye-tracker.tsx] (the gaze classifier, the cursor-zone
    classifier and the cursor-entry policy of [EyeTracker]).

    JavaScript numbers are modelled by exact rationals [Q]: every constant
    of the source is a short decimal, and the properties below are about
    comparisons, clamping and linear updates.  Rounding is outside the
    model, and so are infinities and NaN except in the gaze normalisation,
    whose division by the eye width keeps them ([EyeTracker.JsNumber]).
    Equalities between computed numbers are stated with [==] (equality of
    rationals).  React refs are fields of a state record, props and the
    window size are an environment record, and each handler is a function
    from state to state; an effect is a function run after the handlers
    that change one of its dependencies. *)

From Stdlib Require Import QArith Qabs Qminmax Qround Lqa Lia ZArith Bool List.
Import ListNotations.
Open Scope Q_scope.

(** ** JavaScript number helpers *)

Module Js.

(** [a < b] as a boolean test. *)
Definition ltb (a b : Q) : bool := negb (Qle_bool b a).

(** [a !== b] on numbers. *)
Definition neqb (a b : Q) : bool := negb (Qeq_bool a b).

(** [Math.sqrt]: approximated from below by the integer square root of
    [num * den] over [den]; exact on the square of a rational, and at most
    [1 / den] below the real square root otherwise. *)
Definition sqrt (q : Q) : Q := Z.sqrt (Qnum q * Zpos (Qden q)) # Qden q.

(** [q] to the power [n]. *)
Fixpoint pow (q : Q) (n : nat) : Q :=
  match n with
  | O => 1
  | S k => q * pow q k
  end.

End Js.

(** ** Shared data *)

(** ["left" | "right"]. *)
Inductive HSide := Left | Right.

(** ["left" | "right" | null]. *)
Definition Side := option HSide.

(** ["top" | "bottom" | "center"]. *)
Inductive Vertical := Top | Bottom | Center.

Definition HSide_eqb (a b : HSide) : bool :=
  match a, b with
  | Left, Left | Right, Right => true
  | _, _ => false
  end.

Definition Side_eqb (a b : Side) : bool :=
  match a, b with
  | Some u, Some v => HSide_eqb u v
  | None, None => true
  | _, _ => false
  end.

Definition Vertical_eqb (a b : Vertical) : bool :=
  match a, b with
  | Top, Top | Bottom, Bottom | Center, Center => true
  | _, _ => false
  end.

(** A pair of numbers [{x, y}]. *)
Record XY := mkXY { X : Q; Y : Q }.

(** The zone report handed to [onPositionChange] and [onDragEnd]. *)
Record ZoneReport := mkReport { r_side : HSide; r_vertical : Vertical }.

(** Equality of number pairs, componentwise. *)
Definition XY_eq (p q : XY) : Prop := X p == X q /\ Y p == Y q.

Infix "=xy=" := XY_eq (at level 70, no associativity).

Definition zeroXY : XY := mkXY 0 0.

(** ** [MeetPip]: the widget and its physics engine *)

Module MeetPip.

(** *** Physics constants *)

Definition FRICTION : Q := 0.88.
Definition BOUNCE_DAMPING : Q := 0.3.
Definition VIEWPORT_PADDING : Q := 24.
Definition MAX_VELOCITY : Q := 15.
Definition EYE_TRACKING_SPRING : Q := 0.08.
Definition SPRING_DAMPING : Q := 0.85.

(** [{width, height}] of the widget. *)
Record Dimensions := mkDim { width : Q; height : Q }.

(** The props and the window a handler closes over: the [side] prop and
    [window.innerWidth] / [window.innerHeight]. *)
Record Env := mkEnv { side : HSide; innerWidth : Q; innerHeight : Q }.

Record Bounds := mkBounds { minX : Q; maxX : Q; minY : Q; maxY : Q }.

(** [dragStartPosRef]. *)
Record DragStartPos := mkDragStart { ds_x : Q; ds_y : Q; offsetX : Q; offsetY : Q }.

(** [resizeStartRef]. *)
Record ResizeStart := mkResizeStart {
  rs_mouseX : Q; rs_mouseY : Q; rs_width : Q; rs_height : Q;
  anchorX : Q; anchorY : Q; startPosX : Q; startPosY : Q; wrapperLeft : Q }.

(** The refs and flags of the component. [animationFrame] is [true] when
    [animationFrameRef.current] holds a scheduled frame. *)
Record State := mkState {
  isResizing : bool;
  isDragging : bool;
  currentDimensions : Dimensions;
  currentPosition : XY;
  velocity : XY;
  targetPosition : option XY;
  animationFrame : bool;
  dragStartPos : DragStartPos;
  lastMousePos : XY;
  lastMouseTime : Q;
  resizeStart : ResizeStart;
  prevSide : HSide }.

(** A mouse event with the clock reading taken by the handler; [onChrome]
    says that the target is a button or the resize handle. *)
Record MouseEvent := mkMouse { clientX : Q; clientY : Q; now : Q; onChrome : bool }.

Definition setPosition (s : State) (p : XY) : State :=
  mkState (isResizing s) (isDragging s) (currentDimensions s) p (velocity s)
    (targetPosition s) (animationFrame s) (dragStartPos s) (lastMousePos s)
    (lastMouseTime s) (resizeStart s) (prevSide s).

Definition setVelocity (s : State) (v : XY) : State :=
  mkState (isResizing s) (isDragging s) (currentDimensions s) (currentPosition s) v
    (targetPosition s) (animationFrame s) (dragStartPos s) (lastMousePos s)
    (lastMouseTime s) (resizeStart s) (prevSide s).

Definition setTarget (s : State) (t : option XY) : State :=
  mkState (isResizing s) (isDragging s) (currentDimensions s) (currentPosition s)
    (velocity s) t (animationFrame s) (dragStartPos s) (lastMousePos s)
    (lastMouseTime s) (resizeStart s) (prevSide s).

Definition setAnimationFrame (s : State) (f : bool) : State :=
  mkState (isResizing s) (isDragging s) (currentDimensions s) (currentPosition s)
    (velocity s) (targetPosition s) f (dragStartPos s) (lastMousePos s)
    (lastMouseTime s) (resizeStart s) (prevSide s).

(** The state at mount: [useState] / [useRef] initial values. *)
Definition initialState (e : Env) : State :=
  mkState false false (mkDim 320 280) zeroXY zeroXY None false
    (mkDragStart 0 0 0 0) zeroXY 0 (mkResizeStart 0 0 0 0 0 0 0 0 0) (side e).

(** *** Bounds calculator *)

Definition getViewportBounds (e : Env) (d : Dimensions) : Bounds :=
  let width := width d in
  let height := height d in
  let viewportWidth := innerWidth e in
  let viewportHeight := innerHeight e in
  match side e with
  | Left =>
      mkBounds 0
        (viewportWidth - width - VIEWPORT_PADDING * 2)
        (VIEWPORT_PADDING + height / 2 - viewportHeight / 2)
        (viewportHeight / 2 - VIEWPORT_PADDING - height / 2)
  | Right =>
      mkBounds (- (viewportWidth - VIEWPORT_PADDING * 2 - width))
        0
        (VIEWPORT_PADDING + height / 2 - viewportHeight / 2)
        (viewportHeight / 2 - VIEWPORT_PADDING - height / 2)
  end.

Definition clampPosition (e : Env) (d : Dimensions) (pos : XY) : XY :=
  let bounds := getViewportBounds e d in
  mkXY (Qmax (minX bounds) (Qmin (maxX bounds) (X pos)))
       (Qmax (minY bounds) (Qmin (maxY bounds) (Y pos))).

Definition inBounds (b : Bounds) (p : XY) : Prop :=
  minX b <= X p /\ X p <= maxX b /\ minY b <= Y p /\ Y p <= maxY b.

(** The widget with its padding fits the viewport: the bounds rectangle is
    not empty. *)
Definition fitsViewport (e : Env) (d : Dimensions) : Prop :=
  width d + VIEWPORT_PADDING * 2 <= innerWidth e /\
  height d + VIEWPORT_PADDING * 2 <= innerHeight e.

(** *** Zone report (the second half of [updateDOM]) *)

(** The absolute screen x of the widget's centre. *)
Definition pipCenterX (e : Env) (d : Dimensions) (pos : XY) : Q :=
  let baseOffset := VIEWPORT_PADDING in
  match side e with
  | Left => baseOffset + width d / 2 + X pos
  | Right => innerWidth e - baseOffset - width d / 2 + X pos
  end.

Definition reportedSide (e : Env) (d : Dimensions) (pos : XY) : HSide :=
  let viewportWidth := innerWidth e in
  let leftThirdBoundary := viewportWidth / 3 in
  let rightThirdBoundary := (viewportWidth * 2) / 3 in
  if Js.ltb (pipCenterX e d pos) leftThirdBoundary then Left
  else if Js.ltb rightThirdBoundary (pipCenterX e d pos) then Right
  else side e.

Definition reportedVertical (e : Env) (pos : XY) : Vertical :=
  let viewportHeight := innerHeight e in
  let topThirdBoundary := - viewportHeight / 6 in
  let bottomThirdBoundary := viewportHeight / 6 in
  if Js.ltb (Y pos) topThirdBoundary then Top
  else if Js.ltb bottomThirdBoundary (Y pos) then Bottom
  else Center.

(** [updateDOM pos]: the style update is not modelled; the value is the
    report passed to [onPositionChange]. *)
Definition updateDOM (e : Env) (d : Dimensions) (pos : XY) : ZoneReport :=
  mkReport (reportedSide e d pos) (reportedVertical e pos).

(** *** Physics engine *)

(** The spring branch of [updatePhysics]: velocity after the spring force
    and the spring damping. *)
Definition springVelocity (currentPos vel target : XY) : XY :=
  let dx := X target - X currentPos in
  let dy := Y target - Y currentPos in
  mkXY ((X vel + dx * EYE_TRACKING_SPRING) * SPRING_DAMPING)
       ((Y vel + dy * EYE_TRACKING_SPRING) * SPRING_DAMPING).

(** The snap test: both displacements under 1 and both velocities under 0.3. *)
Definition closeToTarget (currentPos target newVel : XY) : bool :=
  let dx := X target - X currentPos in
  let dy := Y target - Y currentPos in
  Js.ltb (Qabs dx) 1 && Js.ltb (Qabs dy) 1 &&
  Js.ltb (Qabs (X newVel)) 0.3 && Js.ltb (Qabs (Y newVel)) 0.3.

(** [newPos], [newVel] and the target after the [if (targetPositionRef.current)]
    block. *)
Definition springPhase (s : State) : XY * XY * option XY :=
  let currentPos := currentPosition s in
  match targetPosition s with
  | Some target =>
      let newVel := springVelocity currentPos (velocity s) target in
      if closeToTarget currentPos target newVel
      then (target, zeroXY, None)
      else (currentPos, newVel, Some target)
  | None => (currentPos, velocity s, None)
  end.

(** Apply velocity, apply friction, clamp velocity. *)
Definition movePhase (newPos newVel : XY) : XY * XY :=
  let newPos := mkXY (X newPos + X newVel) (Y newPos + Y newVel) in
  let newVel := mkXY (X newVel * FRICTION) (Y newVel * FRICTION) in
  let newVel :=
    mkXY (Qmax (- MAX_VELOCITY) (Qmin MAX_VELOCITY (X newVel)))
         (Qmax (- MAX_VELOCITY) (Qmin MAX_VELOCITY (Y newVel))) in
  (newPos, newVel).

(** One axis of "check boundaries and bounce": the position, the velocity
    and whether [bounced] was set. *)
Definition bounceAxis (lo hi p v : Q) : Q * Q * bool :=
  if Js.ltb p lo then (lo, v * - BOUNCE_DAMPING, true)
  else if Js.ltb hi p then (hi, v * - BOUNCE_DAMPING, true)
  else (p, v, false).

Definition bouncePhase (bounds : Bounds) (newPos newVel : XY) : XY * XY * bool :=
  let '(px, vx, bx) := bounceAxis (minX bounds) (maxX bounds) (X newPos) (X newVel) in
  let '(py, vy, byy) := bounceAxis (minY bounds) (maxY bounds) (Y newPos) (Y newVel) in
  (mkXY px py, mkXY vx vy, bx || byy).

Definition isSome {A} (o : option A) : bool :=
  match o with Some _ => true | None => false end.

(** "Stop if velocity is very small". *)
Definition stopPhase (newVel : XY) (target : option XY) : XY :=
  if Js.ltb (Qabs (X newVel)) 0.05 && Js.ltb (Qabs (Y newVel)) 0.05 &&
     negb (isSome target)
  then mkXY 0 0 else newVel.

(** "Continue animation if there's movement or target". *)
Definition continues (newVel : XY) (target : option XY) : bool :=
  Js.ltb 0.005 (Qabs (X newVel)) || Js.ltb 0.005 (Qabs (Y newVel)) || isSome target.

(** One call of [updatePhysics]: the new refs; [animationFrame] records
    whether the next frame was requested. *)
Definition updatePhysics (e : Env) (s : State) : State :=
  let '(newPos, newVel, target) := springPhase s in
  let '(newPos, newVel) := movePhase newPos newVel in
  let bounds := getViewportBounds e (currentDimensions s) in
  let '(newPos, newVel, _) := bouncePhase bounds newPos newVel in
  let newVel := stopPhase newVel target in
  mkState (isResizing s) (isDragging s) (currentDimensions s) newPos newVel
    target (continues newVel target) (dragStartPos s) (lastMousePos s)
    (lastMouseTime s) (resizeStart s) (prevSide s).

(** The local [bounced] of the same call: a boundary was hit on this step. *)
Definition physicsBounced (e : Env) (s : State) : bool :=
  let '(newPos, newVel, _) := springPhase s in
  let '(newPos, newVel) := movePhase newPos newVel in
  let bounds := getViewportBounds e (currentDimensions s) in
  let '(_, _, bounced) := bouncePhase bounds newPos newVel in
  bounced.

(** The report [updatePhysics] sends through [updateDOM]. *)
Definition physicsReport (e : Env) (s : State) : ZoneReport :=
  let s' := updatePhysics e s in
  updateDOM e (currentDimensions s') (currentPosition s').

(** [startPhysics]: cancel the pending frame and request a fresh one. *)
Definition startPhysics (s : State) : State := setAnimationFrame s true.

(** The animation loop from a scheduled frame: [updatePhysics] runs once
    per frame for as long as it requests the next one.  [Some s'] is the
    state at rest; [None] means the loop is still running after [fuel]
    frames. *)
Fixpoint physicsLoop (fuel : nat) (e : Env) (s : State) : option State :=
  match fuel with
  | O => None
  | S n =>
      let s' := updatePhysics e s in
      if animationFrame s' then physicsLoop n e s' else Some s'
  end.

(** No boundary is hit while the loop runs, for up to [n] frames. *)
Fixpoint unobstructed (n : nat) (e : Env) (s : State) : bool :=
  match n with
  | O => true
  | S k =>
      negb (physicsBounced e s) &&
      (let s' := updatePhysics e s in
       if animationFrame s' then unobstructed k e s' else true)
  end.

(** The state at rest: zero velocity, no target, no frame requested. *)
Definition atRest (s : State) : Prop :=
  velocity s = mkXY 0 0 /\ targetPosition s = None /\ animationFrame s = false.

(** *** A measure of the distance to the target in spring mode *)

(** A quadratic form in the displacement [d] to the target and the
    velocity [v] of one axis; one spring frame multiplies it by at most
    0.9, whether or not the velocity clamp is active. *)
Definition lyapunov (d v : Q) : Q := (d - v) * (d - v) + 14 * (v * v).

Definition energy (s : State) (target : XY) : Q :=
  lyapunov (X target - X (currentPosition s)) (X (velocity s)) +
  lyapunov (Y target - Y (currentPosition s)) (Y (velocity s)).

(** A number of frames within which the spring has snapped: seven frames
    halve [energy], and the snap test holds once it is at most 1/2. *)
Definition springBound (s : State) (target : XY) : nat :=
  S (7 * Z.to_nat (Z.log2_up (Z.max 1 (Qceiling (2 * energy s target))))).

(** *** Drag and resize handlers *)

Definition handleDragStart (ev : MouseEvent) (s : State) : State :=
  if onChrome ev || isResizing s then s
  else
    mkState (isResizing s) true (currentDimensions s) (currentPosition s)
      (mkXY 0 0) None false
      (mkDragStart (clientX ev) (clientY ev)
         (X (currentPosition s)) (Y (currentPosition s)))
      (mkXY (clientX ev) (clientY ev)) (now ev) (resizeStart s) (prevSide s).

Definition handleDragMove (e : Env) (ev : MouseEvent) (s : State) : State :=
  if negb (isDragging s) then s
  else
    let deltaX := clientX ev - ds_x (dragStartPos s) in
    let deltaY := clientY ev - ds_y (dragStartPos s) in
    let newPos := mkXY (offsetX (dragStartPos s) + deltaX)
                       (offsetY (dragStartPos s) + deltaY) in
    let clampedPos := clampPosition e (currentDimensions s) newPos in
    let dt := Qmax 1 (now ev - lastMouseTime s) / 16.67 in
    let dx := clientX ev - X (lastMousePos s) in
    let dy := clientY ev - Y (lastMousePos s) in
    let vel := if Js.ltb 0 dt
               then mkXY ((dx / dt) * 0.25) ((dy / dt) * 0.25)
               else velocity s in
    mkState (isResizing s) (isDragging s) (currentDimensions s) clampedPos vel
      (targetPosition s) (animationFrame s) (dragStartPos s)
      (mkXY (clientX ev) (clientY ev)) (now ev) (resizeStart s) (prevSide s).

(** [wasClamped] of [handleDragEnd]. *)
Definition wasClamped (e : Env) (s : State) : bool :=
  let currentPos := currentPosition s in
  let clampedPos := clampPosition e (currentDimensions s) currentPos in
  Js.neqb (X clampedPos) (X currentPos) || Js.neqb (Y clampedPos) (Y currentPos).

(** [finalSide] of [handleDragEnd], computed there a second time. *)
Definition finalSide (e : Env) (d : Dimensions) (clampedPos : XY) : HSide :=
  let viewportWidth := innerWidth e in
  let pipWidth := width d in
  let baseOffset := VIEWPORT_PADDING in
  let pipCenterX :=
    match side e with
    | Left => baseOffset + pipWidth / 2 + X clampedPos
    | Right => viewportWidth - baseOffset - pipWidth / 2 + X clampedPos
    end in
  let leftThirdBoundary := viewportWidth / 3 in
  let rightThirdBoundary := (viewportWidth * 2) / 3 in
  if Js.ltb pipCenterX leftThirdBoundary then Left
  else if Js.ltb rightThirdBoundary pipCenterX then Right
  else side e.

Definition finalVertical (e : Env) (clampedPos : XY) : Vertical :=
  let viewportHeight := innerHeight e in
  let topThirdBoundary := - viewportHeight / 6 in
  let bottomThirdBoundary := viewportHeight / 6 in
  if Js.ltb (Y clampedPos) topThirdBoundary then Top
  else if Js.ltb bottomThirdBoundary (Y clampedPos) then Bottom
  else Center.

(** The argument of [onDragEnd]. *)
Definition dragEndReport (e : Env) (s : State) : ZoneReport :=
  let clampedPos := clampPosition e (currentDimensions s) (currentPosition s) in
  mkReport (finalSide e (currentDimensions s) clampedPos) (finalVertical e clampedPos).

(** The argument of [onPositionChange] sent by [handleDragEnd] through
    [updateDOM]. *)
Definition dragEndPositionReport (e : Env) (s : State) : ZoneReport :=
  updateDOM e (currentDimensions s)
    (clampPosition e (currentDimensions s) (currentPosition s)).

Definition handleDragEnd (e : Env) (s : State) : State :=
  let currentPos := currentPosition s in
  let clampedPos := clampPosition e (currentDimensions s) currentPos in
  let pos := if wasClamped e s then clampedPos else currentPos in
  let start :=
    Js.ltb 0.05 (Qabs (X (velocity s))) || Js.ltb 0.05 (Qabs (Y (velocity s))) ||
    wasClamped e s in
  mkState (isResizing s) false (currentDimensions s) pos (velocity s)
    (targetPosition s) (if start then true else animationFrame s)
    (dragStartPos s) (lastMousePos s) (lastMouseTime s) (resizeStart s)
    (prevSide s).

(** [handleResizeStart]; [rectRight], [rectTop] and [wrapperRectLeft] are
    read from the DOM rectangles. *)
Definition handleResizeStart (ev : MouseEvent) (rectRight rectTop wrapperRectLeft : Q)
    (s : State) : State :=
  mkState true (isDragging s) (currentDimensions s) (currentPosition s)
    (mkXY 0 0) None false (dragStartPos s) (lastMousePos s) (lastMouseTime s)
    (mkResizeStart (clientX ev) (clientY ev)
       (width (currentDimensions s)) (height (currentDimensions s))
       rectRight rectTop (X (currentPosition s)) (Y (currentPosition s))
       wrapperRectLeft)
    (prevSide s).

(** *** Anchor-side change (the [useEffect] on [side]) *)

(** The stored x as an absolute screen x, under the old anchor. *)
Definition absoluteScreenX (oldSide : HSide) (viewportWidth width oldPosX : Q) : Q :=
  let baseOffset := VIEWPORT_PADDING in
  match oldSide with
  | Left => baseOffset + oldPosX
  | Right => viewportWidth - baseOffset - width + oldPosX
  end.

(** The absolute screen x as a stored x, under the new anchor. *)
Definition newPosX (newSide : HSide) (viewportWidth width absoluteScreenX : Q) : Q :=
  let baseOffset := VIEWPORT_PADDING in
  match newSide with
  | Left => absoluteScreenX - baseOffset
  | Right => absoluteScreenX - viewportWidth + baseOffset + width
  end.

(** The remap of the effect: old anchor to screen to new anchor. *)
Definition remapX (oldSide newSide : HSide) (viewportWidth width x : Q) : Q :=
  newPosX newSide viewportWidth width (absoluteScreenX oldSide viewportWidth width x).

Definition targetY (targetVertical : option Vertical) (viewportHeight pipHeight : Q) : Q :=
  let PADDING := 24 in
  match targetVertical with
  | Some Top => PADDING + pipHeight / 2 - viewportHeight / 2
  | Some Bottom => viewportHeight / 2 - PADDING - pipHeight / 2
  | _ => 0
  end.

(** The initial velocity seeded towards the target.  [distance] is exact
    when [dx * dx + dy * dy] is the square of a rational and a lower
    approximation otherwise ([Js.sqrt]); the results below use the
    direction of the seed on every input and its size only on exact
    squares. *)
Definition seedVelocity (targetPos : XY) (posX posY : Q) : XY :=
  let dx := X targetPos - posX in
  let dy := Y targetPos - posY in
  let distance := Js.sqrt (dx * dx + dy * dy) in
  if Js.ltb 0.5 distance then
    let directionX := dx / distance in
    let directionY := dy / distance in
    let initialSpeed := Qmax (distance * 0.1) 2 in
    mkXY (directionX * initialSpeed) (directionY * initialSpeed)
  else mkXY 0 0.

(** The effect run with the new [side] in [e] and the [targetVertical]
    prop. *)
Definition sideChangeEffect (e : Env) (targetVertical : option Vertical) (s : State) : State :=
  if HSide_eqb (prevSide s) (side e) then s
  else
    let oldSide := prevSide s in
    let newSide := side e in
    let oldPos := currentPosition s in
    let width := width (currentDimensions s) in
    let viewportWidth := innerWidth e in
    let x' := remapX oldSide newSide viewportWidth width (X oldPos) in
    let convertedPos := mkXY x' (Y oldPos) in
    let targetPos :=
      mkXY 0 (targetY targetVertical (innerHeight e) (height (currentDimensions s))) in
    mkState (isResizing s) (isDragging s) (currentDimensions s) convertedPos
      (seedVelocity targetPos x' (Y oldPos)) (Some targetPos) true
      (dragStartPos s) (lastMousePos s) (lastMouseTime s) (resizeStart s) newSide.

(** *** Traces of drag and physics events *)

Inductive Event :=
| DragStart (ev : MouseEvent)
| DragMove (ev : MouseEvent)
| DragEnd
| PhysicsFrame.

Definition handle (e : Env) (ev : Event) (s : State) : State :=
  match ev with
  | DragStart m => handleDragStart m s
  | DragMove m => handleDragMove e m s
  | DragEnd => handleDragEnd e s
  | PhysicsFrame => updatePhysics e s
  end.

(** The mount effect: clamp the initial position. *)
Definition mount (e : Env) : State :=
  let s := initialState e in
  let clampedPos := clampPosition e (currentDimensions s) (currentPosition s) in
  if Js.neqb (X clampedPos) (X (currentPosition s)) ||
     Js.neqb (Y clampedPos) (Y (currentPosition s))
  then setPosition s clampedPos else s.

Definition run (e : Env) (evs : list Event) (s : State) : State :=
  fold_left (fun st ev => handle e ev st) evs s.

(** The bounds leave room [rx] and [ry] on both sides of the target. *)
Definition roomAround (b : Bounds) (target : XY) (rx ry : Q) : Prop :=
  minX b <= X target - rx /\ X target + rx <= maxX b /\
  minY b <= Y target - ry /\ Y target + ry <= maxY b.

(** *** Resize gesture, window resize and event dispatch *)

Definition ASPECT_RATIO : Q := 4 / 3.
Definition MIN_WIDTH : Q := 240.
Definition MAX_WIDTH : Q := 640.
Definition MIN_HEIGHT : Q := MIN_WIDTH / ASPECT_RATIO.
Definition MAX_HEIGHT : Q := MAX_WIDTH / ASPECT_RATIO.

Definition handleResizeMove (e : Env) (ev : MouseEvent) (s : State) : State :=
  if negb (isResizing s) then s
  else
    let rawWidth := anchorX (resizeStart s) - clientX ev in
    let rawHeight := clientY ev - anchorY (resizeStart s) in
    let finalWidth := Qmax MIN_WIDTH (Qmin MAX_WIDTH rawWidth) in
    let finalHeight := Qmax MIN_HEIGHT (Qmin MAX_HEIGHT rawHeight) in
    let widthDelta := finalWidth - rs_width (resizeStart s) in
    let heightDelta := finalHeight - rs_height (resizeStart s) in
    let newPosition :=
      mkXY (match side e with
            | Left => startPosX (resizeStart s) - widthDelta
            | Right => startPosX (resizeStart s)
            end)
           (startPosY (resizeStart s) + heightDelta / 2) in
    mkState (isResizing s) (isDragging s) (mkDim finalWidth finalHeight)
      newPosition (velocity s) (targetPosition s) (animationFrame s)
      (dragStartPos s) (lastMousePos s) (lastMouseTime s) (resizeStart s)
      (prevSide s).

Definition handleResizeEnd (s : State) : State :=
  mkState false (isDragging s) (currentDimensions s) (currentPosition s)
    (velocity s) (targetPosition s) (animationFrame s) (dragStartPos s)
    (lastMousePos s) (lastMouseTime s) (resizeStart s) (prevSide s).

(** The listener of the window [resize] event; [e] holds the new window
    size. *)
Definition handleResize (e : Env) (s : State) : State :=
  let clampedPos := clampPosition e (currentDimensions s) (currentPosition s) in
  let s1 := setPosition s clampedPos in
  if animationFrame s then s1
  else
    let bounds := getViewportBounds e (currentDimensions s) in
    if Js.ltb (X clampedPos) (minX bounds) || Js.ltb (maxX bounds) (X clampedPos) ||
       Js.ltb (Y clampedPos) (minY bounds) || Js.ltb (maxY bounds) (Y clampedPos)
    then startPhysics s1 else s1.

(** The rendered rectangle, as the comments of [getViewportBounds] and of
    the side-change effect give it: the left edge is the absolute screen x,
    the centre sits [pos.y] below the middle of the viewport. *)
Definition screenLeft (e : Env) (d : Dimensions) (pos : XY) : Q :=
  absoluteScreenX (side e) (innerWidth e) (width d) (X pos).

Definition screenRight (e : Env) (d : Dimensions) (pos : XY) : Q :=
  screenLeft e d pos + width d.

Definition screenTop (e : Env) (d : Dimensions) (pos : XY) : Q :=
  innerHeight e / 2 + Y pos - height d / 2.

Definition screenBottom (e : Env) (d : Dimensions) (pos : XY) : Q :=
  innerHeight e / 2 + Y pos + height d / 2.

(** What reaches the component: mouse events, animation frames, a window
    resize and a change of the props. *)
Inductive Action :=
| MouseDownWidget (ev : MouseEvent)
| MouseDownHandle (ev : MouseEvent) (rectRight rectTop wrapperRectLeft : Q)
| MouseMoveWindow (ev : MouseEvent)
| MouseUpWindow
| AnimationFrame
| WindowResize (viewportWidth viewportHeight : Q)
| SideProp (newSide : HSide) (targetVertical : option Vertical).

(** The action is a mouse event or an animation frame. *)
Definition isGesture (a : Action) : bool :=
  match a with
  | WindowResize _ _ | SideProp _ _ => false
  | _ => true
  end.

(** The listeners as the effects attach them: the window [mousemove] and
    [mouseup] listeners of a gesture exist only while its flag is set, and
    [updatePhysics] runs only in a frame that was requested. *)
Definition dispatch (a : Action) (es : Env * State) : Env * State :=
  let '(e, s) := es in
  match a with
  | MouseDownWidget ev => (e, handleDragStart ev s)
  | MouseDownHandle ev r t l => (e, handleResizeStart ev r t l s)
  | MouseMoveWindow ev => (e, handleDragMove e ev (handleResizeMove e ev s))
  | MouseUpWindow =>
      let s1 := if isResizing s then handleResizeEnd s else s in
      (e, if isDragging s then handleDragEnd e s1 else s1)
  | AnimationFrame => (e, if animationFrame s then updatePhysics e s else s)
  | WindowResize vw vh =>
      let e' := mkEnv (side e) vw vh in (e', handleResize e' s)
  | SideProp sd tv =>
      let e' := mkEnv sd (innerWidth e) (innerHeight e) in
      (e', sideChangeEffect e' tv s)
  end.

Definition dispatchAll (acts : list Action) (es : Env * State) : Env * State :=
  fold_left (fun st a => dispatch a st) acts es.

(** A resize gesture: the handle is pressed, then the pointer moves. *)
Definition resizeGesture (e : Env) (ev0 : MouseEvent) (r t l : Q)
    (moves : list MouseEvent) (s : State) : State :=
  fold_left (fun st ev => handleResizeMove e ev st) moves
    (handleResizeStart ev0 r t l s).

(** A drag gesture: press on the widget, pointer moves, release. *)
Definition dragGesture (e : Env) (ev0 : MouseEvent) (moves : list MouseEvent)
    (s : State) : State :=
  handleDragEnd e
    (fold_left (fun st ev => handleDragMove e ev st) moves (handleDragStart ev0 s)).

(** The environment before the side prop changed. *)
Definition previousEnv (e : Env) (s : State) : Env :=
  mkEnv (prevSide s) (innerWidth e) (innerHeight e).

(** The dimensions respect the width and height ranges of the component. *)
Definition dimensionsInRange (d : Dimensions) : Prop :=
  MIN_WIDTH <= width d /\ width d <= MAX_WIDTH /\
  MIN_HEIGHT <= height d /\ height d <= MAX_HEIGHT.

(** No frame is scheduled while a gesture is active. *)
Definition gestureSuppressesPhysics (s : State) : Prop :=
  isDragging s = true \/ isResizing s = true -> animationFrame s = false.

(** [n] calls of [updatePhysics] in a row. *)
Fixpoint physicsFrames (n : nat) (e : Env) (s : State) : State :=
  match n with
  | O => s
  | S k => physicsFrames k e (updatePhysics e s)
  end.

(** The moves of a drag, after the press. *)
Definition dragMoves (e : Env) (ev0 : MouseEvent) (moves : list MouseEvent)
    (s : State) : State :=
  fold_left (fun st ev => handleDragMove e ev st) moves (handleDragStart ev0 s).

(** The side of a report as a value that may be null, for comparison with
    [Side]. *)
Definition reportSide (r : ZoneReport) : Side := Some (r_side r).

(** *** Sample inputs *)

(** A drag that pulls the widget far past the right and bottom edges, a
    release and three physics frames, on a 1200 x 800 viewport. *)
Definition demoEnv : Env := mkEnv Left 1200 800.

(** A drag released with fling velocity (8, 0): the last move covers 32 px
    in one nominal frame. *)
Definition flingState : State :=
  run demoEnv
    [ DragStart (mkMouse 100 400 0 false);
      DragMove (mkMouse 132 400 16.67 false);
      DragEnd ]
    (mount demoEnv).

(** A spring run towards a target one pixel to the right, away from every
    boundary. *)
Definition springState : State :=
  setTarget (startPhysics (setPosition (mount demoEnv) (mkXY 100 0)))
    (Some (mkXY 101 0)).

(** A spring run over 300 px to the right and 50 px down, in the middle of
    the viewport. *)
Definition farSpringState : State :=
  setTarget (startPhysics (setPosition (mount demoEnv) (mkXY 100 0)))
    (Some (mkXY 400 50)).

Definition demoDrag : list Event :=
  [ DragStart (mkMouse 100 400 0 false);
    DragMove (mkMouse 5000 3000 16.67 false);
    DragEnd; PhysicsFrame; PhysicsFrame; PhysicsFrame ].

End MeetPip.

(** ** [EyeTracker]: gaze classifier, cursor zones and the cursor-entry policy *)

Module EyeTracker.

(** *** Gaze classifier ([detectFace]) *)

(** The value of a JavaScript division whose divisor may be zero. *)
Inductive JsNumber := Finite (q : Q) | PlusInfinity | MinusInfinity | NaN.

(** [a / b] for [b >= 0]. *)
Definition jsDiv (a b : Q) : JsNumber :=
  if Qeq_bool b 0 then
    if Js.ltb 0 a then PlusInfinity
    else if Js.ltb a 0 then MinusInfinity
    else NaN
  else Finite (a / b).

(** [c + n * k] for a positive factor [k]. *)
Definition jsAffine (c k : Q) (n : JsNumber) : JsNumber :=
  match n with
  | Finite q => Finite (c + q * k)
  | other => other
  end.

(** [c - n * k] for a positive factor [k]. *)
Definition jsAffineNeg (c k : Q) (n : JsNumber) : JsNumber :=
  match n with
  | Finite q => Finite (c - q * k)
  | PlusInfinity => MinusInfinity
  | MinusInfinity => PlusInfinity
  | NaN => NaN
  end.

(** [n < q] and [n > q]. *)
Definition jsLt (n : JsNumber) (q : Q) : bool :=
  match n with
  | Finite a => Js.ltb a q
  | MinusInfinity => true
  | _ => false
  end.

Definition jsGt (n : JsNumber) (q : Q) : bool :=
  match n with
  | Finite a => Js.ltb q a
  | PlusInfinity => true
  | _ => false
  end.

Record Keypoint := mkKeypoint { kx : Q; ky : Q }.

(** The landmarks read from [faces[0].keypoints]; the iris centres may be
    missing. *)
Record Face := mkFace {
  leftIrisCenter : option Keypoint;
  rightIrisCenter : option Keypoint;
  leftEyeInner : Keypoint;
  leftEyeOuter : Keypoint;
  rightEyeInner : Keypoint;
  rightEyeOuter : Keypoint }.

(** What one pass of [detect] meets. *)
Inductive FrameOutcome :=
| VideoNotReady
| DetectorThrows
| Faces (faces : list Face).

Definition centerThreshold : Q := 0.05.

(** The threshold test on [normalizedX]. *)
Definition classifyGaze (normalizedX : JsNumber) : Side :=
  if jsLt normalizedX (0.5 - centerThreshold) then Some Left
  else if jsGt normalizedX (0.5 + centerThreshold) then Some Right
  else None.

Definition normalizedX (f : Face) (l r : Keypoint) : JsNumber :=
  let avgIrisX := (kx l + kx r) / 2 in
  let leftEyeCenterX := (kx (leftEyeInner f) + kx (leftEyeOuter f)) / 2 in
  let rightEyeCenterX := (kx (rightEyeInner f) + kx (rightEyeOuter f)) / 2 in
  let eyeCenterX := (leftEyeCenterX + rightEyeCenterX) / 2 in
  let leftEyeWidth := Qabs (kx (leftEyeOuter f) - kx (leftEyeInner f)) in
  let rightEyeWidth := Qabs (kx (rightEyeOuter f) - kx (rightEyeInner f)) in
  let avgEyeWidth := (leftEyeWidth + rightEyeWidth) / 2 in
  let offsetX := jsDiv (avgIrisX - eyeCenterX) avgEyeWidth in
  jsAffineNeg 0.5 2 offsetX.

Definition normalizedY (f : Face) (l r : Keypoint) : JsNumber :=
  let avgIrisY := (ky l + ky r) / 2 in
  let leftEyeCenterY := (ky (leftEyeInner f) + ky (leftEyeOuter f)) / 2 in
  let rightEyeCenterY := (ky (rightEyeInner f) + ky (rightEyeOuter f)) / 2 in
  let eyeCenterY := (leftEyeCenterY + rightEyeCenterY) / 2 in
  let leftEyeWidth := Qabs (kx (leftEyeOuter f) - kx (leftEyeInner f)) in
  let rightEyeWidth := Qabs (kx (rightEyeOuter f) - kx (rightEyeInner f)) in
  let avgEyeWidth := (leftEyeWidth + rightEyeWidth) / 2 in
  let offsetY := jsDiv (avgIrisY - eyeCenterY) avgEyeWidth in
  jsAffine 0.5 3 offsetY.

(** *** Component state *)

(** The pending cursor-entry timeout with what its callback closes over. *)
Record Debounce := mkDebounce {
  deadline : Q;
  d_pipPosition : ZoneReport;
  d_cursorVertical : Vertical }.

(** React state and refs of [EyeTracker].  [animationRef] is [true] when a
    detection frame is requested; [commands] logs the moves commanded by
    the debounce callback, oldest first. *)
Record State := mkState {
  isTracking : bool;
  ballSide : HSide;
  targetVertical : option Vertical;
  cursorSide : Side;
  cursorVertical : Vertical;
  gazeSide : Side;
  lastDefinitiveGazeSide : Side;
  eyePosition : option (JsNumber * JsNumber);
  isCursorHoveringPip : bool;
  pipPosition : ZoneReport;
  isUserControllingPip : bool;
  targetVerticalRef : option Vertical;
  reEngageTimer : option Q;
  cursorMoveDebounce : option Debounce;
  prevCursorSide : Side;
  gazeAtPipStartTime : option Q;
  animationRef : bool;
  commands : list ZoneReport }.

Definition initialState : State :=
  mkState false Left None None Center None None None false
    (mkReport Left Center) false None None None None None false [].

(** [window.innerWidth] and [window.innerHeight]. *)
Record Screen := mkScreen { screenWidth : Q; screenHeight : Q }.

(** One pass of [detect]: the gaze state is written only when a face with
    both iris centres is found; the next frame is requested on every path. *)
Definition detect (o : FrameOutcome) (s : State) : State :=
  let unchanged :=
    mkState (isTracking s) (ballSide s) (targetVertical s) (cursorSide s)
      (cursorVertical s) (gazeSide s) (lastDefinitiveGazeSide s) (eyePosition s)
      (isCursorHoveringPip s) (pipPosition s) (isUserControllingPip s)
      (targetVerticalRef s) (reEngageTimer s) (cursorMoveDebounce s)
      (prevCursorSide s) (gazeAtPipStartTime s) true (commands s) in
  match o with
  | VideoNotReady => unchanged
  | DetectorThrows => unchanged
  | Faces [] => unchanged
  | Faces (face :: _) =>
      match leftIrisCenter face, rightIrisCenter face with
      | Some l, Some r =>
          let nx := normalizedX face l r in
          let ny := normalizedY face l r in
          let g := classifyGaze nx in
          mkState (isTracking s) (ballSide s) (targetVertical s) (cursorSide s)
            (cursorVertical s) g
            (match g with Some d => Some d | None => lastDefinitiveGazeSide s end)
            (Some (nx, ny))
            (isCursorHoveringPip s) (pipPosition s) (isUserControllingPip s)
            (targetVerticalRef s) (reEngageTimer s) (cursorMoveDebounce s)
            (prevCursorSide s) (gazeAtPipStartTime s) true (commands s)
      | _, _ => unchanged
      end
  end.

(** The detection loop over successive frames. *)
Definition detectLoop (os : list FrameOutcome) (s : State) : State :=
  fold_left (fun st o => detect o st) os s.

(** *** Cursor zones and the cursor-entry policy ([handleMouseMove]) *)

Definition cursorZoneSide (w : Screen) (clientX : Q) : Side :=
  let leftThird := screenWidth w / 3 in
  let rightThird := (screenWidth w * 2) / 3 in
  if Js.ltb clientX leftThird then Some Left
  else if Js.ltb rightThird clientX then Some Right
  else None.

Definition cursorZoneVertical (w : Screen) (clientY : Q) : Vertical :=
  let topThird := screenHeight w / 3 in
  let bottomThird := (screenHeight w * 2) / 3 in
  if Js.ltb clientY topThird then Top
  else if Js.ltb bottomThird clientY then Bottom
  else Center.

Definition isWithinGracePeriod (now : Q) (s : State) : bool :=
  match gazeAtPipStartTime s with
  | Some t0 => Js.ltb (now - t0) 1000
  | None => false
  end.

(** The guard of the trigger: no suppression condition holds. *)
Definition unsuppressed (now : Q) (s : State) : bool :=
  negb (isUserControllingPip s) &&
  (negb (Side_eqb (gazeSide s) (Some (r_side (pipPosition s)))) ||
   isWithinGracePeriod now s) &&
  negb (isCursorHoveringPip s) &&
  negb (MeetPip.isSome (targetVertical s)).

Definition cursorJustEnteredZone (newCursorSide : Side) (s : State) : bool :=
  let wasInPipZone := Side_eqb (prevCursorSide s) (Some (r_side (pipPosition s))) in
  let isNowInPipZone := Side_eqb newCursorSide (Some (r_side (pipPosition s))) in
  negb wasInPipZone && isNowInPipZone.

Definition setMouse (s : State) (cs : Side) (cv : Vertical)
    (d : option Debounce) : State :=
  mkState (isTracking s) (ballSide s) (targetVertical s) cs cv (gazeSide s)
    (lastDefinitiveGazeSide s) (eyePosition s) (isCursorHoveringPip s)
    (pipPosition s) (isUserControllingPip s) (targetVerticalRef s)
    (reEngageTimer s) d cs (gazeAtPipStartTime s) (animationRef s) (commands s).

(** The listener is registered only while tracking is active. *)
Definition handleMouseMove (w : Screen) (clientX clientY now : Q) (s : State) : State :=
  if negb (isTracking s) then s
  else
    let newCursorSide := cursorZoneSide w clientX in
    let newCursorVertical := cursorZoneVertical w clientY in
    let d :=
      if unsuppressed now s && cursorJustEnteredZone newCursorSide s
      then Some (mkDebounce (now + 150) (pipPosition s) newCursorVertical)
      else cursorMoveDebounce s in
    setMouse s newCursorSide newCursorVertical d.

Definition oppositeSide (p : HSide) : HSide :=
  match p with Left => Right | Right => Left end.

Definition oppositeVertical (newCursorVertical pipVertical : Vertical) : Vertical :=
  match newCursorVertical with
  | Top => Bottom
  | Bottom => Top
  | Center =>
      match pipVertical with
      | Top => Bottom
      | Bottom => Top
      | Center => Center
      end
  end.

(** The move commanded by the timeout callback. *)
Definition command (d : Debounce) : ZoneReport :=
  mkReport (oppositeSide (r_side (d_pipPosition d)))
    (oppositeVertical (d_cursorVertical d) (r_vertical (d_pipPosition d))).

Definition setDebounce (s : State) (d : option Debounce) : State :=
  mkState (isTracking s) (ballSide s) (targetVertical s) (cursorSide s)
    (cursorVertical s) (gazeSide s) (lastDefinitiveGazeSide s) (eyePosition s)
    (isCursorHoveringPip s) (pipPosition s) (isUserControllingPip s)
    (targetVerticalRef s) (reEngageTimer s) d (prevCursorSide s)
    (gazeAtPipStartTime s) (animationRef s) (commands s).

(** The cleanup of the mouse effect, run when one of its dependencies
    changes: the listener is removed and the pending timeout cleared. *)
Definition mouseEffectCleanup (s : State) : State := setDebounce s None.

(** The gaze-grace effect. *)
Definition gazeEffect (now : Q) (s : State) : State :=
  if negb (isTracking s) then s
  else
    let t :=
      if Side_eqb (gazeSide s) (Some (r_side (pipPosition s))) then
        match gazeAtPipStartTime s with
        | None => Some now
        | Some t0 => Some t0
        end
      else None in
    mkState (isTracking s) (ballSide s) (targetVertical s) (cursorSide s)
      (cursorVertical s) (gazeSide s) (lastDefinitiveGazeSide s) (eyePosition s)
      (isCursorHoveringPip s) (pipPosition s) (isUserControllingPip s)
      (targetVerticalRef s) (reEngageTimer s) (cursorMoveDebounce s)
      (prevCursorSide s) t (animationRef s) (commands s).

(** The timeout callback: command the move and forget the timer; the
    [targetVertical] sync effect then copies the new value into its ref. *)
Definition fireDebounce (s : State) : State :=
  match cursorMoveDebounce s with
  | None => s
  | Some d =>
      let c := command d in
      mkState (isTracking s) (r_side c) (Some (r_vertical c)) (cursorSide s)
        (cursorVertical s) (gazeSide s) (lastDefinitiveGazeSide s) (eyePosition s)
        (isCursorHoveringPip s) (pipPosition s) (isUserControllingPip s)
        (Some (r_vertical c)) (reEngageTimer s) None (prevCursorSide s)
        (gazeAtPipStartTime s) (animationRef s) (commands s ++ [c])
  end.

(** The re-engage callback; leaving user control is a dependency change of
    the mouse effect. *)
Definition fireReEngage (s : State) : State :=
  mkState (isTracking s) (ballSide s) (targetVertical s) (cursorSide s)
    (cursorVertical s) (gazeSide s) (lastDefinitiveGazeSide s) (eyePosition s)
    (isCursorHoveringPip s) (pipPosition s) false (targetVerticalRef s) None
    (if isUserControllingPip s then None else cursorMoveDebounce s)
    (prevCursorSide s) (gazeAtPipStartTime s) (animationRef s) (commands s).

Definition due (t : option Q) (now : Q) : bool :=
  match t with Some d => Qle_bool d now | None => false end.

Definition runDebounce (now : Q) (s : State) : State :=
  if due (option_map deadline (cursorMoveDebounce s)) now then fireDebounce s else s.

Definition runReEngage (now : Q) (s : State) : State :=
  if due (reEngageTimer s) now then fireReEngage s else s.

(** Time advances to [now]: the timeouts whose deadline has passed run,
    the earlier first. *)
Definition elapse (now : Q) (s : State) : State :=
  let debounceFirst :=
    match reEngageTimer s, cursorMoveDebounce s with
    | Some r, Some d => Js.ltb (deadline d) r
    | _, _ => true
    end in
  if debounceFirst then runReEngage now (runDebounce now s)
  else runDebounce now (runReEngage now s).

(** *** The other handlers, each followed by the effects React re-runs *)

Definition handlePipHover (hovering : bool) (s : State) : State :=
  let s' :=
    mkState (isTracking s) (ballSide s) (targetVertical s) (cursorSide s)
      (cursorVertical s) (gazeSide s) (lastDefinitiveGazeSide s) (eyePosition s)
      hovering (pipPosition s) (isUserControllingPip s) (targetVerticalRef s)
      (reEngageTimer s) (cursorMoveDebounce s) (prevCursorSide s)
      (gazeAtPipStartTime s) (animationRef s) (commands s) in
  if Bool.eqb hovering (isCursorHoveringPip s) then s' else mouseEffectCleanup s'.

(** [setPipPosition] stores a fresh object, so the mouse effect always
    re-runs; the gaze effect re-runs when [pipPosition.side] changes. *)
Definition handlePipPositionChange (now : Q) (position : ZoneReport) (s : State) : State :=
  let reached :=
    match targetVerticalRef s with
    | Some v => Vertical_eqb (r_vertical position) v
    | None => false
    end in
  let s' :=
    mkState (isTracking s) (ballSide s)
      (if reached then None else targetVertical s) (cursorSide s)
      (cursorVertical s) (gazeSide s) (lastDefinitiveGazeSide s) (eyePosition s)
      (isCursorHoveringPip s) position (isUserControllingPip s)
      (if reached then None else targetVerticalRef s)
      (reEngageTimer s) None (prevCursorSide s)
      (gazeAtPipStartTime s) (animationRef s) (commands s) in
  if HSide_eqb (r_side position) (r_side (pipPosition s)) then s'
  else gazeEffect now s'.

Definition handlePipDragStart (s : State) : State :=
  mkState (isTracking s) (ballSide s) (targetVertical s) (cursorSide s)
    (cursorVertical s) (gazeSide s) (lastDefinitiveGazeSide s) (eyePosition s)
    (isCursorHoveringPip s) (pipPosition s) true (targetVerticalRef s) None
    (if isUserControllingPip s then cursorMoveDebounce s else None)
    (prevCursorSide s) (gazeAtPipStartTime s) (animationRef s) (commands s).

Definition handlePipDragEnd (now : Q) (finalPosition : ZoneReport) (s : State) : State :=
  mkState (isTracking s) (r_side finalPosition) None (cursorSide s)
    (cursorVertical s) (gazeSide s) (lastDefinitiveGazeSide s) (eyePosition s)
    (isCursorHoveringPip s) (pipPosition s) (isUserControllingPip s) None
    (Some (now + 10000))
    (if MeetPip.isSome (targetVertical s) then None else cursorMoveDebounce s)
    (prevCursorSide s) (gazeAtPipStartTime s) (animationRef s) (commands s).

(** One detection frame; a changed [gazeSide] re-runs both effects. *)
Definition handleFrame (now : Q) (o : FrameOutcome) (s : State) : State :=
  let s' := detect o s in
  if Side_eqb (gazeSide s') (gazeSide s) then s'
  else gazeEffect now (mouseEffectCleanup s').

(** *** Timed traces *)

Inductive Event :=
| MouseMove (clientX clientY : Q)
| Frame (o : FrameOutcome)
| PipMouseEnter
| PipMouseLeave
| PipPositionChange (position : ZoneReport)
| PipDragStart
| PipDragEnd (finalPosition : ZoneReport)
| Wait.

(** An event at clock reading [now], after the timeouts due by then. *)
Definition step (w : Screen) (now : Q) (ev : Event) (s : State) : State :=
  let s := elapse now s in
  match ev with
  | MouseMove x y => handleMouseMove w x y now s
  | Frame o => handleFrame now o s
  | PipMouseEnter => handlePipHover true s
  | PipMouseLeave => handlePipHover false s
  | PipPositionChange p => handlePipPositionChange now p s
  | PipDragStart => handlePipDragStart s
  | PipDragEnd p => handlePipDragEnd now p s
  | Wait => s
  end.

Definition run (w : Screen) (evs : list (Q * Event)) (s : State) : State :=
  fold_left (fun st tev => step w (fst tev) (snd tev) st) evs s.

(** Mouse-move samples [(now, clientX, clientY)] as timed events. *)
Definition moveEvents (ms : list (Q * Q * Q)) : list (Q * Event) :=
  map (fun m => (fst (fst m), MouseMove (snd (fst m)) (snd m))) ms.



(** The side of the widget's zone, as a cursor zone. *)
Definition pipZone (s : State) : Side := Some (r_side (pipPosition s)).

(** *** Stopping, and the quantities of the gaze normalisation *)

(** [stopTracking]; when [isTracking] or [gazeSide] changes, the mouse
    effect is cleaned up; the gaze effect returns at once since tracking is
    off. *)
Definition stopTracking (s : State) : State :=
  mkState false (ballSide s) (targetVertical s) (cursorSide s)
    (cursorVertical s) None (lastDefinitiveGazeSide s) None
    (isCursorHoveringPip s) (pipPosition s) (isUserControllingPip s)
    (targetVerticalRef s) (reEngageTimer s)
    (if isTracking s || MeetPip.isSome (gazeSide s) then None
     else cursorMoveDebounce s)
    (prevCursorSide s) (gazeAtPipStartTime s) false (commands s).

(** [avgIrisX - eyeCenterX] of [detect]. *)
Definition irisOffset (f : Face) (l r : Keypoint) : Q :=
  let avgIrisX := (kx l + kx r) / 2 in
  let leftEyeCenterX := (kx (leftEyeInner f) + kx (leftEyeOuter f)) / 2 in
  let rightEyeCenterX := (kx (rightEyeInner f) + kx (rightEyeOuter f)) / 2 in
  let eyeCenterX := (leftEyeCenterX + rightEyeCenterX) / 2 in
  avgIrisX - eyeCenterX.

(** [avgEyeWidth] of [detect]. *)
Definition avgEyeWidth (f : Face) : Q :=
  let leftEyeWidth := Qabs (kx (leftEyeOuter f) - kx (leftEyeInner f)) in
  let rightEyeWidth := Qabs (kx (rightEyeOuter f) - kx (rightEyeInner f)) in
  (leftEyeWidth + rightEyeWidth) / 2.

(** A landmark scaled by [k] and shifted by [(a, b)]: the same face
    nearer to or farther from the camera, elsewhere in the frame. *)
Definition moveKeypoint (k a b : Q) (p : Keypoint) : Keypoint :=
  mkKeypoint (k * kx p + a) (k * ky p + b).

Definition moveFace (k a b : Q) (f : Face) : Face :=
  mkFace (option_map (moveKeypoint k a b) (leftIrisCenter f))
    (option_map (moveKeypoint k a b) (rightIrisCenter f))
    (moveKeypoint k a b (leftEyeInner f)) (moveKeypoint k a b (leftEyeOuter f))
    (moveKeypoint k a b (rightEyeInner f)) (moveKeypoint k a b (rightEyeOuter f)).

(** *** Invariants of the policy state *)

(** A timeout is pending only under the conditions that allow a trigger. *)
Definition pendingIsPermitted (s : State) : Prop :=
  cursorMoveDebounce s <> None ->
  isTracking s = true /\ isUserControllingPip s = false /\
  isCursorHoveringPip s = false /\ targetVertical s = None.

(** The grace clock runs exactly while the gaze is on the widget's side. *)
Definition graceClockRuns (s : State) : Prop :=
  gazeAtPipStartTime s <> None <-> gazeSide s = pipZone s.

(** A definite gaze side is also the last definitive one. *)
Definition definitiveFollowsGaze (s : State) : Prop :=
  gazeSide s <> None -> lastDefinitiveGazeSide s = gazeSide s.

(** Up and down exchanged. *)
Definition flipVertical (v : Vertical) : Vertical :=
  match v with Top => Bottom | Bottom => Top | Center => Center end.

(** The window of the widget's [Env] as the tracker's [Screen]: both read
    [window.innerWidth] and [window.innerHeight]. *)
Definition screenOf (e : MeetPip.Env) : Screen :=
  mkScreen (MeetPip.innerWidth e) (MeetPip.innerHeight e).

(** An event of a stretch in which no drag ends and the widget, of size [d]
    in the window of [e], reports through [updateDOM] from positions within
    its bounds. *)
Definition widgetEvent (e : MeetPip.Env) (d : MeetPip.Dimensions) (ev : Event) : Prop :=
  match ev with
  | PipPositionChange p =>
      exists pos, MeetPip.inBounds (MeetPip.getViewportBounds e d) pos /\
                  p = MeetPip.updateDOM e d pos
  | PipDragEnd _ => False
  | _ => True
  end.



(** *** Sample inputs *)

Definition demoScreen : Screen := mkScreen 1200 800.

(** Tracking is on, the widget is reported on the left, the gaze is in the
    centre and the cursor was last seen in the right third. *)
Definition cursorOutside : State :=
  mkState true Left None (Some Right) Center None None None false
    (mkReport Left Center) false None None None (Some Right) None true [].

(** A face whose irises sit [shift] to the side of the eye centres; the
    eyes are 40 wide, so [normalizedX] is [0.5 - shift / 20]. *)
Definition sampleFace (shift : Q) : Face :=
  mkFace (Some (mkKeypoint (100 + shift) 100)) (Some (mkKeypoint (200 + shift) 100))
    (mkKeypoint 120 100) (mkKeypoint 80 100)
    (mkKeypoint 180 100) (mkKeypoint 220 100).



(** Tracking is on and the last frame classified the gaze as left. *)
Definition lookingLeft : State :=
  detect (Faces [sampleFace 4])
    (mkState true Left None None Center None None None false
       (mkReport Left Center) false None None None None None true []).

End EyeTracker.
(** Division by a numeral is multiplication by its inverse, a constant. *)
Ltac qconst :=
  unfold Qdiv in *;
  repeat match goal with
  | |- context [Qinv (inject_Z ?c)] =>
      let v := eval cbv in (Qinv (inject_Z c)) in change (Qinv (inject_Z c)) with v
  | |- context [Qinv (?n # ?d)] =>
      let v := eval cbv in (Qinv (n # d)) in change (Qinv (n # d)) with v
  | H : context [Qinv (?n # ?d)] |- _ =>
      let v := eval cbv in (Qinv (n # d)) in change (Qinv (n # d)) with v in H
  end.

Module JsFacts.
Import Js.

Lemma ltb_lt a b : ltb a b = true <-> a < b.
Proof.
  unfold ltb. rewrite negb_true_iff, <- not_true_iff_false, Qle_bool_iff.
  split; [apply Qnot_le_lt | apply Qlt_not_le].
Qed.

Lemma ltb_ge a b : ltb a b = false <-> b <= a.
Proof.
  unfold ltb. rewrite negb_false_iff. apply Qle_bool_iff.
Qed.

Lemma neqb_false a b : neqb a b = false <-> a == b.
Proof.
  unfold neqb. rewrite negb_false_iff. apply Qeq_bool_iff.
Qed.

Lemma ltb_spec a b : {ltb a b = true /\ a < b} + {ltb a b = false /\ b <= a}.
Proof.
  destruct (ltb a b) eqn:E; [left | right]; split; trivial.
  - now apply ltb_lt.
  - now apply ltb_ge.
Qed.

End JsFacts.

Lemma HSide_eqb_eq a b : HSide_eqb a b = true <-> a = b.
Proof. destruct a, b; simpl; split; congruence. Qed.

Lemma Side_eqb_eq a b : Side_eqb a b = true <-> a = b.
Proof.
  destruct a as [u|], b as [v|]; simpl; try (split; congruence).
  rewrite HSide_eqb_eq. split; congruence.
Qed.


(** ** Facts about [MeetPip] *)

Module MeetPipFacts.
Import MeetPip.

(** *** Clamping *)

Lemma clamp_between lo hi x :
  lo <= hi -> lo <= Qmax lo (Qmin hi x) /\ Qmax lo (Qmin hi x) <= hi.
Proof.
  intros Hle. split.
  - apply Q.le_max_l.
  - apply Q.max_lub; [exact Hle | apply Q.le_min_l].
Qed.

Lemma clamp_inside lo hi x :
  lo <= x -> x <= hi -> Qmax lo (Qmin hi x) == x.
Proof.
  intros Hlo Hhi. rewrite (Q.min_r hi x Hhi). now apply Q.max_r.
Qed.

Lemma fits_nonempty e d :
  fitsViewport e d ->
  minX (getViewportBounds e d) <= maxX (getViewportBounds e d) /\
  minY (getViewportBounds e d) <= maxY (getViewportBounds e d).
Proof.
  unfold fitsViewport, getViewportBounds, VIEWPORT_PADDING.
  intros [Hw Hh]. destruct (side e); simpl; qconst; split; lra.
Qed.

Lemma clampPosition_inBounds e d pos :
  fitsViewport e d -> inBounds (getViewportBounds e d) (clampPosition e d pos).
Proof.
  intros Hfit. destruct (fits_nonempty e d Hfit) as [Hx Hy].
  unfold inBounds, clampPosition; simpl.
  destruct (clamp_between _ _ (X pos) Hx), (clamp_between _ _ (Y pos) Hy).
  tauto.
Qed.

Lemma clampPosition_fixes e d pos :
  inBounds (getViewportBounds e d) pos -> clampPosition e d pos =xy= pos.
Proof.
  intros (H1 & H2 & H3 & H4). split; simpl; now apply clamp_inside.
Qed.

Lemma inBounds_compat b p q : p =xy= q -> inBounds b p -> inBounds b q.
Proof.
  intros [Hx Hy] (H1 & H2 & H3 & H4). unfold inBounds.
  rewrite <- Hx, <- Hy. tauto.
Qed.

Lemma bounceAxis_between lo hi p v :
  lo <= hi ->
  lo <= fst (fst (bounceAxis lo hi p v)) /\ fst (fst (bounceAxis lo hi p v)) <= hi.
Proof.
  intros Hle. unfold bounceAxis.
  destruct (Js.ltb p lo) eqn:E1; simpl.
  - split; [apply Qle_refl | exact Hle].
  - destruct (Js.ltb hi p) eqn:E2; simpl.
    + split; [exact Hle | apply Qle_refl].
    + apply JsFacts.ltb_ge in E1, E2. tauto.
Qed.

Lemma bouncePhase_inBounds b p v :
  minX b <= maxX b -> minY b <= maxY b ->
  inBounds b (fst (fst (bouncePhase b p v))).
Proof.
  intros Hx Hy. unfold bouncePhase.
  pose proof (bounceAxis_between _ _ (X p) (X v) Hx) as Bx.
  pose proof (bounceAxis_between _ _ (Y p) (Y v) Hy) as By.
  destruct (bounceAxis (minX b) (maxX b) (X p) (X v)) as [[px vx] bx].
  destruct (bounceAxis (minY b) (maxY b) (Y p) (Y v)) as [[py vy] byy].
  simpl in *. unfold inBounds; simpl. tauto.
Qed.

(** [updatePhysics] written with projections instead of destructuring. *)
Lemma updatePhysics_unfold e s :
  updatePhysics e s =
  let sp := springPhase s in
  let mv := movePhase (fst (fst sp)) (snd (fst sp)) in
  let bo := bouncePhase (getViewportBounds e (currentDimensions s)) (fst mv) (snd mv) in
  let newVel := stopPhase (snd (fst bo)) (snd sp) in
  mkState (isResizing s) (isDragging s) (currentDimensions s) (fst (fst bo)) newVel
    (snd sp) (continues newVel (snd sp)) (dragStartPos s) (lastMousePos s)
    (lastMouseTime s) (resizeStart s) (prevSide s).
Proof.
  unfold updatePhysics.
  destruct (springPhase s) as [[p v] t]; simpl.
  destruct (bouncePhase _ _ _) as [[p' v'] b]; reflexivity.
Qed.

Lemma updatePhysics_dimensions e s :
  currentDimensions (updatePhysics e s) = currentDimensions s.
Proof. rewrite updatePhysics_unfold. reflexivity. Qed.

Lemma updatePhysics_inBounds e s :
  fitsViewport e (currentDimensions s) ->
  inBounds (getViewportBounds e (currentDimensions s))
    (currentPosition (updatePhysics e s)).
Proof.
  intros Hfit. destruct (fits_nonempty _ _ Hfit) as [Hx Hy].
  rewrite updatePhysics_unfold. simpl. now apply bouncePhase_inBounds.
Qed.

Lemma handleDragMove_inBounds e ev s :
  fitsViewport e (currentDimensions s) ->
  inBounds (getViewportBounds e (currentDimensions s)) (currentPosition s) ->
  inBounds (getViewportBounds e (currentDimensions s))
    (currentPosition (handleDragMove e ev s)).
Proof.
  intros Hfit Hin. unfold handleDragMove.
  destruct (isDragging s); simpl; [now apply clampPosition_inBounds | exact Hin].
Qed.

Lemma handleDragEnd_inBounds e s :
  fitsViewport e (currentDimensions s) ->
  inBounds (getViewportBounds e (currentDimensions s))
    (currentPosition (handleDragEnd e s)).
Proof.
  intros Hfit. unfold handleDragEnd. simpl.
  destruct (wasClamped e s) eqn:E.
  - now apply clampPosition_inBounds.
  - unfold wasClamped in E. apply orb_false_elim in E. destruct E as [Ex Ey].
    apply JsFacts.neqb_false in Ex, Ey.
    apply (inBounds_compat _ (clampPosition e (currentDimensions s) (currentPosition s))).
    + split; assumption.
    + now apply clampPosition_inBounds.
Qed.

Lemma handle_dimensions e ev s :
  currentDimensions (handle e ev s) = currentDimensions s.
Proof.
  destruct ev; simpl.
  - unfold handleDragStart. now destruct (onChrome ev || isResizing s).
  - unfold handleDragMove. now destruct (negb (isDragging s)).
  - reflexivity.
  - apply updatePhysics_dimensions.
Qed.

Lemma handle_inBounds e ev s :
  fitsViewport e (currentDimensions s) ->
  inBounds (getViewportBounds e (currentDimensions s)) (currentPosition s) ->
  inBounds (getViewportBounds e (currentDimensions s))
    (currentPosition (handle e ev s)).
Proof.
  intros Hfit Hin. destruct ev; simpl.
  - unfold handleDragStart. now destruct (onChrome ev || isResizing s).
  - now apply handleDragMove_inBounds.
  - now apply handleDragEnd_inBounds.
  - now apply updatePhysics_inBounds.
Qed.

Lemma mount_inBounds e :
  fitsViewport e (mkDim 320 280) ->
  inBounds (getViewportBounds e (currentDimensions (mount e)))
    (currentPosition (mount e)).
Proof.
  intros Hfit. unfold mount.
  set (s := initialState e).
  destruct (Js.neqb _ _ || Js.neqb _ _) eqn:E; simpl.
  - now apply clampPosition_inBounds.
  - apply orb_false_elim in E. destruct E as [Ex Ey].
    apply JsFacts.neqb_false in Ex, Ey.
    apply (inBounds_compat _ (clampPosition e (currentDimensions s) (currentPosition s))).
    + split; assumption.
    + now apply clampPosition_inBounds.
Qed.

(** *** The engine on concrete inputs *)

(** The first frame after the fling release: the widget moves by 8 px,
    the velocity becomes 8 * 0.88 and the next frame is requested. *)
Example first_fling_frame :
  currentPosition flingState =xy= mkXY 32 0 /\
  currentPosition (updatePhysics demoEnv flingState) =xy= mkXY 40 0 /\
  velocity (updatePhysics demoEnv flingState) =xy= mkXY 7.04 0 /\
  animationFrame (updatePhysics demoEnv flingState) = true.
Proof. repeat split; vm_compute; reflexivity. Qed.

(** A frame that runs into the right edge (maxX = 832): the position is
    put on the edge and the velocity 10 * 0.88 is turned into - 0.3 times
    itself. *)
Example bounce_frame :
  let s := setVelocity (setPosition (mount demoEnv) (mkXY 830 0)) (mkXY 10 0) in
  currentPosition (updatePhysics demoEnv s) =xy= mkXY 832 0 /\
  velocity (updatePhysics demoEnv s) =xy= mkXY (- 2.64) 0 /\
  physicsBounced demoEnv s = true.
Proof. repeat split; vm_compute; reflexivity. Qed.

(** A widget in the middle third reports its anchor side, on either
    anchor; near the far edge it reports the side it is on. *)
Example report_sides :
  reportedSide (mkEnv Left 1200 800) (mkDim 320 280) (mkXY 300 0) = Left /\
  reportedSide (mkEnv Right 1200 800) (mkDim 320 280) (mkXY (- 300) 0) = Right /\
  reportedSide (mkEnv Left 1200 800) (mkDim 320 280) (mkXY 800 0) = Right.
Proof. repeat split; vm_compute; reflexivity. Qed.

(** *** Bounds containment *)

Lemma run_cons e ev evs s : run e (ev :: evs) s = run e evs (handle e ev s).
Proof. reflexivity. Qed.

Lemma run_dimensions e evs s :
  currentDimensions (run e evs s) = currentDimensions s.
Proof.
  revert s. induction evs as [|ev evs IH]; intros s; [reflexivity|].
  rewrite run_cons, IH. apply handle_dimensions.
Qed.

(** C1. Bounds containment: when the widget with its padding fits the
    viewport, every position reached from an in-bounds position by any
    sequence of drag starts, drag moves, drag releases and physics frames
    lies within the bounds computed from the anchor side, the dimensions and
    the viewport: minX <= x <= maxX and minY <= y <= maxY. *)
Theorem bounds_containment (e : Env) (s : State) (evs : list Event) :
  fitsViewport e (currentDimensions s) ->
  inBounds (getViewportBounds e (currentDimensions s)) (currentPosition s) ->
  inBounds (getViewportBounds e (currentDimensions (run e evs s)))
    (currentPosition (run e evs s)).
Proof.
  revert s. induction evs as [|ev evs IH]; intros s Hfit Hin.
  - exact Hin.
  - rewrite run_cons. apply IH.
    + now rewrite handle_dimensions.
    + rewrite handle_dimensions. now apply handle_inBounds.
Qed.

Lemma bounds_containment_witness :
  fitsViewport demoEnv (currentDimensions (mount demoEnv)) /\
  inBounds (getViewportBounds demoEnv (currentDimensions (mount demoEnv)))
    (currentPosition (mount demoEnv)) /\
  inBounds
    (getViewportBounds demoEnv (currentDimensions (run demoEnv demoDrag (mount demoEnv))))
    (currentPosition (run demoEnv demoDrag (mount demoEnv))).
Proof.
  assert (Hfit : fitsViewport demoEnv (currentDimensions (mount demoEnv)))
    by (split; vm_compute; discriminate).
  assert (Hin : inBounds (getViewportBounds demoEnv (currentDimensions (mount demoEnv)))
                  (currentPosition (mount demoEnv)))
    by (repeat split; vm_compute; discriminate).
  split; [exact Hfit | split; [exact Hin |]].
  exact (bounds_containment demoEnv (mount demoEnv) demoDrag Hfit Hin).
Defined.

(** When the viewport is too small for the widget the rectangle is empty
    and clamping returns [minX], which exceeds [maxX]. *)
Example clamp_small_viewport :
  let e := mkEnv Left 300 800 in
  let p := clampPosition e (mkDim 320 280) (mkXY 0 0) in
  X p == 0 /\ maxX (getViewportBounds e (mkDim 320 280)) == - 68.
Proof. split; vm_compute; reflexivity. Qed.

(** *** Bounds calculator *)

(** C2. The bounds calculator returns the rectangle of the formulas:
    anchored left, minX = 0 and maxX = viewportWidth - width - 2 * padding;
    anchored right, maxX = 0 and minX = -(viewportWidth - 2 * padding - width);
    on both sides minY = padding + height/2 - viewportHeight/2 and
    maxY = viewportHeight/2 - padding - height/2.  For viewport 1200 x 800,
    widget 320 x 280, padding 24 and anchor left: 0, 832, -236, 236. *)
Theorem getViewportBounds_formulas :
  (forall vw vh w h,
     let b := getViewportBounds (mkEnv Left vw vh) (mkDim w h) in
     minX b == 0 /\ maxX b == vw - w - 2 * VIEWPORT_PADDING /\
     minY b == VIEWPORT_PADDING + h / 2 - vh / 2 /\
     maxY b == vh / 2 - VIEWPORT_PADDING - h / 2) /\
  (forall vw vh w h,
     let b := getViewportBounds (mkEnv Right vw vh) (mkDim w h) in
     maxX b == 0 /\ minX b == - (vw - 2 * VIEWPORT_PADDING - w) /\
     minY b == VIEWPORT_PADDING + h / 2 - vh / 2 /\
     maxY b == vh / 2 - VIEWPORT_PADDING - h / 2) /\
  VIEWPORT_PADDING == 24 /\
  (let b := getViewportBounds (mkEnv Left 1200 800) (mkDim 320 280) in
   minX b == 0 /\ maxX b == 832 /\ minY b == - 236 /\ maxY b == 236).
Proof.
  split; [|split; [|split]].
  - intros vw vh w h. simpl.
    repeat split; try reflexivity; unfold VIEWPORT_PADDING; ring.
  - intros vw vh w h. simpl.
    repeat split; try reflexivity; unfold VIEWPORT_PADDING; ring.
  - reflexivity.
  - repeat split; vm_compute; reflexivity.
Qed.

(** *** Zone reports *)

Lemma finalSide_reportedSide e d pos : finalSide e d pos = reportedSide e d pos.
Proof. unfold finalSide, reportedSide, pipCenterX. now destruct (side e). Qed.

Lemma reportedSide_center e d pos :
  innerWidth e / 3 <= pipCenterX e d pos ->
  pipCenterX e d pos <= innerWidth e * 2 / 3 ->
  reportedSide e d pos = side e.
Proof.
  intros H1 H2. unfold reportedSide.
  apply JsFacts.ltb_ge in H1, H2. now rewrite H1, H2.
Qed.

(** C10. Every widget-zone report sent to the parent, the per-frame
    position report as well as the two drag-end reports, carries a side
    that is left or right, never null; when the widget's centre lies in the
    middle horizontal third of the viewport the reported side is the
    current anchor side. *)
Theorem zone_report_side (e : Env) (s : State) :
  (reportSide (physicsReport e s) <> None /\
   reportSide (dragEndPositionReport e s) <> None /\
   reportSide (dragEndReport e s) <> None) /\
  (forall d pos,
     r_side (updateDOM e d pos) = Left \/ r_side (updateDOM e d pos) = Right) /\
  (forall d pos,
     innerWidth e / 3 <= pipCenterX e d pos <= innerWidth e * 2 / 3 ->
     r_side (updateDOM e d pos) = side e /\ finalSide e d pos = side e) /\
  r_side (dragEndReport e s) = r_side (dragEndPositionReport e s).
Proof.
  split; [|split; [|split]].
  - repeat split; discriminate.
  - intros d pos. destruct (r_side (updateDOM e d pos)); auto.
  - intros d pos [H1 H2]. rewrite finalSide_reportedSide. simpl.
    split; now apply reportedSide_center.
  - unfold dragEndReport, dragEndPositionReport. simpl.
    apply finalSide_reportedSide.
Qed.

(** *** Anchor-side remap *)

Lemma remapX_left_right vw w x :
  remapX Left Right vw w x == x - (vw - 2 * VIEWPORT_PADDING - w).
Proof. unfold remapX, newPosX, absoluteScreenX, VIEWPORT_PADDING. ring. Qed.

Lemma remapX_right_left vw w x :
  remapX Right Left vw w x == x + (vw - 2 * VIEWPORT_PADDING - w).
Proof. unfold remapX, newPosX, absoluteScreenX, VIEWPORT_PADDING. ring. Qed.

(** C3. Anchor-side remap round trip: converting a stored x from side A
    to side B through the absolute screen x, and back from B to A with the
    same width and viewport width, gives the original x; the difference is
    therefore within every tolerance. *)
Theorem remap_round_trip (a b : HSide) (vw w x : Q) :
  remapX b a vw w (remapX a b vw w x) == x /\
  (forall eps, 0 <= eps -> Qabs (remapX b a vw w (remapX a b vw w x) - x) <= eps).
Proof.
  assert (H : remapX b a vw w (remapX a b vw w x) == x).
  { destruct a, b; unfold remapX, newPosX, absoluteScreenX, VIEWPORT_PADDING; ring. }
  split; [exact H|].
  intros eps Heps. rewrite H.
  setoid_replace (x - x) with 0 by ring. exact Heps.
Qed.

(** The effect stores the remapped x, keeps y, and records the new side. *)
Lemma sideChangeEffect_position e tv s :
  prevSide s <> side e ->
  currentPosition (sideChangeEffect e tv s) =
    mkXY (remapX (prevSide s) (side e) (innerWidth e)
            (width (currentDimensions s)) (X (currentPosition s)))
         (Y (currentPosition s)) /\
  prevSide (sideChangeEffect e tv s) = side e.
Proof.
  intros Hne. unfold sideChangeEffect.
  destruct (HSide_eqb (prevSide s) (side e)) eqn:E.
  - apply HSide_eqb_eq in E. contradiction.
  - split; reflexivity.
Qed.

(** *** Velocity cap *)

Lemma Qabs_le_iff x y : Qabs x <= y <-> - y <= x /\ x <= y.
Proof. apply Qabs_Qle_condition. Qed.

Lemma Qabs_lt_iff x y : Qabs x < y <-> - y < x /\ x < y.
Proof. apply Qabs_Qlt_condition. Qed.

Lemma Qabs_mult_const c x : Qabs (x * c) == Qabs x * Qabs c.
Proof. apply Qabs_Qmult. Qed.

(** Scaling by a factor of magnitude at most one does not grow the
    magnitude. *)
Lemma Qabs_scale_le x c b :
  Qabs x <= b -> Qabs c <= 1 -> Qabs (x * c) <= b.
Proof.
  intros Hx Hc. rewrite Qabs_Qmult.
  pose proof (Qabs_nonneg x). pose proof (Qabs_nonneg c). nra.
Qed.

Lemma clampVelocity_cap v :
  Qabs (Qmax (- MAX_VELOCITY) (Qmin MAX_VELOCITY v)) <= MAX_VELOCITY.
Proof.
  apply Qabs_le_iff.
  apply clamp_between. unfold MAX_VELOCITY. lra.
Qed.

Lemma bounceAxis_velocity lo hi p v b :
  Qabs v <= b -> Qabs (snd (fst (bounceAxis lo hi p v))) <= b.
Proof.
  intros Hv.
  assert (Hc : Qabs (- BOUNCE_DAMPING) <= 1) by (vm_compute; discriminate).
  unfold bounceAxis.
  destruct (Js.ltb p lo); cbn [fst snd]; [now apply Qabs_scale_le|].
  destruct (Js.ltb hi p); cbn [fst snd]; [now apply Qabs_scale_le | exact Hv].
Qed.

Lemma bouncePhase_velocity bd p v b :
  Qabs (X v) <= b -> Qabs (Y v) <= b ->
  Qabs (X (snd (fst (bouncePhase bd p v)))) <= b /\
  Qabs (Y (snd (fst (bouncePhase bd p v)))) <= b.
Proof.
  intros Hx Hy. unfold bouncePhase.
  pose proof (bounceAxis_velocity (minX bd) (maxX bd) (X p) (X v) b Hx) as Bx.
  pose proof (bounceAxis_velocity (minY bd) (maxY bd) (Y p) (Y v) b Hy) as By.
  destruct (bounceAxis (minX bd) (maxX bd) (X p) (X v)) as [[px vx] bx].
  destruct (bounceAxis (minY bd) (maxY bd) (Y p) (Y v)) as [[py vy] byy].
  simpl in *. tauto.
Qed.

Lemma stopPhase_velocity v t b :
  0 <= b -> Qabs (X v) <= b -> Qabs (Y v) <= b ->
  Qabs (X (stopPhase v t)) <= b /\ Qabs (Y (stopPhase v t)) <= b.
Proof.
  intros Hb Hx Hy. unfold stopPhase.
  destruct (_ && _ && _); simpl; auto.
Qed.

Lemma updatePhysics_velocity_cap e s :
  Qabs (X (velocity (updatePhysics e s))) <= MAX_VELOCITY /\
  Qabs (Y (velocity (updatePhysics e s))) <= MAX_VELOCITY.
Proof.
  rewrite updatePhysics_unfold. cbv zeta. simpl velocity.
  apply stopPhase_velocity; [unfold MAX_VELOCITY; lra | |];
    apply bouncePhase_velocity; unfold movePhase; simpl;
    apply clampVelocity_cap.
Qed.

(** The snap branch leaves the engine at rest. *)
Lemma updatePhysics_snap_velocity e s target :
  targetPosition s = Some target ->
  closeToTarget (currentPosition s) target
    (springVelocity (currentPosition s) (velocity s) target) = true ->
  velocity (updatePhysics e s) = mkXY 0 0 /\
  targetPosition (updatePhysics e s) = None /\
  animationFrame (updatePhysics e s) = false.
Proof.
  intros Ht Hc. rewrite updatePhysics_unfold. cbv zeta.
  unfold springPhase. rewrite Ht, Hc. simpl.
  assert (Hstop : forall v, Qabs (X v) <= 0 -> Qabs (Y v) <= 0 ->
                            stopPhase v None = mkXY 0 0).
  { intros v Hx Hy. unfold stopPhase.
    assert (Js.ltb (Qabs (X v)) 0.05 = true) as -> by (apply JsFacts.ltb_lt; lra).
    assert (Js.ltb (Qabs (Y v)) 0.05 = true) as -> by (apply JsFacts.ltb_lt; lra).
    reflexivity. }
  rewrite Hstop.
  - repeat split; reflexivity.
  - apply bouncePhase_velocity; unfold movePhase; simpl; vm_compute; discriminate.
  - apply bouncePhase_velocity; unfold movePhase; simpl; vm_compute; discriminate.
Qed.

(** The state during a drag, after one fast move: 100 px in one nominal
    frame. *)
Lemma fling_velocity_value :
  X (velocity (handleDragMove demoEnv (mkMouse 100 0 16.67 false)
                 (handleDragStart (mkMouse 0 0 0 false) (mount demoEnv)))) == 25.
Proof. vm_compute. reflexivity. Qed.

(** The velocity seeded by a side change from the left edge of a
    1200-wide viewport to the right: 83.2 px/frame towards the target. *)
Lemma seed_velocity_value :
  X (velocity (sideChangeEffect (mkEnv Right 1200 800) None (mount demoEnv))) == 83.2.
Proof. vm_compute. reflexivity. Qed.

(** C9 as stated fails: the fling velocity stored by a drag move is not
    capped at 15 px/frame. *)
Lemma fling_velocity_uncapped :
  ~ (Qabs (X (velocity (handleDragMove demoEnv (mkMouse 100 0 16.67 false)
                          (handleDragStart (mkMouse 0 0 0 false) (mount demoEnv)))))
     <= MAX_VELOCITY).
Proof. vm_compute. intros H. apply H. reflexivity. Qed.

(** C9, amended. After every physics frame each velocity component has
    magnitude at most 15 px/frame, whatever velocity a drag move or a side
    change had stored before; the velocity is exactly zero after a drag
    start, after a resize start, and after the frame that snaps to the
    target. *)
Theorem velocity_cap_after_frame (e : Env) (s : State) :
  (Qabs (X (velocity (updatePhysics e s))) <= MAX_VELOCITY /\
   Qabs (Y (velocity (updatePhysics e s))) <= MAX_VELOCITY) /\
  (forall ev, onChrome ev = false -> isResizing s = false ->
     velocity (handleDragStart ev s) = mkXY 0 0) /\
  (forall ev r t l, velocity (handleResizeStart ev r t l s) = mkXY 0 0) /\
  (forall target,
     targetPosition s = Some target ->
     closeToTarget (currentPosition s) target
       (springVelocity (currentPosition s) (velocity s) target) = true ->
     velocity (updatePhysics e s) = mkXY 0 0).
Proof.
  split; [apply updatePhysics_velocity_cap | split; [|split]].
  - intros ev Hc Hr. unfold handleDragStart. now rewrite Hc, Hr.
  - reflexivity.
  - intros target Ht Hc.
    now destruct (updatePhysics_snap_velocity e s target Ht Hc).
Qed.

(** *** Settling *)

Lemma clamp_abs_le m z :
  0 <= m -> Qabs (Qmax (- m) (Qmin m z)) <= Qabs z.
Proof.
  intros Hm. pose proof (Qabs_nonneg z) as Hz.
  pose proof (Qle_Qabs z) as Hu.
  assert (Hl : - Qabs z <= z).
  { pose proof (Qle_Qabs (- z)) as H. rewrite Qabs_opp in H. lra. }
  apply Qabs_le_iff. split.
  - apply Qle_trans with (Qmin m z); [|apply Q.le_max_r].
    apply Q.min_glb; lra.
  - apply Q.max_lub; [lra|].
    apply Qle_trans with z; [apply Q.le_min_r | exact Hu].
Qed.

Lemma springPhase_free s :
  targetPosition s = None -> springPhase s = (currentPosition s, velocity s, None).
Proof. intros H. unfold springPhase. now rewrite H. Qed.

Lemma updatePhysics_free_target e s :
  targetPosition s = None -> targetPosition (updatePhysics e s) = None.
Proof.
  intros H. rewrite updatePhysics_unfold. cbv zeta.
  now rewrite springPhase_free.
Qed.

(** Without a target, one frame shrinks a bound on both velocity
    components by the friction factor. *)
Lemma updatePhysics_free_contracts e s b :
  targetPosition s = None -> 0 <= b ->
  Qabs (X (velocity s)) <= b -> Qabs (Y (velocity s)) <= b ->
  Qabs (X (velocity (updatePhysics e s))) <= FRICTION * b /\
  Qabs (Y (velocity (updatePhysics e s))) <= FRICTION * b.
Proof.
  intros Ht Hb Hx Hy. rewrite updatePhysics_unfold. cbv zeta.
  rewrite (springPhase_free s Ht). cbn [fst snd velocity].
  assert (Hm : 0 <= MAX_VELOCITY) by (vm_compute; discriminate).
  assert (Hf : Qabs FRICTION == FRICTION) by reflexivity.
  assert (Hfb : 0 <= FRICTION * b) by (unfold FRICTION; lra).
  apply stopPhase_velocity; [exact Hfb | |];
    apply bouncePhase_velocity; unfold movePhase; cbn [fst snd X Y];
    (eapply Qle_trans; [apply clamp_abs_le; exact Hm|]);
    rewrite Qabs_Qmult, Hf; unfold FRICTION in *; lra.
Qed.

(** Without a target the frame requests another one exactly when it did
    not zero the velocity. *)
Lemma updatePhysics_free_rest e s :
  targetPosition s = None ->
  animationFrame (updatePhysics e s) = false ->
  velocity (updatePhysics e s) = mkXY 0 0.
Proof.
  intros Ht. rewrite updatePhysics_unfold. cbv zeta.
  rewrite (springPhase_free s Ht). cbn [fst snd velocity animationFrame].
  set (v := snd (fst (bouncePhase _ _ _))).
  unfold stopPhase, continues. cbn [isSome negb].
  destruct (Js.ltb (Qabs (X v)) 0.05) eqn:Ex; cbn [andb].
  - destruct (Js.ltb (Qabs (Y v)) 0.05) eqn:Ey; cbn [andb]; [reflexivity|].
    intros H. apply orb_false_elim in H. destruct H as [H _].
    apply orb_false_elim in H. destruct H as [_ H].
    apply JsFacts.ltb_ge in H, Ey. lra.
  - intros H. apply orb_false_elim in H. destruct H as [H _].
    apply orb_false_elim in H. destruct H as [H _].
    apply JsFacts.ltb_ge in H, Ex. lra.
Qed.

Lemma updatePhysics_free_stops e s b :
  targetPosition s = None -> 0 <= b ->
  Qabs (X (velocity s)) <= b -> Qabs (Y (velocity s)) <= b ->
  FRICTION * b < 0.05 ->
  animationFrame (updatePhysics e s) = false.
Proof.
  intros Ht Hb Hx Hy Hsmall.
  destruct (updatePhysics_free_contracts e s b Ht Hb Hx Hy) as [Cx Cy].
  revert Cx Cy. rewrite updatePhysics_unfold. cbv zeta.
  rewrite (springPhase_free s Ht). cbn [fst snd velocity animationFrame].
  set (v := snd (fst (bouncePhase _ _ _))).
  unfold stopPhase. cbn [isSome negb].
  destruct (Js.ltb (Qabs (X v)) 0.05) eqn:Ex; cbn [andb].
  - destruct (Js.ltb (Qabs (Y v)) 0.05) eqn:Ey; cbn [andb]; [reflexivity|].
    intros _ Cy. apply JsFacts.ltb_ge in Ey. lra.
  - intros Cx _. apply JsFacts.ltb_ge in Ex. lra.
Qed.

Lemma physicsLoop_settles e n : forall s b,
  targetPosition s = None -> 0 <= b ->
  Qabs (X (velocity s)) <= b -> Qabs (Y (velocity s)) <= b ->
  b * Js.pow FRICTION (S n) < 0.05 ->
  exists s', physicsLoop (S n) e s = Some s' /\ atRest s'.
Proof.
  induction n as [|n IH]; intros s b Ht Hb Hx Hy Hsmall.
  - cbn [Js.pow] in Hsmall.
    assert (Hs : FRICTION * b < 0.05) by (unfold FRICTION in *; lra).
    pose proof (updatePhysics_free_stops e s b Ht Hb Hx Hy Hs) as Hstop.
    exists (updatePhysics e s). cbn [physicsLoop]. rewrite Hstop.
    split; [reflexivity|]. split; [|split].
    + now apply updatePhysics_free_rest.
    + now apply updatePhysics_free_target.
    + exact Hstop.
  - change (physicsLoop (S (S n)) e s) with
      (if animationFrame (updatePhysics e s)
       then physicsLoop (S n) e (updatePhysics e s)
       else Some (updatePhysics e s)).
    destruct (animationFrame (updatePhysics e s)) eqn:Ea.
    + destruct (updatePhysics_free_contracts e s b Ht Hb Hx Hy) as [Cx Cy].
      apply (IH (updatePhysics e s) (FRICTION * b)); trivial.
      * now apply updatePhysics_free_target.
      * unfold FRICTION; lra.
      * change (Js.pow FRICTION (S (S n))) with (FRICTION * Js.pow FRICTION (S n))
          in Hsmall.
        lra.
    + exists (updatePhysics e s). split; [reflexivity|]. split; [|split].
      * now apply updatePhysics_free_rest.
      * now apply updatePhysics_free_target.
      * exact Ea.
Qed.

(** More fuel does not change the outcome of a loop that came to rest. *)
Lemma physicsLoop_more e k : forall n s s',
  physicsLoop n e s = Some s' -> physicsLoop (n + k) e s = Some s'.
Proof.
  induction n as [|n IH]; intros s s' H; [discriminate|].
  cbn [physicsLoop Nat.add] in *.
  destruct (animationFrame (updatePhysics e s)); [now apply IH | exact H].
Qed.

Lemma physicsLoop_step e n s :
  physicsLoop (S n) e s =
  if animationFrame (updatePhysics e s)
  then physicsLoop n e (updatePhysics e s)
  else Some (updatePhysics e s).
Proof. reflexivity. Qed.

Lemma physicsLoop_any_velocity e s :
  targetPosition s = None ->
  exists s', physicsLoop 46 e s = Some s' /\ atRest s'.
Proof.
  intros Ht. rewrite physicsLoop_step.
  destruct (animationFrame (updatePhysics e s)) eqn:Ea.
  - destruct (updatePhysics_velocity_cap e s) as [Cx Cy].
    apply (physicsLoop_settles e 44 (updatePhysics e s) MAX_VELOCITY); trivial.
    + now apply updatePhysics_free_target.
    + vm_compute; discriminate.
    + vm_compute; reflexivity.
  - exists (updatePhysics e s). split; [reflexivity|]. split; [|split].
    + now apply updatePhysics_free_rest.
    + now apply updatePhysics_free_target.
    + exact Ea.
Qed.

Lemma physicsLoop_fling e s :
  targetPosition s = None -> velocity s =xy= mkXY 8 0 ->
  exists s', physicsLoop 40 e s = Some s' /\ physicsLoop 42 e s = Some s' /\ atRest s'.
Proof.
  intros Ht [Hx Hy]. cbn [X Y] in Hx, Hy.
  destruct (physicsLoop_settles e 39 s 8) as (s' & Hl & Hr); trivial.
  - vm_compute; discriminate.
  - rewrite Hx. vm_compute; discriminate.
  - rewrite Hy. vm_compute; discriminate.
  - vm_compute; reflexivity.
  - exists s'. split; [exact Hl|]. split; [|exact Hr].
    exact (physicsLoop_more e 2 40 s s' Hl).
Qed.

(** In the open the fling of the scenario is still moving after 39 frames:
    the frame that stops it is the fortieth. *)
Lemma fling_runs_39_frames :
  velocity flingState =xy= mkXY 8 0 /\
  targetPosition flingState = None /\
  animationFrame flingState = true /\
  physicsLoop 39 demoEnv flingState = None.
Proof.
  split; [split; vm_compute; reflexivity|].
  split; [reflexivity|]. split; vm_compute; reflexivity.
Qed.

(** C4. Settling termination: with no pending target, from every initial
    velocity the animation loop comes to rest within 46 frames, with the
    velocity exactly zero and no further frame requested.  From the fling
    velocity (8, 0) it has come to rest by frame 40, hence by frame 42,
    whatever the position and the bounds. *)
Theorem settling_termination (e : Env) (s : State) :
  targetPosition s = None ->
  (exists s', physicsLoop 46 e s = Some s' /\ atRest s') /\
  (velocity s =xy= mkXY 8 0 ->
   exists s', physicsLoop 40 e s = Some s' /\ physicsLoop 42 e s = Some s' /\
              atRest s').
Proof.
  intros Ht. split.
  - now apply physicsLoop_any_velocity.
  - intros Hv. now apply physicsLoop_fling.
Qed.

Lemma settling_termination_witness :
  targetPosition flingState = None /\
  velocity flingState =xy= mkXY 8 0 /\
  (exists s', physicsLoop 46 demoEnv flingState = Some s' /\ atRest s') /\
  (exists s', physicsLoop 40 demoEnv flingState = Some s' /\
              physicsLoop 42 demoEnv flingState = Some s' /\ atRest s').
Proof.
  assert (Hv : velocity flingState =xy= mkXY 8 0)
    by (split; vm_compute; reflexivity).
  destruct (settling_termination demoEnv flingState eq_refl) as [H46 H40].
  split; [reflexivity|]. split; [exact Hv|]. split; [exact H46|].
  exact (H40 Hv).
Defined.

(** *** Spring convergence *)

Lemma sq_nonneg (x : Q) : 0 <= x * x.
Proof. nra. Qed.

Lemma sq_lt_abs x b : 0 < b -> x * x < b * b -> Qabs x < b.
Proof. intros Hb H. apply Qabs_lt_iff. split; nra. Qed.

Lemma lyapunov_nonneg d v : 0 <= lyapunov d v.
Proof. unfold lyapunov. nra. Qed.

(** A small [lyapunov] value puts the axis inside the snap test. *)
Lemma snap_region d v :
  lyapunov d v <= 1 # 2 ->
  Qabs d < 1 /\ Qabs ((v + d * EYE_TRACKING_SPRING) * SPRING_DAMPING) < 0.3.
Proof.
  unfold lyapunov, EYE_TRACKING_SPRING, SPRING_DAMPING. intros H.
  pose proof (sq_nonneg (d - 15 * v)) as S1.
  pose proof (sq_nonneg (1.87 * v - 0.918 * d)) as S2.
  split; apply sq_lt_abs; try lra; nra.
Qed.

(** [lyapunov dd] is convex in the velocity: a bound at 0 and at [y] holds
    at every [w] between them. *)
Lemma lyapunov_between dd y w m :
  dd * dd <= m -> lyapunov dd y <= m ->
  (0 <= w /\ w <= y) \/ (y <= w /\ w <= 0) ->
  lyapunov dd w <= m.
Proof.
  unfold lyapunov. intros H0 H1 Hw.
  assert (E : y * ((dd - w) * (dd - w) + 14 * (w * w) - m) ==
              (y - w) * (dd * dd - m)
              + w * ((dd - y) * (dd - y) + 14 * (y * y) - m)
              + 15 * ((w * y) * (w - y))) by ring.
  destruct Hw as [[Hw1 Hw2]|[Hw1 Hw2]].
  - destruct (Qlt_le_dec 0 y) as [Hy|Hy].
    + assert (T1 : (y - w) * (dd * dd - m) <= 0) by nra.
      assert (T2 : w * ((dd - y) * (dd - y) + 14 * (y * y) - m) <= 0) by nra.
      assert (T0 : 0 <= w * y) by nra.
      assert (T3 : (w * y) * (w - y) <= 0) by nra.
      assert (T : y * ((dd - w) * (dd - w) + 14 * (w * w) - m) <= 0)
        by (rewrite E; lra).
      nra.
    + assert (w == 0) by lra. nra.
  - destruct (Qlt_le_dec y 0) as [Hy|Hy].
    + assert (T1 : 0 <= (y - w) * (dd * dd - m)) by nra.
      assert (T2 : 0 <= w * ((dd - y) * (dd - y) + 14 * (y * y) - m)) by nra.
      assert (T0 : 0 <= w * y) by nra.
      assert (T3 : 0 <= (w * y) * (w - y)) by nra.
      assert (T : 0 <= y * ((dd - w) * (dd - w) + 14 * (w * w) - m))
        by (rewrite E; lra).
      nra.
    + assert (w == 0) by lra. nra.
Qed.

(** The velocity clamp moves a value towards zero. *)
Lemma clamp_towards_zero m y :
  0 <= m ->
  let w := Qmax (- m) (Qmin m y) in
  (0 <= w /\ w <= y) \/ (y <= w /\ w <= 0).
Proof.
  intros Hm w. subst w.
  destruct (Q.max_spec (- m) (Qmin m y)) as [[H1 H2]|[H1 H2]];
    destruct (Q.min_spec m y) as [[H3 H4]|[H3 H4]];
    rewrite H2; rewrite ?H4 in *; lra.
Qed.

#[export] Instance lyapunov_proper : Proper (Qeq ==> Qeq ==> Qeq) lyapunov.
Proof. intros d d' Hd v v' Hv. unfold lyapunov. now rewrite Hd, Hv. Qed.

Lemma lyapunov_unclamped d v :
  let u := (v + d * EYE_TRACKING_SPRING) * SPRING_DAMPING in
  (d - u) * (d - u) <= 0.9 * lyapunov d v /\
  lyapunov (d - u) (u * FRICTION) <= 0.9 * lyapunov d v.
Proof.
  unfold lyapunov, EYE_TRACKING_SPRING, SPRING_DAMPING, FRICTION. cbv zeta.
  split; nra.
Qed.

(** One spring frame on one axis, without obstruction: position [p],
    velocity [v], target [t]. *)
Lemma lyapunov_step p v t :
  let u := (v + (t - p) * EYE_TRACKING_SPRING) * SPRING_DAMPING in
  lyapunov (t - (p + u)) (Qmax (- MAX_VELOCITY) (Qmin MAX_VELOCITY (u * FRICTION)))
  <= 0.9 * lyapunov (t - p) v.
Proof.
  intros u.
  destruct (lyapunov_unclamped (t - p) v) as [H0 H1]. fold u in H0, H1.
  assert (E : t - (p + u) == t - p - u) by ring.
  rewrite E.
  apply (lyapunov_between _ (u * FRICTION)); trivial.
  apply clamp_towards_zero. vm_compute; discriminate.
Qed.

Lemma bounceAxis_unbounced lo hi p v :
  snd (bounceAxis lo hi p v) = false -> bounceAxis lo hi p v = (p, v, false).
Proof.
  unfold bounceAxis.
  destruct (Js.ltb p lo); [discriminate|].
  destruct (Js.ltb hi p); [discriminate | reflexivity].
Qed.

Lemma bouncePhase_unbounced b p v :
  snd (bouncePhase b p v) = false -> bouncePhase b p v = (p, v, false).
Proof.
  unfold bouncePhase.
  pose proof (bounceAxis_unbounced (minX b) (maxX b) (X p) (X v)) as Bx.
  pose proof (bounceAxis_unbounced (minY b) (maxY b) (Y p) (Y v)) as By.
  destruct (bounceAxis (minX b) (maxX b) (X p) (X v)) as [[px vx] bx].
  destruct (bounceAxis (minY b) (maxY b) (Y p) (Y v)) as [[py vy] byy].
  cbn [snd] in *. intros H. apply orb_false_elim in H. destruct H as [H1 H2].
  specialize (Bx H1). specialize (By H2).
  injection Bx as -> -> _. injection By as -> -> _.
  subst bx byy. destruct p, v. reflexivity.
Qed.

Lemma physicsBounced_unfold e s :
  physicsBounced e s =
  let sp := springPhase s in
  let mv := movePhase (fst (fst sp)) (snd (fst sp)) in
  snd (bouncePhase (getViewportBounds e (currentDimensions s)) (fst mv) (snd mv)).
Proof.
  unfold physicsBounced.
  destruct (springPhase s) as [[p v] t]; simpl.
  destruct (bouncePhase _ _ _) as [[p' v'] b]; reflexivity.
Qed.

(** A spring frame that neither snaps nor hits a boundary. *)
Lemma updatePhysics_spring_step e s t :
  targetPosition s = Some t ->
  closeToTarget (currentPosition s) t
    (springVelocity (currentPosition s) (velocity s) t) = false ->
  physicsBounced e s = false ->
  let u := springVelocity (currentPosition s) (velocity s) t in
  let s' := updatePhysics e s in
  targetPosition s' = Some t /\ animationFrame s' = true /\
  currentPosition s' =
    mkXY (X (currentPosition s) + X u) (Y (currentPosition s) + Y u) /\
  velocity s' =
    mkXY (Qmax (- MAX_VELOCITY) (Qmin MAX_VELOCITY (X u * FRICTION)))
         (Qmax (- MAX_VELOCITY) (Qmin MAX_VELOCITY (Y u * FRICTION))).
Proof.
  intros Ht Hc Hb u s'. subst s'.
  rewrite physicsBounced_unfold in Hb. rewrite updatePhysics_unfold.
  cbv zeta in *. unfold springPhase in *. rewrite Ht, Hc in *.
  cbn [fst snd] in *. fold u in Hb |- *.
  rewrite (bouncePhase_unbounced _ _ _ Hb). cbn [fst snd].
  unfold stopPhase, continues. cbn [isSome negb].
  rewrite !andb_false_r, !orb_true_r.
  repeat split; reflexivity.
Qed.

(** The frame that snaps, without obstruction: the position is the target. *)
Lemma updatePhysics_snap e s t :
  targetPosition s = Some t ->
  closeToTarget (currentPosition s) t
    (springVelocity (currentPosition s) (velocity s) t) = true ->
  physicsBounced e s = false ->
  currentPosition (updatePhysics e s) =xy= t /\ atRest (updatePhysics e s).
Proof.
  intros Ht Hc Hb. split.
  - rewrite physicsBounced_unfold in Hb. rewrite updatePhysics_unfold.
    cbv zeta in *. unfold springPhase in *. rewrite Ht, Hc in *.
    cbn [fst snd] in *.
    rewrite (bouncePhase_unbounced _ _ _ Hb). cbn [fst snd currentPosition].
    unfold movePhase, zeroXY. cbn [fst X Y]. split; cbn [X Y]; ring.
  - exact (updatePhysics_snap_velocity e s t Ht Hc).
Qed.

Lemma energy_snaps s t :
  energy s t <= 1 # 2 ->
  closeToTarget (currentPosition s) t
    (springVelocity (currentPosition s) (velocity s) t) = true.
Proof.
  unfold energy. intros H.
  pose proof (lyapunov_nonneg (X t - X (currentPosition s)) (X (velocity s))) as Nx.
  pose proof (lyapunov_nonneg (Y t - Y (currentPosition s)) (Y (velocity s))) as Ny.
  destruct (snap_region (X t - X (currentPosition s)) (X (velocity s))) as [Dx Ux];
    [lra|].
  destruct (snap_region (Y t - Y (currentPosition s)) (Y (velocity s))) as [Dy Uy];
    [lra|].
  unfold closeToTarget, springVelocity. cbn [X Y].
  apply JsFacts.ltb_lt in Dx, Dy, Ux, Uy.
  now rewrite Dx, Dy, Ux, Uy.
Qed.

Lemma energy_nonneg s t : 0 <= energy s t.
Proof.
  unfold energy.
  pose proof (lyapunov_nonneg (X t - X (currentPosition s)) (X (velocity s))).
  pose proof (lyapunov_nonneg (Y t - Y (currentPosition s)) (Y (velocity s))).
  lra.
Qed.

(** An unobstructed spring frame that does not snap multiplies [energy] by
    at most 0.9. *)
Lemma energy_contracts e s t :
  targetPosition s = Some t ->
  closeToTarget (currentPosition s) t
    (springVelocity (currentPosition s) (velocity s) t) = false ->
  physicsBounced e s = false ->
  energy (updatePhysics e s) t <= 0.9 * energy s t.
Proof.
  intros Ht Hc Hb.
  destruct (updatePhysics_spring_step e s t Ht Hc Hb) as (_ & _ & Hp & Hv).
  unfold energy. rewrite Hp, Hv. cbn [X Y]. unfold springVelocity. cbn [X Y].
  pose proof (lyapunov_step (X (currentPosition s)) (X (velocity s)) (X t)) as Lx.
  pose proof (lyapunov_step (Y (currentPosition s)) (Y (velocity s)) (Y t)) as Ly.
  cbv zeta in Lx, Ly. lra.
Qed.

Lemma physicsLoop_spring e t n : forall s,
  targetPosition s = Some t ->
  energy s t * Js.pow 0.9 n <= 1 # 2 ->
  unobstructed (S n) e s = true ->
  exists s', physicsLoop (S n) e s = Some s' /\
             currentPosition s' =xy= t /\ atRest s'.
Proof.
  induction n as [|n IH]; intros s Ht He Hu;
    cbn [unobstructed] in Hu; apply andb_prop in Hu; destruct Hu as [Hb Hu];
    apply negb_true_iff in Hb; rewrite physicsLoop_step.
  - cbn [Js.pow] in He.
    assert (Hs : energy s t <= 1 # 2) by lra.
    destruct (updatePhysics_snap e s t Ht (energy_snaps s t Hs) Hb) as [Hp Hr].
    pose proof Hr as (_ & _ & Ha). rewrite Ha.
    exists (updatePhysics e s). auto.
  - destruct (closeToTarget (currentPosition s) t
                (springVelocity (currentPosition s) (velocity s) t)) eqn:Hc.
    + destruct (updatePhysics_snap e s t Ht Hc Hb) as [Hp Hr].
      pose proof Hr as (_ & _ & Ha). rewrite Ha.
      exists (updatePhysics e s). auto.
    + destruct (updatePhysics_spring_step e s t Ht Hc Hb) as (Ht' & Ha & _).
      cbv zeta in Ht', Ha. cbv zeta in Hu. rewrite Ha in Hu. rewrite Ha.
      apply IH; trivial.
      pose proof (energy_contracts e s t Ht Hc Hb) as Hk.
      pose proof (energy_nonneg s t) as Hn.
      cbn [Js.pow] in He.
      assert (Hpow : 0 <= Js.pow 0.9 n).
      { clear. induction n as [|n IHn]; cbn [Js.pow]; [lra | nra]. }
      nra.
Qed.

(** *** The frame bound *)

Lemma pow_nonneg q n : 0 <= q -> 0 <= Js.pow q n.
Proof. intros Hq. induction n as [|n IH]; cbn [Js.pow]; [lra | nra]. Qed.

Lemma pow_add q a b : Js.pow q (a + b) == Js.pow q a * Js.pow q b.
Proof.
  induction a as [|a IH]; cbn [Js.pow Nat.add]; [ring|]. rewrite IH. ring.
Qed.

Lemma pow_mul q a b : Js.pow q (a * b) == Js.pow (Js.pow q a) b.
Proof.
  induction b as [|b IH].
  - rewrite Nat.mul_0_r. reflexivity.
  - rewrite Nat.mul_succ_r, Nat.add_comm, pow_add, IH. reflexivity.
Qed.

Lemma pow_le_mono a b n : 0 <= a -> a <= b -> Js.pow a n <= Js.pow b n.
Proof.
  intros Ha Hab. induction n as [|n IH]; cbn [Js.pow]; [lra|].
  pose proof (pow_nonneg a n Ha). nra.
Qed.

Lemma pow_half k : inject_Z (2 ^ Z.of_nat k) * Js.pow (1 # 2) k == 1.
Proof.
  induction k as [|k IH]; [reflexivity|].
  rewrite Nat2Z.inj_succ, Z.pow_succ_r by apply Nat2Z.is_nonneg.
  rewrite inject_Z_mult. cbn [Js.pow].
  setoid_replace (inject_Z 2 * inject_Z (2 ^ Z.of_nat k) * ((1 # 2) * Js.pow (1 # 2) k))
    with (inject_Z (2 ^ Z.of_nat k) * Js.pow (1 # 2) k)
    by (change (inject_Z 2) with 2; ring).
  exact IH.
Qed.

(** Seven frames at rate 0.9 halve the energy. *)
Lemma rate_halves : Js.pow 0.9 7 <= 1 # 2.
Proof. vm_compute. discriminate. Qed.

Lemma springBound_enough s t :
  exists n, springBound s t = S n /\ energy s t * Js.pow 0.9 n <= 1 # 2.
Proof.
  unfold springBound.
  set (c := Z.max 1 (Qceiling (2 * energy s t))).
  set (k := Z.to_nat (Z.log2_up c)).
  exists (7 * k)%nat. split; [reflexivity|].
  assert (Hc : (0 < c)%Z) by (subst c; lia).
  destruct (Z.log2_log2_up_spec c Hc) as [_ Hup].
  assert (Hk : Z.of_nat k = Z.log2_up c).
  { subst k. apply Z2Nat.id. apply Z.log2_up_nonneg. }
  rewrite <- Hk in Hup.
  assert (H2 : 2 * energy s t <= inject_Z (2 ^ Z.of_nat k)).
  { apply Qle_trans with (inject_Z (Qceiling (2 * energy s t)));
      [apply Qle_ceiling|].
    rewrite <- Zle_Qle. subst c. lia. }
  pose proof (pow_half k) as Hh.
  pose proof (pow_nonneg (1 # 2) k ltac:(lra)) as Hp.
  pose proof (energy_nonneg s t) as Hn.
  assert (Hr : Js.pow 0.9 (7 * k) <= Js.pow (1 # 2) k).
  { rewrite pow_mul. apply pow_le_mono; [apply pow_nonneg; lra | apply rate_halves]. }
  assert (Hq : 0 <= Js.pow 0.9 (7 * k)) by (apply pow_nonneg; lra).
  nra.
Qed.

Lemma spring_convergence_core e s t :
  targetPosition s = Some t ->
  unobstructed (springBound s t) e s = true ->
  exists s', physicsLoop (springBound s t) e s = Some s' /\
             currentPosition s' =xy= t /\ atRest s'.
Proof.
  intros Ht Hu.
  destruct (springBound_enough s t) as (n & Hn & He).
  rewrite Hn in *. now apply physicsLoop_spring.
Qed.

(** C5. Spring convergence and snap: with a target pending and no
    boundary hit on the way, the animation loop comes to rest within
    [springBound] frames, with the position equal to the target, the
    velocity zero and the target cleared; and a frame whose displacements
    and velocities pass the snap test puts the position on the target,
    zeroes the velocity, clears the target and requests no further frame. *)
Theorem spring_convergence (e : Env) (s : State) (t : XY) :
  targetPosition s = Some t ->
  unobstructed (springBound s t) e s = true ->
  (exists s', physicsLoop (springBound s t) e s = Some s' /\
              currentPosition s' =xy= t /\ atRest s') /\
  (closeToTarget (currentPosition s) t
     (springVelocity (currentPosition s) (velocity s) t) = true ->
   currentPosition (updatePhysics e s) =xy= t /\ atRest (updatePhysics e s)).
Proof.
  intros Ht Hu. split.
  - now apply spring_convergence_core.
  - intros Hc. apply (updatePhysics_snap e s t Ht Hc).
    unfold springBound in Hu.
    cbn [unobstructed] in Hu. apply andb_prop in Hu. destruct Hu as [Hb _].
    now apply negb_true_iff in Hb.
Qed.

Lemma spring_convergence_witness :
  targetPosition springState = Some (mkXY 101 0) /\
  unobstructed (springBound springState (mkXY 101 0)) demoEnv springState = true /\
  (exists s', physicsLoop (springBound springState (mkXY 101 0)) demoEnv springState
                = Some s' /\
              currentPosition s' =xy= mkXY 101 0 /\ atRest s').
Proof.
  assert (Hu : unobstructed (springBound springState (mkXY 101 0)) demoEnv springState
               = true) by (vm_compute; reflexivity).
  split; [reflexivity|]. split; [exact Hu|].
  exact (proj1 (spring_convergence demoEnv springState (mkXY 101 0) eq_refl Hu)).
Defined.

(** The sample run does not snap on its first frame (the displacement is
    exactly 1) and is at rest on the target after the second. *)
Lemma spring_sample_two_frames :
  physicsLoop 1 demoEnv springState = None /\
  (exists s', physicsLoop 2 demoEnv springState = Some s' /\
              currentPosition s' =xy= mkXY 101 0).
Proof.
  split; [vm_compute; reflexivity|].
  eexists. split; [vm_compute; reflexivity|]. split; vm_compute; reflexivity.
Qed.

(** *** Room around the target excludes obstruction *)

Lemma sq_le_between x r : 0 <= r -> x * x <= r * r -> - r <= x /\ x <= r.
Proof. intros Hr H. split; nra. Qed.

Lemma bounceAxis_room lo hi p v :
  lo <= p -> p <= hi -> snd (bounceAxis lo hi p v) = false.
Proof.
  intros Hlo Hhi. unfold bounceAxis.
  apply JsFacts.ltb_ge in Hlo, Hhi. now rewrite Hlo, Hhi.
Qed.

Lemma bouncePhase_room b p v :
  minX b <= X p -> X p <= maxX b -> minY b <= Y p -> Y p <= maxY b ->
  snd (bouncePhase b p v) = false.
Proof.
  intros H1 H2 H3 H4. unfold bouncePhase.
  pose proof (bounceAxis_room (minX b) (maxX b) (X p) (X v) H1 H2) as Bx.
  pose proof (bounceAxis_room (minY b) (maxY b) (Y p) (Y v) H3 H4) as By.
  destruct (bounceAxis (minX b) (maxX b) (X p) (X v)) as [[px vx] bx].
  destruct (bounceAxis (minY b) (maxY b) (Y p) (Y v)) as [[py vy] byy].
  cbn [snd] in *. now rewrite Bx, By.
Qed.

(** With room around the target of radius at least the square root of 0.9
    times the per-axis measure, no frame of the spring run hits a boundary. *)
Lemma unobstructed_in_room e t rx ry n : forall s,
  targetPosition s = Some t -> 0 <= rx -> 0 <= ry ->
  0.9 * lyapunov (X t - X (currentPosition s)) (X (velocity s)) <= rx * rx ->
  0.9 * lyapunov (Y t - Y (currentPosition s)) (Y (velocity s)) <= ry * ry ->
  roomAround (getViewportBounds e (currentDimensions s)) t rx ry ->
  unobstructed n e s = true.
Proof.
  induction n as [|n IH]; intros s Ht Hrx Hry Hx Hy Hroom; [reflexivity|].
  destruct Hroom as (R1 & R2 & R3 & R4).
  set (px := X (currentPosition s)) in *. set (py := Y (currentPosition s)) in *.
  set (vx := X (velocity s)) in *. set (vy := Y (velocity s)) in *.
  destruct (lyapunov_unclamped (X t - px) vx) as [Ux _].
  destruct (lyapunov_unclamped (Y t - py) vy) as [Uy _].
  cbv zeta in Ux, Uy.
  pose proof (lyapunov_nonneg (X t - px) vx) as Nx.
  pose proof (lyapunov_nonneg (Y t - py) vy) as Ny.
  assert (Hb : physicsBounced e s = false).
  { rewrite physicsBounced_unfold. cbv zeta. unfold springPhase. rewrite Ht.
    destruct (closeToTarget _ _ _); cbn [fst snd];
      apply bouncePhase_room; unfold movePhase, springVelocity, zeroXY;
      cbn [fst X Y]; fold px py vx vy; try lra.
    - destruct (sq_le_between
                  (X t - px - (vx + (X t - px) * EYE_TRACKING_SPRING) * SPRING_DAMPING)
                  rx Hrx); lra.
    - destruct (sq_le_between
                  (X t - px - (vx + (X t - px) * EYE_TRACKING_SPRING) * SPRING_DAMPING)
                  rx Hrx); lra.
    - destruct (sq_le_between
                  (Y t - py - (vy + (Y t - py) * EYE_TRACKING_SPRING) * SPRING_DAMPING)
                  ry Hry); lra.
    - destruct (sq_le_between
                  (Y t - py - (vy + (Y t - py) * EYE_TRACKING_SPRING) * SPRING_DAMPING)
                  ry Hry); lra. }
  cbn [unobstructed]. rewrite Hb. cbn [negb andb]. cbv zeta.
  destruct (closeToTarget (currentPosition s) t
              (springVelocity (currentPosition s) (velocity s) t)) eqn:Hc.
  - destruct (updatePhysics_snap_velocity e s t Ht Hc) as (_ & _ & Ha).
    now rewrite Ha.
  - destruct (updatePhysics_spring_step e s t Ht Hc Hb) as (Ht' & Ha & Hp & Hv).
    cbv zeta in Ht', Ha, Hp, Hv. rewrite Ha.
    apply IH; trivial.
    + rewrite Hp, Hv. cbn [X Y]. unfold springVelocity. cbn [X Y].
      pose proof (lyapunov_step px vx (X t)) as L. cbv zeta in L.
      fold px vx. lra.
    + rewrite Hp, Hv. cbn [X Y]. unfold springVelocity. cbn [X Y].
      pose proof (lyapunov_step py vy (Y t)) as L. cbv zeta in L.
      fold py vy. lra.
    + rewrite updatePhysics_dimensions. repeat split; assumption.
Qed.

(** The far sample: 300 px and 50 px from a target that has 285 px and
    48 px of room; the run rests on the target within 127 frames. *)
Lemma spring_sample_far :
  springBound farSpringState (mkXY 400 50) = 127%nat /\
  exists s', physicsLoop 127 demoEnv farSpringState = Some s' /\
             currentPosition s' =xy= mkXY 400 50 /\ atRest s'.
Proof.
  assert (Hb : springBound farSpringState (mkXY 400 50) = 127%nat)
    by (vm_compute; reflexivity).
  split; [exact Hb|]. rewrite <- Hb.
  apply spring_convergence_core; [reflexivity|].
  apply (unobstructed_in_room demoEnv (mkXY 400 50) 285 48).
  - reflexivity.
  - vm_compute; discriminate.
  - vm_compute; discriminate.
  - vm_compute; discriminate.
  - vm_compute; discriminate.
  - repeat split; vm_compute; discriminate.
Qed.

End MeetPipFacts.

(** ** Facts about [EyeTracker] *)

Module EyeTrackerFacts.
Import EyeTracker.

(** *** Gaze classifier *)

Lemma classifyGaze_left x :
  classifyGaze (Finite x) = Some Left <-> x < 0.5 - centerThreshold.
Proof.
  unfold classifyGaze. cbn [jsLt jsGt].
  destruct (JsFacts.ltb_spec x (0.5 - centerThreshold)) as [[-> H]|[-> H]].
  - tauto.
  - split; [|intros H'; exfalso; apply (Qlt_not_le _ _ H' H)].
    destruct (Js.ltb (0.5 + centerThreshold) x); discriminate.
Qed.

Lemma classifyGaze_right x :
  classifyGaze (Finite x) = Some Right <-> 0.5 + centerThreshold < x.
Proof.
  unfold classifyGaze. cbn [jsLt jsGt].
  destruct (JsFacts.ltb_spec x (0.5 - centerThreshold)) as [[-> H]|[-> H]].
  - split; [discriminate|]. unfold centerThreshold in *. lra.
  - destruct (JsFacts.ltb_spec (0.5 + centerThreshold) x) as [[-> H']|[-> H']].
    + tauto.
    + split; [discriminate|]. lra.
Qed.

Lemma classifyGaze_center x :
  classifyGaze (Finite x) = None <->
  0.5 - centerThreshold <= x /\ x <= 0.5 + centerThreshold.
Proof.
  unfold classifyGaze. cbn [jsLt jsGt].
  destruct (JsFacts.ltb_spec x (0.5 - centerThreshold)) as [[-> H]|[-> H]].
  - split; [discriminate|]. lra.
  - destruct (JsFacts.ltb_spec (0.5 + centerThreshold) x) as [[-> H']|[-> H']].
    + split; [discriminate|]. lra.
    + tauto.
Qed.

(** On a frame with a face and both irises the gaze state is the
    classification of [normalizedX]. *)
Lemma detect_classifies f fs l r s :
  leftIrisCenter f = Some l -> rightIrisCenter f = Some r ->
  gazeSide (detect (Faces (f :: fs)) s) = classifyGaze (normalizedX f l r).
Proof. intros Hl Hr. unfold detect. now rewrite Hl, Hr. Qed.

(** C6. Gaze dead-zone classification with d = 0.05: the classifier
    answers left exactly when x < 0.5 - d, right exactly when x > 0.5 + d,
    and null otherwise; so a gaze x that stays between 0.5 - d + eps and
    0.5 + d - eps, for a positive eps, is classified null on every sample. *)
Theorem gaze_dead_zone (eps : Q) (xs : list Q) :
  0 < eps ->
  Forall (fun x => 0.5 - centerThreshold + eps <= x /\
                   x <= 0.5 + centerThreshold - eps) xs ->
  centerThreshold == 0.05 /\
  (forall x,
     (classifyGaze (Finite x) = Some Left <-> x < 0.5 - centerThreshold) /\
     (classifyGaze (Finite x) = Some Right <-> 0.5 + centerThreshold < x) /\
     (classifyGaze (Finite x) = None <->
      0.5 - centerThreshold <= x /\ x <= 0.5 + centerThreshold)) /\
  Forall (fun x => classifyGaze (Finite x) = None) xs.
Proof.
  intros Heps Hxs. split; [reflexivity|]. split.
  - intros x. split; [apply classifyGaze_left|].
    split; [apply classifyGaze_right | apply classifyGaze_center].
  - induction Hxs as [|x xs [Hlo Hhi] _ IH]; constructor; [|exact IH].
    apply classifyGaze_center. lra.
Qed.

Lemma gaze_dead_zone_witness :
  0 < 0.01 /\
  Forall (fun x => 0.5 - centerThreshold + 0.01 <= x /\
                   x <= 0.5 + centerThreshold - 0.01) [0.46; 0.54; 0.5; 0.47] /\
  Forall (fun x => classifyGaze (Finite x) = None) [0.46; 0.54; 0.5; 0.47].
Proof.
  assert (H0 : 0 < 0.01) by reflexivity.
  assert (H1 : Forall (fun x => 0.5 - centerThreshold + 0.01 <= x /\
                                x <= 0.5 + centerThreshold - 0.01)
                 [0.46; 0.54; 0.5; 0.47])
    by (repeat constructor; vm_compute; discriminate).
  split; [exact H0|]. split; [exact H1|].
  exact (proj2 (proj2 (gaze_dead_zone 0.01 [0.46; 0.54; 0.5; 0.47] H0 H1))).
Defined.

(** Two frames whose gaze sits at 0.475 and 0.525 leave the gaze state
    null, whatever it was before. *)
Example dead_zone_frames :
  let nx := normalizedX (sampleFace 0.5) (mkKeypoint 100.5 100)
              (mkKeypoint 200.5 100) in
  jsGt nx 0.47 = true /\ jsLt nx 0.48 = true /\
  gazeSide (detectLoop [Faces [sampleFace 0.5]; Faces [sampleFace (- 0.5)]]
              lookingLeft) = None.
Proof. repeat split; vm_compute; reflexivity. Qed.

(** *** Frames without a face *)

(** The gaze state of the sample: left, after a frame that saw a face. *)
Lemma lookingLeft_gaze :
  gazeSide lookingLeft = Some Left /\ isTracking lookingLeft = true.
Proof. split; vm_compute; reflexivity. Qed.

(** C8 as stated fails: after a frame on which the detector throws, or
    reports no face, the gaze state is still the previous classification,
    not null. *)
Lemma no_face_keeps_previous_gaze :
  gazeSide (detect DetectorThrows lookingLeft) = Some Left /\
  gazeSide (detect (Faces []) lookingLeft) = Some Left /\
  ~ (forall s, gazeSide (detect DetectorThrows s) = None) /\
  ~ (forall s, gazeSide (detect (Faces []) s) = None).
Proof.
  split; [vm_compute; reflexivity|]. split; [vm_compute; reflexivity|].
  split; intros H; specialize (H lookingLeft); vm_compute in H; discriminate.
Qed.

(** C8, amended. On a frame on which the detector throws or reports no
    face, the gaze state (side, last definitive side, eye position) is
    left as it was, and the next frame is requested; every pass of the
    loop, whatever it meets, requests the next frame, so the loop goes on
    with the remaining frames. *)
Theorem no_face_leaves_gaze (s : State) :
  (gazeSide (detect DetectorThrows s) = gazeSide s /\
   lastDefinitiveGazeSide (detect DetectorThrows s) = lastDefinitiveGazeSide s /\
   eyePosition (detect DetectorThrows s) = eyePosition s /\
   animationRef (detect DetectorThrows s) = true) /\
  (gazeSide (detect (Faces []) s) = gazeSide s /\
   lastDefinitiveGazeSide (detect (Faces []) s) = lastDefinitiveGazeSide s /\
   eyePosition (detect (Faces []) s) = eyePosition s /\
   animationRef (detect (Faces []) s) = true) /\
  (forall o, animationRef (detect o s) = true) /\
  (forall o rest, detectLoop (o :: rest) s = detectLoop rest (detect o s)).
Proof.
  split; [repeat split|]. split; [repeat split|]. split.
  - intros o. unfold detect.
    destruct o as [| |[|f fs]]; try reflexivity.
    destruct (leftIrisCenter f), (rightIrisCenter f); reflexivity.
  - reflexivity.
Qed.

(** *** Timeouts *)

Ltac open_state s :=
  destruct s as [trk bs tv cs cv gs ldg ep hov pp usr tvr ret deb prev gz anim cmds];
  cbn [isTracking ballSide targetVertical cursorSide cursorVertical gazeSide
       lastDefinitiveGazeSide eyePosition isCursorHoveringPip pipPosition
       isUserControllingPip targetVerticalRef reEngageTimer cursorMoveDebounce
       prevCursorSide gazeAtPipStartTime animationRef commands] in *.

Ltac open_elapse :=
  unfold elapse, runDebounce, runReEngage, due, fireDebounce, fireReEngage;
  cbn [isTracking ballSide targetVertical cursorSide cursorVertical gazeSide
       lastDefinitiveGazeSide eyePosition isCursorHoveringPip pipPosition
       isUserControllingPip targetVerticalRef reEngageTimer cursorMoveDebounce
       prevCursorSide gazeAtPipStartTime animationRef commands option_map].

(** Timeouts do not touch the tracking flag, the widget report or the
    previous cursor zone. *)
Lemma elapse_frame now s :
  isTracking (elapse now s) = isTracking s /\
  pipPosition (elapse now s) = pipPosition s /\
  prevCursorSide (elapse now s) = prevCursorSide s.
Proof.
  open_state s. open_elapse.
  destruct ret as [r|], deb as [d|]; cbn;
    repeat match goal with
    | |- context [if ?b then _ else _] => destruct b; cbn
    end; auto.
Qed.

(** With no pending debounce, time passing commands nothing. *)
Lemma elapse_idle now s :
  cursorMoveDebounce s = None ->
  cursorMoveDebounce (elapse now s) = None /\
  commands (elapse now s) = commands s /\
  (isUserControllingPip s = false -> isUserControllingPip (elapse now s) = false) /\
  targetVertical (elapse now s) = targetVertical s /\
  gazeSide (elapse now s) = gazeSide s /\
  isCursorHoveringPip (elapse now s) = isCursorHoveringPip s /\
  gazeAtPipStartTime (elapse now s) = gazeAtPipStartTime s.
Proof.
  open_state s. intros ->. open_elapse.
  destruct ret as [r|]; cbn;
    repeat match goal with
    | |- context [if ?b then _ else _] => destruct b; cbn
    end; auto 10.
Qed.

Ltac split_ifs Hd :=
  repeat (cbn in *;
          first [ rewrite Hd
                | match goal with
                  | |- context [if ?b then _ else _] => destruct b eqn:?
                  end ]);
  cbn in *; try congruence.





(** *** The mouse handler *)

Lemma handleMouseMove_frame w x y now s :
  isTracking (handleMouseMove w x y now s) = isTracking s /\
  pipPosition (handleMouseMove w x y now s) = pipPosition s /\
  commands (handleMouseMove w x y now s) = commands s /\
  isUserControllingPip (handleMouseMove w x y now s) = isUserControllingPip s.
Proof.
  unfold handleMouseMove. destruct (negb (isTracking s)); auto.
Qed.


(** The timeout is scheduled on an unsuppressed entry into the widget's
    zone ... *)
Lemma handleMouseMove_trigger w x y now s :
  isTracking s = true -> unsuppressed now s = true ->
  prevCursorSide s <> pipZone s -> cursorZoneSide w x = pipZone s ->
  cursorMoveDebounce (handleMouseMove w x y now s) =
    Some (mkDebounce (now + 150) (pipPosition s) (cursorZoneVertical w y)).
Proof.
  intros Ht Hu Hp Hx. unfold handleMouseMove, cursorJustEnteredZone.
  rewrite Ht, Hu. cbn [negb andb].
  fold (pipZone s). rewrite Hx.
  assert (Side_eqb (prevCursorSide s) (pipZone s) = false) as ->.
  { apply not_true_iff_false. now rewrite Side_eqb_eq. }
  assert (Side_eqb (pipZone s) (pipZone s) = true) as -> by now apply Side_eqb_eq.
  reflexivity.
Qed.

(** ... and on no other sample. *)
Lemma handleMouseMove_only_edge w x y now s :
  cursorMoveDebounce (handleMouseMove w x y now s) <> cursorMoveDebounce s ->
  isTracking s = true /\ unsuppressed now s = true /\
  prevCursorSide s <> pipZone s /\ cursorZoneSide w x = pipZone s.
Proof.
  unfold handleMouseMove, cursorJustEnteredZone. fold (pipZone s).
  destruct (isTracking s); cbn [negb]; [|intros H; now elim H].
  destruct (unsuppressed now s); cbn [andb setMouse cursorMoveDebounce];
    [|intros H; now elim H].
  destruct (Side_eqb (prevCursorSide s) (pipZone s)) eqn:E1;
    cbn [negb andb]; [intros H; now elim H|].
  destruct (Side_eqb (cursorZoneSide w x) (pipZone s)) eqn:E2;
    [|intros H; now elim H].
  intros _. apply Side_eqb_eq in E2.
  repeat split; trivial.
  intros E. apply Side_eqb_eq in E. congruence.
Qed.



(** *** Traces of mouse samples *)

Lemma trace_cons w t ev evs s : run w ((t, ev) :: evs) s = run w evs (step w t ev s).
Proof. reflexivity. Qed.





(** *** Dependency changes cancel the pending command *)

Lemma gazeEffect_debounce now s :
  cursorMoveDebounce (gazeEffect now s) = cursorMoveDebounce s.
Proof. unfold gazeEffect. now destruct (negb (isTracking s)). Qed.


Lemma handlePipPositionChange_cancels now p s :
  cursorMoveDebounce (handlePipPositionChange now p s) = None.
Proof.
  unfold handlePipPositionChange.
  destruct (HSide_eqb _ _); [reflexivity | now rewrite gazeEffect_debounce].
Qed.



(** *** Cursor-entry edge detection *)



(** *** Arbitrary mouse continuations *)









(** In, out and in again at 0, 50 and 100 ms: the re-entry replaces the
    pending timeout, so nothing is commanded at 200 ms or at 249 ms and the
    one command comes at 250 ms.  In and out at 0 and 50 ms: the timeout
    set by the entry stays, and its command comes at 150 ms. *)
Lemma reentry_restarts_debounce :
  let inOutIn := moveEvents [(0, 100, 400); (50, 600, 400); (100, 100, 400)] in
  let inOut := moveEvents [(0, 100, 400); (50, 600, 400)] in
  commands (run demoScreen (inOutIn ++ [(200, Wait)]) cursorOutside) = [] /\
  commands (run demoScreen (inOutIn ++ [(249, Wait)]) cursorOutside) = [] /\
  commands (run demoScreen (inOutIn ++ [(250, Wait)]) cursorOutside)
    = [mkReport Right Center] /\
  commands (run demoScreen (inOut ++ [(149, Wait)]) cursorOutside) = [] /\
  commands (run demoScreen (inOut ++ [(150, Wait)]) cursorOutside)
    = [mkReport Right Center].
Proof. cbv zeta. repeat split; vm_compute; reflexivity. Qed.



End EyeTrackerFacts.

(** ** Further facts about [MeetPip] *)

Module MeetPipExtra.
Import MeetPip MeetPipFacts.

(** *** Resize *)

Lemma resize_ranges : MIN_HEIGHT == 180 /\ MAX_HEIGHT == 480.
Proof. split; reflexivity. Qed.

Lemma handleResizeMove_dimensions e ev s :
  dimensionsInRange (currentDimensions s) ->
  dimensionsInRange (currentDimensions (handleResizeMove e ev s)).
Proof.
  intros H. unfold handleResizeMove.
  destruct (negb (isResizing s)); [exact H|]. cbn [currentDimensions].
  unfold dimensionsInRange. cbn [width height].
  destruct (clamp_between MIN_WIDTH MAX_WIDTH
              (anchorX (resizeStart s) - clientX ev)) as [W1 W2];
    [vm_compute; discriminate|].
  destruct (clamp_between MIN_HEIGHT MAX_HEIGHT
              (clientY ev - anchorY (resizeStart s))) as [H1 H2];
    [vm_compute; discriminate|].
  tauto.
Qed.

Lemma sideChangeEffect_dimensions e tv s :
  currentDimensions (sideChangeEffect e tv s) = currentDimensions s.
Proof. unfold sideChangeEffect. now destruct (HSide_eqb _ _). Qed.

Lemma handleResize_dimensions e s :
  currentDimensions (handleResize e s) = currentDimensions s.
Proof.
  unfold handleResize. destruct (animationFrame s); [reflexivity|].
  now destruct (_ || _ || _ || _).
Qed.

Lemma handleDragStart_dimensions ev s :
  currentDimensions (handleDragStart ev s) = currentDimensions s.
Proof. unfold handleDragStart. now destruct (onChrome ev || isResizing s). Qed.

Lemma handleDragMove_dimensions e ev s :
  currentDimensions (handleDragMove e ev s) = currentDimensions s.
Proof. unfold handleDragMove. now destruct (negb (isDragging s)). Qed.

Lemma dispatch_dimensions a es :
  dimensionsInRange (currentDimensions (snd es)) ->
  dimensionsInRange (currentDimensions (snd (dispatch a es))).
Proof.
  destruct es as [e s]. intros H. destruct a; cbn [dispatch snd].
  - now rewrite handleDragStart_dimensions.
  - exact H.
  - rewrite handleDragMove_dimensions. now apply handleResizeMove_dimensions.
  - destruct (isResizing s), (isDragging s); exact H.
  - destruct (animationFrame s); [now rewrite updatePhysics_dimensions | exact H].
  - now rewrite handleResize_dimensions.
  - now rewrite sideChangeEffect_dimensions.
Qed.

(** X1. Whatever reaches the component (mouse events, frames, window
    resizes, side changes), the widget's width stays within 240..640 and
    its height within 180..480. *)
Theorem dimensions_stay_in_range (e : Env) (acts : list Action) :
  let d := currentDimensions (snd (dispatchAll acts (e, mount e))) in
  240 <= width d /\ width d <= 640 /\ 180 <= height d /\ height d <= 480.
Proof.
  cbv zeta.
  assert (H : dimensionsInRange (currentDimensions (snd (dispatchAll acts (e, mount e))))).
  { assert (H0 : dimensionsInRange (currentDimensions (snd (e, mount e)))).
    { cbn [snd]. unfold mount. destruct (_ || _); repeat split; vm_compute; discriminate. }
    revert H0. generalize (e, mount e). unfold dispatchAll.
    induction acts as [|a acts IH]; intros es H0; [exact H0|].
    cbn [fold_left]. apply IH. now apply dispatch_dimensions. }
  destruct H as (H1 & H2 & H3 & H4).
  destruct resize_ranges as [E1 E2]. rewrite E1 in H3. rewrite E2 in H4.
  unfold MIN_WIDTH, MAX_WIDTH in *. tauto.
Qed.

Lemma resizeMoves_start e moves : forall st,
  resizeStart (fold_left (fun st ev => handleResizeMove e ev st) moves st)
    = resizeStart st /\
  isResizing (fold_left (fun st ev => handleResizeMove e ev st) moves st)
    = isResizing st.
Proof.
  induction moves as [|ev moves IH]; intros st; [auto|].
  cbn [fold_left]. destruct (IH (handleResizeMove e ev st)) as [-> ->].
  unfold handleResizeMove. now destruct (negb (isResizing st)).
Qed.

Lemma handleResizeMove_corner e ev st :
  isResizing st = true ->
  let st' := handleResizeMove e ev st in
  screenRight e (currentDimensions st') (currentPosition st') ==
    screenRight e (mkDim (rs_width (resizeStart st)) (rs_height (resizeStart st)))
      (mkXY (startPosX (resizeStart st)) (startPosY (resizeStart st))) /\
  screenTop e (currentDimensions st') (currentPosition st') ==
    screenTop e (mkDim (rs_width (resizeStart st)) (rs_height (resizeStart st)))
      (mkXY (startPosX (resizeStart st)) (startPosY (resizeStart st))).
Proof.
  intros Hr. cbv zeta. unfold handleResizeMove. rewrite Hr. cbn [negb].
  cbn [currentDimensions currentPosition].
  unfold screenRight, screenLeft, screenTop, absoluteScreenX.
  cbn [width height X Y]. destruct (side e); split; qconst; ring.
Qed.

(** X2. During a resize gesture the top-right corner of the rendered
    widget stays where it was when the handle was pressed, on either anchor
    side and whatever the pointer does. *)
Theorem resize_keeps_top_right_corner (e : Env) (ev0 : MouseEvent)
    (r t l : Q) (moves : list MouseEvent) (s : State) :
  let s' := resizeGesture e ev0 r t l moves s in
  screenRight e (currentDimensions s') (currentPosition s') ==
    screenRight e (currentDimensions s) (currentPosition s) /\
  screenTop e (currentDimensions s') (currentPosition s') ==
    screenTop e (currentDimensions s) (currentPosition s).
Proof.
  cbv zeta. unfold resizeGesture.
  set (s0 := handleResizeStart ev0 r t l s).
  destruct moves as [|ev moves] using rev_ind.
  - cbn [fold_left]. split; reflexivity.
  - rewrite fold_left_app. cbn [fold_left].
    set (st := fold_left _ moves s0).
    destruct (resizeMoves_start e moves s0) as [Hs Hr]. fold st in Hs, Hr.
    destruct (handleResizeMove_corner e ev st) as [C1 C2]; [now rewrite Hr|].
    cbv zeta in C1, C2. rewrite Hs in C1, C2.
    destruct s as [a b [w h] [x y] c d f g i j k m]. exact (conj C1 C2).
Qed.

(** *** Anchor-side change *)

Lemma remapX_screen a b vw w x :
  absoluteScreenX b vw w (remapX a b vw w x) == absoluteScreenX a vw w x.
Proof.
  destruct a, b; unfold remapX, newPosX, absoluteScreenX, VIEWPORT_PADDING; ring.
Qed.

(** X3. A change of the anchor side does not move the rendered widget:
    the screen x of its left edge, its y and its size are the same right
    after the effect as before. *)
Theorem side_change_keeps_screen_position (e : Env) (tv : option Vertical)
    (s : State) :
  let s' := sideChangeEffect e tv s in
  screenLeft e (currentDimensions s') (currentPosition s') ==
    screenLeft (previousEnv e s) (currentDimensions s) (currentPosition s) /\
  Y (currentPosition s') = Y (currentPosition s) /\
  currentDimensions s' = currentDimensions s /\
  prevSide s' = side e.
Proof.
  cbv zeta. unfold sideChangeEffect, screenLeft, previousEnv.
  cbn [side innerWidth].
  destruct (HSide_eqb (prevSide s) (side e)) eqn:E.
  - apply HSide_eqb_eq in E. rewrite E. repeat split; reflexivity.
  - cbn [currentDimensions currentPosition X Y prevSide].
    repeat split; try reflexivity. apply remapX_screen.
Qed.

Lemma remapX_bounds a b vw vh d x :
  minX (getViewportBounds (mkEnv a vw vh) d) <= x ->
  x <= maxX (getViewportBounds (mkEnv a vw vh) d) ->
  minX (getViewportBounds (mkEnv b vw vh) d) <= remapX a b vw (width d) x /\
  remapX a b vw (width d) x <= maxX (getViewportBounds (mkEnv b vw vh) d).
Proof.
  destruct a, b; unfold getViewportBounds, remapX, newPosX, absoluteScreenX,
    VIEWPORT_PADDING; cbn [side innerWidth innerHeight minX maxX];
    intros H1 H2; split; lra.
Qed.

Lemma targetY_bounds e d tv :
  fitsViewport e d ->
  minY (getViewportBounds e d) <= targetY tv (innerHeight e) (height d) /\
  targetY tv (innerHeight e) (height d) <= maxY (getViewportBounds e d).
Proof.
  unfold fitsViewport, getViewportBounds, targetY, VIEWPORT_PADDING.
  intros [Hw Hh].
  destruct (side e), tv as [[| |]|]; cbn [minY maxY]; qconst; split; lra.
Qed.

(** X4. When the widget fits the viewport and sits within the bounds of
    the old side, an anchor-side change leaves it within the bounds of the
    new side, and the spring target it sets lies within them too. *)
Theorem side_change_keeps_containment (e : Env) (tv : option Vertical)
    (s : State) :
  fitsViewport e (currentDimensions s) ->
  inBounds (getViewportBounds (previousEnv e s) (currentDimensions s))
    (currentPosition s) ->
  prevSide s <> side e ->
  let s' := sideChangeEffect e tv s in
  inBounds (getViewportBounds e (currentDimensions s')) (currentPosition s') /\
  exists t, targetPosition s' = Some t /\
            inBounds (getViewportBounds e (currentDimensions s')) t.
Proof.
  intros Hfit (H1 & H2 & H3 & H4) Hne. cbv zeta.
  unfold sideChangeEffect.
  destruct (HSide_eqb (prevSide s) (side e)) eqn:E;
    [apply HSide_eqb_eq in E; contradiction|].
  cbn [currentDimensions currentPosition targetPosition].
  unfold previousEnv in *.
  destruct (remapX_bounds (prevSide s) (side e) (innerWidth e) (innerHeight e)
              (currentDimensions s) (X (currentPosition s)) H1 H2) as [B1 B2].
  assert (Ee : mkEnv (side e) (innerWidth e) (innerHeight e) = e) by now destruct e.
  rewrite Ee in B1, B2.
  assert (Hy : forall sd, minY (getViewportBounds (mkEnv sd (innerWidth e) (innerHeight e))
                             (currentDimensions s))
                          = minY (getViewportBounds e (currentDimensions s)) /\
                          maxY (getViewportBounds (mkEnv sd (innerWidth e) (innerHeight e))
                             (currentDimensions s))
                          = maxY (getViewportBounds e (currentDimensions s))).
  { intros sd. unfold getViewportBounds. cbn [side innerWidth innerHeight].
    destruct sd, (side e); split; reflexivity. }
  destruct (Hy (prevSide s)) as [Y1 Y2]. rewrite Y1 in H3. rewrite Y2 in H4.
  split.
  - unfold inBounds. cbn [X Y]. tauto.
  - eexists. split; [reflexivity|].
    destruct (targetY_bounds e (currentDimensions s) tv Hfit) as [T1 T2].
    destruct (fits_nonempty e (currentDimensions s) Hfit) as [Nx _].
    unfold inBounds. cbn [X Y]. repeat split; trivial.
    + unfold getViewportBounds, VIEWPORT_PADDING in *.
      destruct (side e); cbn [minX maxX] in *; lra.
    + unfold getViewportBounds, VIEWPORT_PADDING in *.
      destruct (side e); cbn [minX maxX] in *; lra.
Qed.

Lemma side_change_keeps_containment_witness :
  fitsViewport (mkEnv Right 1200 800) (currentDimensions (mount demoEnv)) /\
  prevSide (mount demoEnv) <> Right /\
  inBounds (getViewportBounds (mkEnv Right 1200 800)
              (currentDimensions (sideChangeEffect (mkEnv Right 1200 800) (Some Top)
                                    (mount demoEnv))))
    (currentPosition (sideChangeEffect (mkEnv Right 1200 800) (Some Top)
                        (mount demoEnv))).
Proof.
  assert (Hfit : fitsViewport (mkEnv Right 1200 800) (currentDimensions (mount demoEnv)))
    by (split; vm_compute; discriminate).
  assert (Hne : prevSide (mount demoEnv) <> Right) by discriminate.
  split; [exact Hfit|]. split; [exact Hne|].
  refine (proj1 (side_change_keeps_containment (mkEnv Right 1200 800) (Some Top)
                   (mount demoEnv) Hfit _ Hne)).
  repeat split; vm_compute; discriminate.
Defined.

Lemma seedVelocity_towards t px py :
  0 <= (X t - px) * X (seedVelocity t px py) /\
  0 <= (Y t - py) * Y (seedVelocity t px py).
Proof.
  unfold seedVelocity.
  set (dx := X t - px). set (dy := Y t - py).
  set (distance := Js.sqrt (dx * dx + dy * dy)).
  destruct (JsFacts.ltb_spec 0.5 distance) as [[-> Hd]|[-> Hd]]; cbn [X Y].
  - assert (Hpos : 0 < distance) by lra.
    pose proof (Qinv_lt_0_compat distance Hpos) as Hinv.
    assert (Hsp : 2 <= Qmax (distance * 0.1) 2) by apply Q.le_max_r.
    set (sp := Qmax (distance * 0.1) 2) in *.
    assert (Hk : 0 <= / distance * sp) by nra.
    unfold Qdiv. split.
    + setoid_replace (dx * (dx * / distance * sp))
        with ((dx * dx) * (/ distance * sp)) by ring.
      pose proof (sq_nonneg dx). nra.
    + setoid_replace (dy * (dy * / distance * sp))
        with ((dy * dy) * (/ distance * sp)) by ring.
      pose proof (sq_nonneg dy). nra.
  - split; lra.
Qed.

(** X5. The velocity seeded by an anchor-side change never points away
    from the new target, on either axis. *)
Theorem side_change_seed_points_to_target (e : Env) (tv : option Vertical)
    (s : State) (t : XY) :
  prevSide s <> side e ->
  targetPosition (sideChangeEffect e tv s) = Some t ->
  let s' := sideChangeEffect e tv s in
  0 <= (X t - X (currentPosition s')) * X (velocity s') /\
  0 <= (Y t - Y (currentPosition s')) * Y (velocity s').
Proof.
  intros Hne. cbv zeta. unfold sideChangeEffect.
  destruct (HSide_eqb (prevSide s) (side e)) eqn:E;
    [apply HSide_eqb_eq in E; contradiction|].
  cbn [targetPosition currentPosition velocity X Y].
  intros Ht. injection Ht as <-. apply seedVelocity_towards.
Qed.

Lemma side_change_seed_points_to_target_witness :
  let e := mkEnv Right 1200 800 in
  let s' := sideChangeEffect e (Some Top) (mount demoEnv) in
  prevSide (mount demoEnv) <> side e /\
  targetPosition s' = Some (mkXY 0 (targetY (Some Top) 800 280)) /\
  0 <= (0 - X (currentPosition s')) * X (velocity s').
Proof.
  cbv zeta.
  assert (Hne : prevSide (mount demoEnv) <> side (mkEnv Right 1200 800))
    by discriminate.
  split; [exact Hne|]. split; [reflexivity|].
  exact (proj1 (side_change_seed_points_to_target (mkEnv Right 1200 800) (Some Top)
                  (mount demoEnv) _ Hne eq_refl)).
Defined.

(** X6. The vertical slot a side change aims at is reported as that slot
    on arrival only in a viewport taller than 72 + 1.5 x height: the top
    target is reported "top", and the bottom target "bottom", exactly then;
    in a shorter viewport that still fits the widget both are reported
    "center".  The centre target is always reported "center". *)
Theorem target_slot_report (e : Env) (d : Dimensions) (x : Q) :
  0 <= innerHeight e ->
  (reportedVertical e (mkXY x (targetY (Some Top) (innerHeight e) (height d))) = Top
   <-> 72 + 1.5 * height d < innerHeight e) /\
  (reportedVertical e (mkXY x (targetY (Some Bottom) (innerHeight e) (height d)))
     = Bottom
   <-> 72 + 1.5 * height d < innerHeight e) /\
  (fitsViewport e d -> innerHeight e <= 72 + 1.5 * height d ->
   reportedVertical e (mkXY x (targetY (Some Top) (innerHeight e) (height d)))
     = Center /\
   reportedVertical e (mkXY x (targetY (Some Bottom) (innerHeight e) (height d)))
     = Center) /\
  reportedVertical e (mkXY x (targetY (Some Center) (innerHeight e) (height d)))
    = Center.
Proof.
  unfold reportedVertical, targetY, fitsViewport, VIEWPORT_PADDING. cbn [Y].
  set (vh := innerHeight e). set (h := height d). intros Hvh.
  assert (A : forall a b : Q, a < b -> Js.ltb a b = true)
    by (intros; now apply JsFacts.ltb_lt).
  assert (B : forall a b : Q, b <= a -> Js.ltb a b = false)
    by (intros; now apply JsFacts.ltb_ge).
  assert (Etop : 24 + h / 2 - vh / 2 < - vh / 6 <-> 72 + 1.5 * h < vh)
    by (qconst; split; intros; lra).
  assert (Ebot : vh / 6 < vh / 2 - 24 - h / 2 <-> 72 + 1.5 * h < vh)
    by (qconst; split; intros; lra).
  assert (Elow : - vh / 6 <= vh / 6) by (revert Hvh; qconst; intros; lra).
  repeat split.
  - destruct (JsFacts.ltb_spec (24 + h / 2 - vh / 2) (- vh / 6)) as [[-> H]|[-> H]].
    + intros _. now apply Etop.
    + destruct (Js.ltb _ _); discriminate.
  - intros H. apply Etop in H. now rewrite (A _ _ H).
  - destruct (JsFacts.ltb_spec (vh / 2 - 24 - h / 2) (- vh / 6)) as [[-> H]|[-> H]];
      [discriminate|].
    destruct (JsFacts.ltb_spec (vh / 6) (vh / 2 - 24 - h / 2)) as [[-> H']|[-> H']];
      [|discriminate].
    intros _. now apply Ebot.
  - intros H. apply Ebot in H.
    rewrite B by lra. now rewrite (A _ _ H).
  - fold h vh in H. destruct H as [_ Hh].
    rewrite B; [rewrite B; [reflexivity|]|].
    + revert Hh Hvh; qconst; intros; lra.
    + apply Qnot_lt_le. intros C. apply Etop in C. lra.
  - fold h vh in H. destruct H as [_ Hh].
    rewrite B; [rewrite B; [reflexivity|]|].
    + apply Qnot_lt_le. intros C. apply Ebot in C. lra.
    + revert Hh Hvh; qconst; intros; lra.
  - rewrite B; [rewrite B; [reflexivity|]|]; revert Hvh; qconst; intros; lra.
Qed.

Lemma target_slot_report_witness :
  0 <= innerHeight (mkEnv Left 1200 400) /\
  fitsViewport (mkEnv Left 1200 400) (mkDim 320 280) /\
  reportedVertical (mkEnv Left 1200 400)
    (mkXY 0 (targetY (Some Top) 400 280)) = Center /\
  reportedVertical demoEnv (mkXY 0 (targetY (Some Top) 800 280)) = Top.
Proof.
  assert (H0 : 0 <= innerHeight (mkEnv Left 1200 400)) by (vm_compute; discriminate).
  assert (Hf : fitsViewport (mkEnv Left 1200 400) (mkDim 320 280))
    by (split; vm_compute; discriminate).
  split; [exact H0|]. split; [exact Hf|]. split.
  - destruct (target_slot_report (mkEnv Left 1200 400) (mkDim 320 280) 0 H0)
      as (_ & _ & Hc & _).
    apply Hc; [exact Hf | vm_compute; discriminate].
  - reflexivity.
Defined.

(** *** Drag *)

Lemma dragMoves_frame e moves : forall st,
  dragStartPos (fold_left (fun st ev => handleDragMove e ev st) moves st)
    = dragStartPos st /\
  isDragging (fold_left (fun st ev => handleDragMove e ev st) moves st)
    = isDragging st /\
  currentDimensions (fold_left (fun st ev => handleDragMove e ev st) moves st)
    = currentDimensions st /\
  targetPosition (fold_left (fun st ev => handleDragMove e ev st) moves st)
    = targetPosition st /\
  isResizing (fold_left (fun st ev => handleDragMove e ev st) moves st)
    = isResizing st.
Proof.
  induction moves as [|ev moves IH]; intros st; [auto 6|].
  cbn [fold_left].
  destruct (IH (handleDragMove e ev st)) as (-> & -> & -> & -> & ->).
  unfold handleDragMove. destruct (negb (isDragging st)); auto 6.
Qed.

(** X7. A drag does not drift: after the press at [ev0] and any number
    of moves ending at [ev], the position is the clamp of the position at
    the press shifted by the whole pointer displacement; when that point
    lies within the bounds it is the position. *)
Theorem drag_follows_pointer (e : Env) (ev0 ev : MouseEvent)
    (moves : list MouseEvent) (s : State) :
  onChrome ev0 = false -> isResizing s = false ->
  let s' := dragMoves e ev0 (moves ++ [ev]) s in
  let candidate :=
    mkXY (X (currentPosition s) + (clientX ev - clientX ev0))
         (Y (currentPosition s) + (clientY ev - clientY ev0)) in
  currentPosition s' = clampPosition e (currentDimensions s) candidate /\
  (inBounds (getViewportBounds e (currentDimensions s)) candidate ->
   currentPosition s' =xy= candidate).
Proof.
  intros Hc Hr. cbv zeta. unfold dragMoves.
  rewrite fold_left_app. cbn [fold_left].
  set (s0 := handleDragStart ev0 s).
  destruct (dragMoves_frame e moves s0) as (Hd & Hg & Hdim & _).
  set (st := fold_left _ moves s0) in *.
  assert (E0 : s0 = mkState (isResizing s) true (currentDimensions s)
                      (currentPosition s) (mkXY 0 0) None false
                      (mkDragStart (clientX ev0) (clientY ev0)
                         (X (currentPosition s)) (Y (currentPosition s)))
                      (mkXY (clientX ev0) (clientY ev0)) (now ev0)
                      (resizeStart s) (prevSide s)).
  { unfold s0, handleDragStart. now rewrite Hc, Hr. }
  assert (Hpos : currentPosition (handleDragMove e ev st) =
                 clampPosition e (currentDimensions s)
                   (mkXY (X (currentPosition s) + (clientX ev - clientX ev0))
                         (Y (currentPosition s) + (clientY ev - clientY ev0)))).
  { unfold handleDragMove. rewrite Hg, Hd, Hdim, E0. reflexivity. }
  split; [exact Hpos|].
  intros Hin. rewrite Hpos. now apply clampPosition_fixes.
Qed.

Lemma drag_follows_pointer_witness :
  let s' := dragMoves demoEnv (mkMouse 100 400 0 false)
              ([mkMouse 900 900 10 false] ++ [mkMouse 150 380 20 false])
              (mount demoEnv) in
  onChrome (mkMouse 100 400 0 false) = false /\
  isResizing (mount demoEnv) = false /\
  currentPosition s' =xy= mkXY 50 (- 20).
Proof.
  cbv zeta. split; [reflexivity|]. split; [reflexivity|].
  destruct (drag_follows_pointer demoEnv (mkMouse 100 400 0 false)
              (mkMouse 150 380 20 false) [mkMouse 900 900 10 false]
              (mount demoEnv) eq_refl eq_refl) as [_ H].
  cbv zeta in H.
  assert (Hin : inBounds (getViewportBounds demoEnv (currentDimensions (mount demoEnv)))
                  (mkXY (X (currentPosition (mount demoEnv)) + (150 - 100))
                        (Y (currentPosition (mount demoEnv)) + (380 - 400))))
    by (repeat split; vm_compute; discriminate).
  destruct (H Hin) as [Hx Hy]. split.
  - rewrite Hx. vm_compute. reflexivity.
  - rewrite Hy. vm_compute. reflexivity.
Defined.

Lemma Qabs_div_ge_one x m :
  1 <= m -> Qabs (x / (m / 16.67) * 0.25) <= 4.1675 * Qabs x.
Proof.
  intros Hm.
  assert (Hpos : 0 < m) by lra.
  pose proof (Qinv_lt_0_compat m Hpos) as Hinv.
  assert (Hone : m * / m == 1) by (apply Qmult_inv_r; lra).
  assert (Hle : / m <= 1) by nra.
  assert (E : x / (m / 16.67) * 0.25 == x * (4.1675 * / m)).
  { unfold Qdiv. rewrite Qinv_mult_distr.
    setoid_replace (/ / 16.67) with 16.67 by reflexivity. ring. }
  rewrite E, Qabs_Qmult.
  assert (Hk : Qabs (4.1675 * / m) == 4.1675 * / m) by (apply Qabs_pos; nra).
  rewrite Hk. pose proof (Qabs_nonneg x). nra.
Qed.

(** X8. The fling velocity stored by a drag move is at most 4.1675 times
    the pointer displacement since the previous sample, per axis, however
    short the time between the samples; a sample that does not move the
    pointer stores zero velocity. *)
Theorem fling_velocity_bound (e : Env) (ev : MouseEvent) (s : State) :
  isDragging s = true ->
  let v := velocity (handleDragMove e ev s) in
  Qabs (X v) <= 4.1675 * Qabs (clientX ev - X (lastMousePos s)) /\
  Qabs (Y v) <= 4.1675 * Qabs (clientY ev - Y (lastMousePos s)) /\
  (clientX ev == X (lastMousePos s) -> X v == 0) /\
  (clientY ev == Y (lastMousePos s) -> Y v == 0).
Proof.
  intros Hd. cbv zeta. unfold handleDragMove. rewrite Hd. cbn [negb velocity].
  set (m := Qmax 1 (now ev - lastMouseTime s)).
  assert (Hm : 1 <= m) by apply Q.le_max_l.
  assert (Hdt : Js.ltb 0 (m / 16.67) = true).
  { apply JsFacts.ltb_lt. qconst. lra. }
  rewrite Hdt. cbn [X Y].
  pose proof (Qabs_div_ge_one (clientX ev - X (lastMousePos s)) m Hm) as Bx.
  pose proof (Qabs_div_ge_one (clientY ev - Y (lastMousePos s)) m Hm) as By.
  repeat split; trivial.
  - intros E.
    assert (Hz : Qabs (clientX ev - X (lastMousePos s)) == 0).
    { setoid_replace (clientX ev - X (lastMousePos s)) with 0 by lra. reflexivity. }
    rewrite Hz in Bx. apply Qabs_le_iff in Bx. lra.
  - intros E.
    assert (Hz : Qabs (clientY ev - Y (lastMousePos s)) == 0).
    { setoid_replace (clientY ev - Y (lastMousePos s)) with 0 by lra. reflexivity. }
    rewrite Hz in By. apply Qabs_le_iff in By. lra.
Qed.

Lemma fling_velocity_bound_witness :
  let s := handleDragStart (mkMouse 0 0 0 false) (mount demoEnv) in
  isDragging s = true /\
  Qabs (X (velocity (handleDragMove demoEnv (mkMouse 100 0 0.5 false) s)))
    <= 4.1675 * Qabs (100 - 0).
Proof.
  cbv zeta. split; [reflexivity|].
  exact (proj1 (fling_velocity_bound demoEnv (mkMouse 100 0 0.5 false)
                  (handleDragStart (mkMouse 0 0 0 false) (mount demoEnv)) eq_refl)).
Defined.

Lemma physicsLoop_inBounds e n : forall s r,
  fitsViewport e (currentDimensions s) ->
  physicsLoop n e s = Some r ->
  currentDimensions r = currentDimensions s /\
  inBounds (getViewportBounds e (currentDimensions s)) (currentPosition r).
Proof.
  induction n as [|n IH]; intros s r Hfit H; [discriminate|].
  rewrite physicsLoop_step in H.
  destruct (animationFrame (updatePhysics e s)).
  - destruct (IH (updatePhysics e s) r) as [Hd Hin]; trivial.
    + now rewrite updatePhysics_dimensions.
    + rewrite updatePhysics_dimensions in Hd, Hin. auto.
  - injection H as <-. split; [apply updatePhysics_dimensions|].
    now apply updatePhysics_inBounds.
Qed.

(** X9. A complete drag gesture (press on the widget, any moves, release)
    leaves the widget within the bounds with no spring target, and the
    animation loop the release may start comes to rest within 46 frames,
    still within the bounds. *)
Theorem drag_gesture_settles (e : Env) (ev0 : MouseEvent)
    (moves : list MouseEvent) (s : State) :
  onChrome ev0 = false -> isResizing s = false ->
  fitsViewport e (currentDimensions s) ->
  let s' := dragGesture e ev0 moves s in
  isDragging s' = false /\ targetPosition s' = None /\
  inBounds (getViewportBounds e (currentDimensions s)) (currentPosition s') /\
  exists r, physicsLoop 46 e s' = Some r /\ atRest r /\
            inBounds (getViewportBounds e (currentDimensions s)) (currentPosition r).
Proof.
  intros Hc Hr Hfit. cbv zeta. unfold dragGesture.
  set (s0 := handleDragStart ev0 s).
  assert (H0 : targetPosition s0 = None /\ currentDimensions s0 = currentDimensions s).
  { unfold s0, handleDragStart. rewrite Hc, Hr. split; reflexivity. }
  destruct H0 as [Ht0 Hd0].
  destruct (dragMoves_frame e moves s0) as (_ & _ & Hdim & Ht & _).
  set (st := fold_left _ moves s0) in *.
  assert (Hdim' : currentDimensions (handleDragEnd e st) = currentDimensions s)
    by (cbn; congruence).
  assert (Hfit' : fitsViewport e (currentDimensions st)) by (rewrite Hdim, Hd0; exact Hfit).
  assert (Htar : targetPosition (handleDragEnd e st) = None) by (cbn; congruence).
  split; [reflexivity|]. split; [exact Htar|]. split.
  - pose proof (handleDragEnd_inBounds e st Hfit') as Hin.
    now rewrite Hdim, Hd0 in Hin.
  - destruct (physicsLoop_any_velocity e (handleDragEnd e st) Htar) as (r & Hl & Hrest).
    exists r. split; [exact Hl|]. split; [exact Hrest|].
    assert (Hfe : fitsViewport e (currentDimensions (handleDragEnd e st)))
      by (rewrite Hdim'; exact Hfit).
    destruct (physicsLoop_inBounds e 46 (handleDragEnd e st) r Hfe Hl) as [_ Hin].
    now rewrite Hdim' in Hin.
Qed.

Lemma drag_gesture_settles_witness :
  onChrome (mkMouse 100 400 0 false) = false /\
  isResizing (mount demoEnv) = false /\
  fitsViewport demoEnv (currentDimensions (mount demoEnv)) /\
  exists r,
    physicsLoop 46 demoEnv
      (dragGesture demoEnv (mkMouse 100 400 0 false)
         [mkMouse 5000 3000 16.67 false] (mount demoEnv)) = Some r /\
    atRest r /\
    inBounds (getViewportBounds demoEnv (currentDimensions (mount demoEnv)))
      (currentPosition r).
Proof.
  assert (Hfit : fitsViewport demoEnv (currentDimensions (mount demoEnv)))
    by (split; vm_compute; discriminate).
  split; [reflexivity|]. split; [reflexivity|]. split; [exact Hfit|].
  exact (proj2 (proj2 (proj2
           (drag_gesture_settles demoEnv (mkMouse 100 400 0 false)
              [mkMouse 5000 3000 16.67 false] (mount demoEnv)
              eq_refl eq_refl Hfit)))).
Defined.

(** *** Free flight *)

Lemma bouncePhase_axes b p v :
  X (fst (fst (bouncePhase b p v))) = fst (fst (bounceAxis (minX b) (maxX b) (X p) (X v))) /\
  Y (fst (fst (bouncePhase b p v))) = fst (fst (bounceAxis (minY b) (maxY b) (Y p) (Y v))) /\
  X (snd (fst (bouncePhase b p v))) = snd (fst (bounceAxis (minX b) (maxX b) (X p) (X v))) /\
  Y (snd (fst (bouncePhase b p v))) = snd (fst (bounceAxis (minY b) (maxY b) (Y p) (Y v))).
Proof.
  unfold bouncePhase.
  destruct (bounceAxis (minX b) (maxX b) (X p) (X v)) as [[px vx] bx].
  destruct (bounceAxis (minY b) (maxY b) (Y p) (Y v)) as [[py vy] byy].
  repeat split.
Qed.

(** The position put back on the range is no farther from an in-range
    point than the unclamped one. *)
Lemma bounceAxis_travel lo hi p v w :
  lo <= p -> p <= hi ->
  Qabs (fst (fst (bounceAxis lo hi (p + v) w)) - p) <= Qabs v.
Proof.
  intros Hlo Hhi. unfold bounceAxis.
  destruct (JsFacts.ltb_spec (p + v) lo) as [[-> H]|[-> H]]; cbn [fst].
  - apply Qabs_le_iff. pose proof (Qle_Qabs v). pose proof (Qle_Qabs (- v)) as Hn.
    rewrite Qabs_opp in Hn. split; lra.
  - destruct (JsFacts.ltb_spec hi (p + v)) as [[-> H']|[-> H']]; cbn [fst].
    + apply Qabs_le_iff. pose proof (Qle_Qabs v). pose proof (Qle_Qabs (- v)) as Hn.
      rewrite Qabs_opp in Hn. split; lra.
    + setoid_replace (p + v - p) with v by ring. apply Qle_refl.
Qed.

Lemma stopPhase_axes v t :
  Qabs (X (stopPhase v t)) <= Qabs (X v) /\ Qabs (Y (stopPhase v t)) <= Qabs (Y v).
Proof.
  unfold stopPhase. destruct (_ && _ && _); cbn [X Y].
  - split; apply Qabs_nonneg.
  - split; apply Qle_refl.
Qed.

(** One frame without target, from a position within non-empty bounds:
    each axis moves by at most its velocity, and the velocity shrinks by
    the friction factor. *)
Lemma free_frame_axes e s :
  targetPosition s = None ->
  fitsViewport e (currentDimensions s) ->
  inBounds (getViewportBounds e (currentDimensions s)) (currentPosition s) ->
  let s' := updatePhysics e s in
  Qabs (X (currentPosition s') - X (currentPosition s)) <= Qabs (X (velocity s)) /\
  Qabs (Y (currentPosition s') - Y (currentPosition s)) <= Qabs (Y (velocity s)) /\
  Qabs (X (velocity s')) <= FRICTION * Qabs (X (velocity s)) /\
  Qabs (Y (velocity s')) <= FRICTION * Qabs (Y (velocity s)).
Proof.
  intros Ht Hfit (H1 & H2 & H3 & H4). cbv zeta.
  rewrite updatePhysics_unfold. cbv zeta. rewrite (springPhase_free s Ht).
  cbn [fst snd currentPosition velocity].
  set (b := getViewportBounds e (currentDimensions s)) in *.
  unfold movePhase. cbn [fst snd].
  set (p' := mkXY _ _). set (v' := mkXY _ _).
  destruct (bouncePhase_axes b p' v') as (Px & Py & Vx & Vy).
  destruct (stopPhase_axes (snd (fst (bouncePhase b p' v'))) None) as [Sx Sy].
  assert (Hm : 0 <= MAX_VELOCITY) by (vm_compute; discriminate).
  assert (Hc : Qabs (- BOUNCE_DAMPING) <= 1) by (vm_compute; discriminate).
  assert (Hf : Qabs FRICTION == FRICTION) by reflexivity.
  repeat split.
  - rewrite Px. apply (bounceAxis_travel _ _ _ _ _ H1 H2).
  - rewrite Py. apply (bounceAxis_travel _ _ _ _ _ H3 H4).
  - eapply Qle_trans; [exact Sx|]. rewrite Vx.
    apply bounceAxis_velocity. subst v'. cbn [X].
    eapply Qle_trans; [apply clamp_abs_le; exact Hm|].
    rewrite Qabs_Qmult, Hf. rewrite Qmult_comm. apply Qle_refl.
  - eapply Qle_trans; [exact Sy|]. rewrite Vy.
    apply bounceAxis_velocity. subst v'. cbn [Y].
    eapply Qle_trans; [apply clamp_abs_le; exact Hm|].
    rewrite Qabs_Qmult, Hf. rewrite Qmult_comm. apply Qle_refl.
Qed.

Lemma physicsFrames_travel e n : forall s,
  targetPosition s = None ->
  fitsViewport e (currentDimensions s) ->
  inBounds (getViewportBounds e (currentDimensions s)) (currentPosition s) ->
  let s' := physicsFrames n e s in
  Qabs (X (currentPosition s') - X (currentPosition s))
    + (25 # 3) * Qabs (X (velocity s')) <= (25 # 3) * Qabs (X (velocity s)) /\
  Qabs (Y (currentPosition s') - Y (currentPosition s))
    + (25 # 3) * Qabs (Y (velocity s')) <= (25 # 3) * Qabs (Y (velocity s)).
Proof.
  induction n as [|n IH]; intros s Ht Hfit Hin; cbv zeta.
  - cbn [physicsFrames].
    setoid_replace (X (currentPosition s) - X (currentPosition s)) with 0 by ring.
    setoid_replace (Y (currentPosition s) - Y (currentPosition s)) with 0 by ring.
    change (Qabs 0) with 0. split; lra.
  - cbn [physicsFrames].
    destruct (free_frame_axes e s Ht Hfit Hin) as (Px & Py & Vx & Vy).
    cbv zeta in Px, Py, Vx, Vy.
    set (s1 := updatePhysics e s) in *.
    assert (Hd1 : currentDimensions s1 = currentDimensions s)
      by apply updatePhysics_dimensions.
    destruct (IH s1) as [Ix Iy].
    + now apply updatePhysics_free_target.
    + now rewrite Hd1.
    + rewrite Hd1. now apply updatePhysics_inBounds.
    + cbv zeta in Ix, Iy.
      set (sn := physicsFrames n e s1) in *.
      pose proof (Qabs_triangle (X (currentPosition sn) - X (currentPosition s1))
                    (X (currentPosition s1) - X (currentPosition s))) as Tx.
      pose proof (Qabs_triangle (Y (currentPosition sn) - Y (currentPosition s1))
                    (Y (currentPosition s1) - Y (currentPosition s))) as Ty.
      setoid_replace (X (currentPosition sn) - X (currentPosition s1)
                      + (X (currentPosition s1) - X (currentPosition s)))
        with (X (currentPosition sn) - X (currentPosition s)) in Tx by ring.
      setoid_replace (Y (currentPosition sn) - Y (currentPosition s1)
                      + (Y (currentPosition s1) - Y (currentPosition s)))
        with (Y (currentPosition sn) - Y (currentPosition s)) in Ty by ring.
      unfold FRICTION in *. split; lra.
Qed.

(** X10. Without a spring target, from a position within the bounds, the
    widget never travels farther than 25/3 (about 8.33) times its initial
    velocity on either axis, however many frames run. *)
Theorem fling_travel_bound (e : Env) (s : State) (n : nat) :
  targetPosition s = None ->
  fitsViewport e (currentDimensions s) ->
  inBounds (getViewportBounds e (currentDimensions s)) (currentPosition s) ->
  let s' := physicsFrames n e s in
  Qabs (X (currentPosition s') - X (currentPosition s))
    <= (25 # 3) * Qabs (X (velocity s)) /\
  Qabs (Y (currentPosition s') - Y (currentPosition s))
    <= (25 # 3) * Qabs (Y (velocity s)).
Proof.
  intros Ht Hfit Hin. cbv zeta.
  destruct (physicsFrames_travel e n s Ht Hfit Hin) as [Hx Hy]. cbv zeta in Hx, Hy.
  pose proof (Qabs_nonneg (X (velocity (physicsFrames n e s)))).
  pose proof (Qabs_nonneg (Y (velocity (physicsFrames n e s)))).
  split; lra.
Qed.

Lemma fling_travel_bound_witness :
  targetPosition flingState = None /\
  fitsViewport demoEnv (currentDimensions flingState) /\
  inBounds (getViewportBounds demoEnv (currentDimensions flingState))
    (currentPosition flingState) /\
  Qabs (X (currentPosition (physicsFrames 30 demoEnv flingState))
        - X (currentPosition flingState))
    <= (25 # 3) * Qabs (X (velocity flingState)).
Proof.
  assert (Hfit : fitsViewport demoEnv (currentDimensions flingState))
    by (split; vm_compute; discriminate).
  assert (Hin : inBounds (getViewportBounds demoEnv (currentDimensions flingState))
                  (currentPosition flingState))
    by (repeat split; vm_compute; discriminate).
  split; [reflexivity|]. split; [exact Hfit|]. split; [exact Hin|].
  exact (proj1 (fling_travel_bound demoEnv flingState 30 eq_refl Hfit Hin)).
Defined.

(** *** Window resize *)

Lemma inBounds_no_overflow b p :
  inBounds b p ->
  Js.ltb (X p) (minX b) || Js.ltb (maxX b) (X p) ||
  Js.ltb (Y p) (minY b) || Js.ltb (maxY b) (Y p) = false.
Proof.
  intros (H1 & H2 & H3 & H4).
  apply JsFacts.ltb_ge in H1, H2, H3, H4. now rewrite H1, H2, H3, H4.
Qed.

(** X11. When the widget fits the new viewport, a window resize puts the
    position within the new bounds, keeps velocity and target, and never
    starts the animation; handling the same resize again changes nothing
    more. *)
Theorem window_resize_reclamps (e : Env) (s : State) :
  fitsViewport e (currentDimensions s) ->
  let s' := handleResize e s in
  inBounds (getViewportBounds e (currentDimensions s')) (currentPosition s') /\
  velocity s' = velocity s /\ targetPosition s' = targetPosition s /\
  animationFrame s' = animationFrame s /\
  currentPosition (handleResize e s') =xy= currentPosition s'.
Proof.
  intros Hfit. cbv zeta.
  pose proof (clampPosition_inBounds e (currentDimensions s) (currentPosition s) Hfit)
    as Hin.
  assert (E : handleResize e s =
              setPosition s (clampPosition e (currentDimensions s) (currentPosition s))).
  { unfold handleResize. destruct (animationFrame s); [reflexivity|].
    now rewrite (inBounds_no_overflow _ _ Hin). }
  assert (E2 : forall st, fitsViewport e (currentDimensions st) ->
             currentPosition (handleResize e st) =
             clampPosition e (currentDimensions st) (currentPosition st)).
  { intros st Hf. unfold handleResize. destruct (animationFrame st); [reflexivity|].
    rewrite (inBounds_no_overflow _ _
               (clampPosition_inBounds e (currentDimensions st) (currentPosition st) Hf)).
    reflexivity. }
  rewrite E. cbn [setPosition currentDimensions currentPosition velocity
                  targetPosition animationFrame].
  repeat split; try apply Hin.
  - rewrite E2 by exact Hfit. cbn [currentPosition currentDimensions].
    apply (clampPosition_fixes e (currentDimensions s) _ Hin).
  - rewrite E2 by exact Hfit. cbn [currentPosition currentDimensions].
    apply (clampPosition_fixes e (currentDimensions s) _ Hin).
Qed.

Lemma window_resize_reclamps_witness :
  let e := mkEnv Left 800 600 in
  let s := setPosition (mount demoEnv) (mkXY 700 200) in
  fitsViewport e (currentDimensions s) /\
  inBounds (getViewportBounds e (currentDimensions (handleResize e s)))
    (currentPosition (handleResize e s)) /\
  animationFrame (handleResize e s) = animationFrame s.
Proof.
  cbv zeta.
  assert (Hfit : fitsViewport (mkEnv Left 800 600)
                   (currentDimensions (setPosition (mount demoEnv) (mkXY 700 200))))
    by (split; vm_compute; discriminate).
  split; [exact Hfit|].
  destruct (window_resize_reclamps (mkEnv Left 800 600)
              (setPosition (mount demoEnv) (mkXY 700 200)) Hfit)
    as (H1 & _ & _ & H4 & _).
  exact (conj H1 H4).
Defined.

(** *** Gestures and the animation loop *)

Lemma handleResizeMove_flags e ev s :
  isDragging (handleResizeMove e ev s) = isDragging s /\
  isResizing (handleResizeMove e ev s) = isResizing s /\
  animationFrame (handleResizeMove e ev s) = animationFrame s.
Proof. unfold handleResizeMove. destruct (negb (isResizing s)); auto. Qed.

Lemma handleDragMove_flags e ev s :
  isDragging (handleDragMove e ev s) = isDragging s /\
  isResizing (handleDragMove e ev s) = isResizing s /\
  animationFrame (handleDragMove e ev s) = animationFrame s.
Proof. unfold handleDragMove. destruct (negb (isDragging s)); auto. Qed.

Lemma dispatch_gesture_invariant a es :
  isGesture a = true ->
  gestureSuppressesPhysics (snd es) ->
  gestureSuppressesPhysics (snd (dispatch a es)).
Proof.
  destruct es as [e s]. unfold gestureSuppressesPhysics. cbn [snd].
  intros Hg I. destruct a; try discriminate; cbn [dispatch snd].
  - unfold handleDragStart.
    destruct (onChrome ev || isResizing s); [exact I | reflexivity].
  - reflexivity.
  - destruct (handleDragMove_flags e ev (handleResizeMove e ev s)) as (-> & -> & ->).
    destruct (handleResizeMove_flags e ev s) as (-> & -> & ->). exact I.
  - destruct (isResizing s) eqn:Er, (isDragging s) eqn:Ed;
      try (intros [H|H]; cbn [handleDragEnd handleResizeEnd isDragging isResizing] in H;
           congruence).
  - destruct (animationFrame s) eqn:Ea; [|intros _; exact Ea].
    rewrite updatePhysics_unfold. cbv zeta. cbn [isDragging isResizing].
    intros H. specialize (I H). discriminate.
Qed.

(** X12. Under mouse events and animation frames, no frame is ever
    scheduled while a drag or a resize is in progress, so the physics
    engine never runs during a gesture. *)
Theorem gesture_suppresses_physics (e : Env) (acts : list Action) :
  Forall (fun a => isGesture a = true) acts ->
  let es := dispatchAll acts (e, mount e) in
  gestureSuppressesPhysics (snd es) /\
  (isDragging (snd es) = true \/ isResizing (snd es) = true ->
   dispatch AnimationFrame es = es).
Proof.
  intros Hall. cbv zeta.
  assert (I : gestureSuppressesPhysics (snd (dispatchAll acts (e, mount e)))).
  { assert (I0 : gestureSuppressesPhysics (snd (e, mount e))).
    { unfold gestureSuppressesPhysics, mount. cbn [snd].
      destruct (_ || _); cbn; intros [H|H]; discriminate. }
    revert I0. generalize (e, mount e). unfold dispatchAll.
    induction Hall as [|a acts Ha _ IH]; intros es I0; [exact I0|].
    cbn [fold_left]. apply IH. now apply dispatch_gesture_invariant. }
  split; [exact I|].
  intros H. specialize (I H).
  destruct (dispatchAll acts (e, mount e)) as [e' s']. cbn [snd] in *.
  cbn [dispatch]. now rewrite I.
Qed.

Lemma gesture_suppresses_physics_witness :
  let acts := [ MouseDownWidget (mkMouse 100 400 0 false);
                MouseMoveWindow (mkMouse 160 400 16.67 false);
                AnimationFrame ] in
  Forall (fun a => isGesture a = true) acts /\
  isDragging (snd (dispatchAll acts (demoEnv, mount demoEnv))) = true /\
  animationFrame (snd (dispatchAll acts (demoEnv, mount demoEnv))) = false.
Proof.
  cbv zeta.
  assert (Hall : Forall (fun a => isGesture a = true)
                   [ MouseDownWidget (mkMouse 100 400 0 false);
                     MouseMoveWindow (mkMouse 160 400 16.67 false);
                     AnimationFrame ]) by (repeat constructor).
  split; [exact Hall|]. split; [reflexivity|].
  apply (proj1 (gesture_suppresses_physics demoEnv _ Hall)).
  left. reflexivity.
Defined.

(** X13. A state at rest within the bounds is a fixed point of the
    engine: a frame leaves the position where it is, the velocity zero, and
    requests no further frame. *)
Theorem rest_is_stable (e : Env) (s : State) :
  atRest s ->
  inBounds (getViewportBounds e (currentDimensions s)) (currentPosition s) ->
  currentPosition (updatePhysics e s) =xy= currentPosition s /\
  atRest (updatePhysics e s).
Proof.
  intros (Hv & Ht & Ha) (H1 & H2 & H3 & H4).
  assert (Hb : physicsBounced e s = false).
  { rewrite physicsBounced_unfold. cbv zeta. rewrite (springPhase_free s Ht).
    cbn [fst snd]. apply bouncePhase_room; unfold movePhase; cbn [fst X Y];
      rewrite Hv; cbn [X Y]; lra. }
  rewrite physicsBounced_unfold in Hb. rewrite updatePhysics_unfold.
  cbv zeta in *. rewrite (springPhase_free s Ht) in *. cbn [fst snd] in *.
  rewrite (bouncePhase_unbounced _ _ _ Hb). cbn [fst snd].
  unfold movePhase. rewrite Hv. cbn [fst snd X Y currentPosition].
  split; [split; cbn [X Y]; ring|].
  unfold atRest. cbn [velocity targetPosition animationFrame].
  repeat split; vm_compute; reflexivity.
Qed.

Lemma rest_is_stable_witness :
  atRest (mount demoEnv) /\
  inBounds (getViewportBounds demoEnv (currentDimensions (mount demoEnv)))
    (currentPosition (mount demoEnv)) /\
  atRest (updatePhysics demoEnv (mount demoEnv)).
Proof.
  assert (Hr : atRest (mount demoEnv)) by (repeat split).
  assert (Hin : inBounds (getViewportBounds demoEnv (currentDimensions (mount demoEnv)))
                  (currentPosition (mount demoEnv)))
    by (repeat split; vm_compute; discriminate).
  split; [exact Hr|]. split; [exact Hin|].
  exact (proj2 (rest_is_stable demoEnv (mount demoEnv) Hr Hin)).
Defined.

(** *** Widget zone and cursor zone *)

(** X14. The zone the widget reports is the cursor-zone classification
    of its own centre: horizontally the third in which the centre x lies,
    with the anchor side standing in for the middle third; vertically the
    third in which the centre y lies. *)
Theorem report_is_zone_of_centre (e : Env) (d : Dimensions) (pos : XY) :
  let w := EyeTracker.mkScreen (innerWidth e) (innerHeight e) in
  r_side (updateDOM e d pos) =
    match EyeTracker.cursorZoneSide w (pipCenterX e d pos) with
    | Some z => z
    | None => side e
    end /\
  r_vertical (updateDOM e d pos) =
    EyeTracker.cursorZoneVertical w (innerHeight e / 2 + Y pos).
Proof.
  cbv zeta. cbn [updateDOM r_side r_vertical]. split.
  - unfold reportedSide, EyeTracker.cursorZoneSide. cbn [EyeTracker.screenWidth].
    destruct (Js.ltb (pipCenterX e d pos) (innerWidth e / 3)); [reflexivity|].
    destruct (Js.ltb (innerWidth e * 2 / 3) (pipCenterX e d pos)); reflexivity.
  - unfold reportedVertical, EyeTracker.cursorZoneVertical.
    cbn [EyeTracker.screenHeight].
    set (vh := innerHeight e). set (y := Y pos).
    assert (E1 : Js.ltb y (- vh / 6) = Js.ltb (vh / 2 + y) (vh / 3)).
    { destruct (JsFacts.ltb_spec y (- vh / 6)) as [[-> H]|[-> H]]; symmetry.
      - apply JsFacts.ltb_lt. revert H. qconst. intros H. lra.
      - apply JsFacts.ltb_ge. revert H. qconst. intros H. lra. }
    assert (E2 : Js.ltb (vh / 6) y = Js.ltb (vh * 2 / 3) (vh / 2 + y)).
    { destruct (JsFacts.ltb_spec (vh / 6) y) as [[-> H]|[-> H]]; symmetry.
      - apply JsFacts.ltb_lt. revert H. qconst. intros H. lra.
      - apply JsFacts.ltb_ge. revert H. qconst. intros H. lra. }
    now rewrite E1, E2.
Qed.

End MeetPipExtra.

(** ** Further facts about [EyeTracker] *)

Module EyeTrackerExtra.
Import EyeTracker EyeTrackerFacts.

(** *** Cursor zones and commands *)

Ltac ltb_props :=
  repeat match goal with
  | H : Js.ltb _ _ = true |- _ => apply JsFacts.ltb_lt in H
  | H : Js.ltb _ _ = false |- _ => apply JsFacts.ltb_ge in H
  end.

(** X15. The cursor zones are mirror-symmetric: reflecting the pointer
    across the vertical mid-line of the screen exchanges left and right and
    keeps the centre, and reflecting it across the horizontal mid-line
    exchanges top and bottom. *)
Theorem cursor_zones_mirror (w : Screen) (x y : Q) :
  0 <= screenWidth w -> 0 <= screenHeight w ->
  cursorZoneSide w (screenWidth w - x) = option_map oppositeSide (cursorZoneSide w x) /\
  cursorZoneVertical w (screenHeight w - y) = flipVertical (cursorZoneVertical w y).
Proof.
  unfold cursorZoneSide, cursorZoneVertical.
  set (W := screenWidth w). set (H := screenHeight w). intros HW HH. split.
  - destruct (Js.ltb x (W / 3)) eqn:A; destruct (Js.ltb (W * 2 / 3) x) eqn:B;
      destruct (Js.ltb (W - x) (W / 3)) eqn:C;
      destruct (Js.ltb (W * 2 / 3) (W - x)) eqn:D;
      try reflexivity; exfalso; ltb_props; revert A B C D; qconst; intros; lra.
  - destruct (Js.ltb y (H / 3)) eqn:A; destruct (Js.ltb (H * 2 / 3) y) eqn:B;
      destruct (Js.ltb (H - y) (H / 3)) eqn:C;
      destruct (Js.ltb (H * 2 / 3) (H - y)) eqn:D;
      try reflexivity; exfalso; ltb_props; revert A B C D; qconst; intros; lra.
Qed.

Lemma cursor_zones_mirror_witness :
  0 <= screenWidth demoScreen /\ 0 <= screenHeight demoScreen /\
  cursorZoneSide demoScreen (1200 - 100) = Some Right /\
  cursorZoneVertical demoScreen (800 - 700) = Top.
Proof.
  assert (HW : 0 <= screenWidth demoScreen) by (vm_compute; discriminate).
  assert (HH : 0 <= screenHeight demoScreen) by (vm_compute; discriminate).
  split; [exact HW|]. split; [exact HH|].
  exact (cursor_zones_mirror demoScreen 100 700 HW HH).
Defined.

(** X16. The move commanded for a cursor entry leads away from the
    cursor: its side is the opposite of the widget's side, hence not the
    third the cursor entered, and its vertical slot is not the cursor's
    vertical third unless the cursor is in the centre band. *)
Theorem command_moves_away (w : Screen) (x y now : Q) (s : State) (d : Debounce) :
  cursorMoveDebounce s = None ->
  cursorMoveDebounce (handleMouseMove w x y now s) = Some d ->
  r_side (command d) = oppositeSide (r_side (pipPosition s)) /\
  Some (r_side (command d)) <> cursorZoneSide w x /\
  (cursorZoneVertical w y <> Center ->
   r_vertical (command d) = flipVertical (cursorZoneVertical w y) /\
   r_vertical (command d) <> cursorZoneVertical w y) /\
  (cursorZoneVertical w y = Center ->
   r_vertical (command d) = flipVertical (r_vertical (pipPosition s))).
Proof.
  intros Hn Hd.
  destruct (handleMouseMove_only_edge w x y now s) as (Ht & Hu & Hp & Hx);
    [rewrite Hd, Hn; discriminate|].
  rewrite (handleMouseMove_trigger w x y now s Ht Hu Hp Hx) in Hd.
  injection Hd as <-. unfold command. cbn [d_pipPosition d_cursorVertical r_side r_vertical].
  rewrite Hx. unfold pipZone.
  split; [reflexivity|]. split.
  - destruct (r_side (pipPosition s)); discriminate.
  - split.
    + intros Hc. destruct (cursorZoneVertical w y); try (now elim Hc);
        split; [reflexivity | discriminate | reflexivity | discriminate].
    + intros ->. cbn. now destruct (r_vertical (pipPosition s)).
Qed.

Lemma command_moves_away_witness :
  let s1 := handleMouseMove demoScreen 100 700 0 cursorOutside in
  cursorMoveDebounce cursorOutside = None /\
  cursorMoveDebounce s1 = Some (mkDebounce (0 + 150) (mkReport Left Center) Bottom) /\
  command (mkDebounce (0 + 150) (mkReport Left Center) Bottom) = mkReport Right Top.
Proof.
  cbv zeta. split; [reflexivity|]. split; [reflexivity|].
  destruct (command_moves_away demoScreen 100 700 0 cursorOutside
              (mkDebounce (0 + 150) (mkReport Left Center) Bottom) eq_refl eq_refl)
    as (Hs & _ & Hv & _).
  destruct (Hv ltac:(discriminate)) as [Hv' _].
  destruct (command (mkDebounce (0 + 150) (mkReport Left Center) Bottom)) as [sd vt].
  cbn [r_side r_vertical] in Hs, Hv'. now rewrite Hs, Hv'.
Defined.

(** *** Pending timeouts *)

Lemma handleMouseMove_suppressed w x y now s :
  unsuppressed now s = false ->
  cursorMoveDebounce (handleMouseMove w x y now s) = cursorMoveDebounce s.
Proof.
  intros Hu. unfold handleMouseMove. destruct (negb (isTracking s)); [reflexivity|].
  now rewrite Hu.
Qed.

Lemma handleMouseMove_flags w x y now s :
  isCursorHoveringPip (handleMouseMove w x y now s) = isCursorHoveringPip s /\
  targetVertical (handleMouseMove w x y now s) = targetVertical s /\
  gazeSide (handleMouseMove w x y now s) = gazeSide s /\
  gazeAtPipStartTime (handleMouseMove w x y now s) = gazeAtPipStartTime s /\
  reEngageTimer (handleMouseMove w x y now s) = reEngageTimer s.
Proof. unfold handleMouseMove. destruct (negb (isTracking s)); auto 6. Qed.

Lemma unsuppressed_permits now s :
  unsuppressed now s = true ->
  isUserControllingPip s = false /\ isCursorHoveringPip s = false /\
  targetVertical s = None.
Proof.
  unfold unsuppressed.
  destruct (isUserControllingPip s), (isCursorHoveringPip s), (targetVertical s);
    cbn; rewrite ?andb_false_r; intros H; try discriminate; auto.
Qed.

Lemma step_permitted w now ev s :
  pendingIsPermitted s -> pendingIsPermitted (step w now ev s).
Proof.
  intros I. unfold step.
  assert (I0 : pendingIsPermitted (elapse now s)).
  { revert I. unfold pendingIsPermitted. open_state s. open_elapse.
    destruct ret as [r|], deb as [d|]; intros I;
      try (destruct I as (I1 & I2 & I3 & I4); [discriminate|]; subst);
      split_ifs (@eq_refl bool true); intros H; try (now elim H); auto. }
  set (s0 := elapse now s) in *. clearbody s0. clear I.
  unfold pendingIsPermitted in *.
  destruct ev.
  - intros H.
    destruct (handleMouseMove_frame w clientX clientY now s0) as (Mt & _ & _ & Mu).
    destruct (handleMouseMove_flags w clientX clientY now s0) as (Mh & Mv & _).
    rewrite Mt, Mu, Mh, Mv.
    destruct (cursorMoveDebounce s0) as [d0|] eqn:E0.
    + apply I0. discriminate.
    + destruct (handleMouseMove_only_edge w clientX clientY now s0) as (Ht & Hu & _);
        [now rewrite E0|].
      destruct (unsuppressed_permits now s0 Hu) as (U1 & U2 & U3). auto.
  - unfold handleFrame.
    destruct (Side_eqb (gazeSide (detect o s0)) (gazeSide s0)).
    + unfold detect.
      destruct o as [| |[|f fs]]; try exact I0.
      destruct (leftIrisCenter f), (rightIrisCenter f); exact I0.
    + rewrite gazeEffect_debounce. intros H. now elim H.
  - unfold handlePipHover.
    destruct (Bool.eqb true (isCursorHoveringPip s0)) eqn:E.
    + apply eqb_prop in E. cbn. intros H. destruct (I0 H) as (_ & _ & I3 & _).
      congruence.
    + intros H. now elim H.
  - unfold handlePipHover.
    destruct (Bool.eqb false (isCursorHoveringPip s0)) eqn:E.
    + apply eqb_prop in E. cbn. intros H. destruct (I0 H) as (I1 & I2 & I3 & I4).
      auto.
    + intros H. now elim H.
  - rewrite handlePipPositionChange_cancels. intros H. now elim H.
  - unfold handlePipDragStart. cbn.
    destruct (isUserControllingPip s0) eqn:E; intros H; [|now elim H].
    destruct (I0 H) as (_ & I2 & _). congruence.
  - unfold handlePipDragEnd. cbn.
    destruct (targetVertical s0); cbn; intros H; [now elim H|].
    destruct (I0 H) as (I1 & I2 & I3 & I4). auto.
  - exact I0.
Qed.

(** X17. Over every trace of events, a cursor-entry timeout is pending
    only while tracking is on, the user is not in control, the pointer is
    not over the widget and no move is pending; so a move is commanded only
    from such a state. *)
Theorem commands_only_when_permitted (w : Screen) (evs : list (Q * Event))
    (now : Q) (s0 : State) :
  pendingIsPermitted s0 ->
  let s := run w evs s0 in
  pendingIsPermitted s /\
  (commands (elapse now s) <> commands s ->
   isTracking s = true /\ isUserControllingPip s = false /\
   isCursorHoveringPip s = false /\ targetVertical s = None).
Proof.
  intros I0. cbv zeta.
  assert (I : pendingIsPermitted (run w evs s0)).
  { revert I0. generalize s0. unfold run.
    induction evs as [|[t ev] evs IH]; intros s I0; [exact I0|].
    cbn [fold_left fst snd]. apply IH. now apply step_permitted. }
  split; [exact I|].
  intros Hc. apply I. intros Hn.
  destruct (elapse_idle now _ Hn) as (_ & Ec & _). contradiction.
Qed.

Lemma commands_only_when_permitted_witness :
  let s := run demoScreen [(0, MouseMove 100 400); (10, PipMouseLeave)] cursorOutside in
  pendingIsPermitted cursorOutside /\
  commands (elapse 200 s) <> commands s /\
  isUserControllingPip s = false /\ isCursorHoveringPip s = false.
Proof.
  cbv zeta.
  assert (I0 : pendingIsPermitted cursorOutside) by (intros H; now elim H).
  assert (Hc : commands (elapse 200 (run demoScreen
                  [(0, MouseMove 100 400); (10, PipMouseLeave)] cursorOutside))
               <> commands (run demoScreen
                  [(0, MouseMove 100 400); (10, PipMouseLeave)] cursorOutside))
    by (vm_compute; discriminate).
  split; [exact I0|]. split; [exact Hc|].
  destruct (commands_only_when_permitted demoScreen
              [(0, MouseMove 100 400); (10, PipMouseLeave)] 200 cursorOutside I0)
    as [_ H].
  destruct (H Hc) as (_ & H2 & H3 & _). exact (conj H2 H3).
Defined.

(** X18. While the pointer is over the widget or a commanded move is
    still pending, mouse movement alone never schedules or commands a
    move, wherever the pointer goes and however long it takes. *)
Theorem no_command_while_blocked (w : Screen) (ms : list (Q * Q * Q)) (s : State) :
  cursorMoveDebounce s = None ->
  isCursorHoveringPip s = true \/ targetVertical s <> None ->
  commands (run w (moveEvents ms) s) = commands s /\
  cursorMoveDebounce (run w (moveEvents ms) s) = None.
Proof.
  revert s. induction ms as [|[[t x] y] ms IH]; intros s Hd Hb; [auto|].
  cbn [moveEvents map fst snd]. fold (moveEvents ms). rewrite trace_cons.
  cbn [step].
  destruct (elapse_idle t s Hd) as (Ed & Ec & _ & Etv & _ & Eh & _).
  set (s0 := elapse t s) in *.
  assert (Hu : unsuppressed t s0 = false).
  { unfold unsuppressed. rewrite Eh, Etv.
    destruct Hb as [-> | Hb]; [now rewrite !andb_false_r|].
    destruct (targetVertical s); [cbn; now rewrite !andb_false_r | now elim Hb]. }
  pose proof (handleMouseMove_suppressed w x y t s0 Hu) as Md.
  destruct (handleMouseMove_frame w x y t s0) as (_ & _ & Mc & _).
  destruct (handleMouseMove_flags w x y t s0) as (Mh & Mv & _).
  destruct (IH (handleMouseMove w x y t s0)) as [Ic Id].
  - congruence.
  - rewrite Mh, Mv, Eh, Etv. exact Hb.
  - split; congruence.
Qed.

Lemma no_command_while_blocked_witness :
  let s := fireDebounce (handleMouseMove demoScreen 100 400 0 cursorOutside) in
  cursorMoveDebounce s = None /\ targetVertical s <> None /\
  commands (run demoScreen
              (moveEvents [(10, 900, 400); (400, 100, 400); (900, 100, 700)]) s)
    = commands s.
Proof.
  cbv zeta.
  assert (Hd : cursorMoveDebounce
                 (fireDebounce (handleMouseMove demoScreen 100 400 0 cursorOutside))
               = None) by reflexivity.
  assert (Hb : targetVertical
                 (fireDebounce (handleMouseMove demoScreen 100 400 0 cursorOutside))
               <> None) by discriminate.
  split; [exact Hd|]. split; [exact Hb|].
  exact (proj1 (no_command_while_blocked demoScreen _ _ Hd (or_intror Hb))).
Defined.

(** *** Gaze grace window *)

(** X19. While the gaze is on the widget's side the cursor-entry trigger
    is alive only during the first second: a sample taken 1000 ms or more
    after the gaze landed schedules nothing, even on an entry edge, and an
    entry within the first 1000 ms is scheduled as usual. *)
Theorem gaze_grace_window (w : Screen) (x y now t0 : Q) (s : State) :
  isTracking s = true -> gazeSide s = pipZone s ->
  gazeAtPipStartTime s = Some t0 ->
  (t0 + 1000 <= now ->
   cursorMoveDebounce (handleMouseMove w x y now s) = cursorMoveDebounce s) /\
  (now < t0 + 1000 ->
   isUserControllingPip s = false -> isCursorHoveringPip s = false ->
   targetVertical s = None ->
   prevCursorSide s <> pipZone s -> cursorZoneSide w x = pipZone s ->
   cursorMoveDebounce (handleMouseMove w x y now s) =
     Some (mkDebounce (now + 150) (pipPosition s) (cursorZoneVertical w y))).
Proof.
  intros Ht Hg Hz.
  assert (Hgz : Side_eqb (gazeSide s) (Some (r_side (pipPosition s))) = true)
    by (apply Side_eqb_eq; exact Hg).
  split.
  - intros Hlate. apply handleMouseMove_suppressed.
    unfold unsuppressed, isWithinGracePeriod. rewrite Hgz, Hz.
    assert (Js.ltb (now - t0) 1000 = false) as -> by (apply JsFacts.ltb_ge; lra).
    cbn [negb orb]. now rewrite andb_false_r.
  - intros Hearly Hu Hh Htv Hp Hx.
    apply handleMouseMove_trigger; trivial.
    unfold unsuppressed, isWithinGracePeriod. rewrite Hgz, Hz, Hu, Hh, Htv.
    assert (Js.ltb (now - t0) 1000 = true) as -> by (apply JsFacts.ltb_lt; lra).
    reflexivity.
Qed.

Lemma gaze_grace_window_witness :
  let s := handleFrame 0 (Faces [sampleFace 4]) cursorOutside in
  isTracking s = true /\ gazeSide s = pipZone s /\
  gazeAtPipStartTime s = Some 0 /\
  cursorMoveDebounce (handleMouseMove demoScreen 100 400 1000 s) = None /\
  cursorMoveDebounce (handleMouseMove demoScreen 100 400 999 s) <> None.
Proof.
  cbv zeta.
  destruct (gaze_grace_window demoScreen 100 400 1000 0
              (handleFrame 0 (Faces [sampleFace 4]) cursorOutside)
              eq_refl eq_refl eq_refl) as [Hlate _].
  destruct (gaze_grace_window demoScreen 100 400 999 0
              (handleFrame 0 (Faces [sampleFace 4]) cursorOutside)
              eq_refl eq_refl eq_refl) as [_ Hearly].
  split; [reflexivity|]. split; [reflexivity|]. split; [reflexivity|]. split.
  - rewrite Hlate; [reflexivity | vm_compute; discriminate].
  - rewrite Hearly; try reflexivity; try discriminate.
Defined.

Lemma elapse_gaze now s :
  gazeSide (elapse now s) = gazeSide s /\
  gazeAtPipStartTime (elapse now s) = gazeAtPipStartTime s /\
  lastDefinitiveGazeSide (elapse now s) = lastDefinitiveGazeSide s.
Proof.
  open_state s. open_elapse.
  destruct ret as [r|], deb as [d|]; split_ifs (@eq_refl bool true); auto.
Qed.

Lemma gazeEffect_clock now s :
  isTracking s = true -> graceClockRuns (gazeEffect now s).
Proof.
  intros Ht. unfold graceClockRuns, gazeEffect, pipZone. rewrite Ht.
  cbn [negb gazeAtPipStartTime gazeSide pipPosition].
  destruct (Side_eqb (gazeSide s) (Some (r_side (pipPosition s)))) eqn:E.
  - apply Side_eqb_eq in E. destruct (gazeAtPipStartTime s); split; intros;
      trivial; discriminate.
  - split; [intros H; now elim H|].
    intros H. apply Side_eqb_eq in H. congruence.
Qed.

Lemma step_tracking w now ev s : isTracking (step w now ev s) = isTracking s.
Proof.
  unfold step. destruct (elapse_frame now s) as (Et & _).
  set (s0 := elapse now s) in *. rewrite <- Et. clearbody s0.
  destruct ev; try reflexivity.
  - apply handleMouseMove_frame.
  - unfold handleFrame, gazeEffect, detect.
    destruct o as [| |[|f fs]]; try (destruct (Side_eqb _ _); cbn; now destruct (isTracking s0)).
    destruct (leftIrisCenter f), (rightIrisCenter f);
      destruct (Side_eqb _ _); cbn; now destruct (isTracking s0).
  - unfold handlePipHover. now destruct (Bool.eqb _ _).
  - unfold handlePipHover. now destruct (Bool.eqb _ _).
  - unfold handlePipPositionChange, gazeEffect.
    destruct (HSide_eqb _ _); cbn; [reflexivity|]. now destruct (isTracking s0).
Qed.

Lemma step_clock w now ev s :
  isTracking s = true -> graceClockRuns s -> graceClockRuns (step w now ev s).
Proof.
  intros Ht G. unfold step.
  destruct (elapse_frame now s) as (Et & Epp & _).
  destruct (elapse_gaze now s) as (Eg & Ez & _).
  assert (G0 : graceClockRuns (elapse now s)).
  { unfold graceClockRuns, pipZone in *. now rewrite Eg, Ez, Epp. }
  assert (Ht0 : isTracking (elapse now s) = true) by congruence.
  set (s0 := elapse now s) in *. clearbody s0. clear G Et Epp Eg Ez.
  destruct ev; try exact G0.
  - unfold graceClockRuns, pipZone in *.
    destruct (handleMouseMove_frame w clientX clientY now s0) as (_ & -> & _).
    destruct (handleMouseMove_flags w clientX clientY now s0) as (_ & _ & -> & -> & _).
    exact G0.
  - unfold handleFrame.
    destruct (Side_eqb (gazeSide (detect o s0)) (gazeSide s0)) eqn:E.
    + apply Side_eqb_eq in E. unfold graceClockRuns, pipZone in *. rewrite E.
      assert (F : gazeAtPipStartTime (detect o s0) = gazeAtPipStartTime s0 /\
                  pipPosition (detect o s0) = pipPosition s0).
      { unfold detect. destruct o as [| |[|f fs]]; auto.
        destruct (leftIrisCenter f), (rightIrisCenter f); auto. }
      destruct F as [-> ->]. exact G0.
    + apply gazeEffect_clock. unfold mouseEffectCleanup, setDebounce, detect.
      destruct o as [| |[|f fs]]; try exact Ht0.
      destruct (leftIrisCenter f), (rightIrisCenter f); exact Ht0.
  - unfold handlePipHover. destruct (Bool.eqb _ _); exact G0.
  - unfold handlePipHover. destruct (Bool.eqb _ _); exact G0.
  - unfold handlePipPositionChange.
    destruct (HSide_eqb (r_side position) (r_side (pipPosition s0))) eqn:E.
    + apply HSide_eqb_eq in E. unfold graceClockRuns, pipZone in *.
      cbn [gazeAtPipStartTime gazeSide pipPosition]. now rewrite E.
    + apply gazeEffect_clock. exact Ht0.
Qed.

(** X20. While tracking is on, over every trace of events the grace
    clock is set exactly when the gaze is on the widget's side: it is
    started when the gaze lands there or the widget's reported side comes
    to the gaze, and cleared as soon as they differ. *)
Theorem grace_clock_follows_gaze (w : Screen) (evs : list (Q * Event)) (s : State) :
  isTracking s = true -> graceClockRuns s ->
  graceClockRuns (run w evs s) /\ isTracking (run w evs s) = true.
Proof.
  revert s. unfold run.
  induction evs as [|[t ev] evs IH]; intros s Ht G; [auto|].
  cbn [fold_left fst snd]. apply IH.
  - now rewrite step_tracking.
  - now apply step_clock.
Qed.

Lemma grace_clock_follows_gaze_witness :
  let evs := [ (0, Frame (Faces [sampleFace 4]));
               (40, PipPositionChange (mkReport Right Center));
               (80, Frame DetectorThrows) ] in
  isTracking cursorOutside = true /\ graceClockRuns cursorOutside /\
  graceClockRuns (run demoScreen evs cursorOutside) /\
  gazeAtPipStartTime (run demoScreen evs cursorOutside) = None.
Proof.
  cbv zeta.
  assert (G : graceClockRuns cursorOutside).
  { split; [intros H; now elim H | discriminate]. }
  split; [reflexivity|]. split; [exact G|]. split.
  - exact (proj1 (grace_clock_follows_gaze demoScreen _ cursorOutside eq_refl G)).
  - reflexivity.
Defined.

(** *** Manual control *)

Lemma user_controlled_moves w deadline_ ms : forall s,
  isUserControllingPip s = true -> cursorMoveDebounce s = None ->
  reEngageTimer s = Some deadline_ ->
  Forall (fun m : Q * Q * Q => fst (fst m) < deadline_) ms ->
  let s' := run w (moveEvents ms) s in
  commands s' = commands s /\ isUserControllingPip s' = true /\
  cursorMoveDebounce s' = None /\ reEngageTimer s' = Some deadline_.
Proof.
  induction ms as [|[[t x] y] ms IH]; intros s Hu Hd Hr Hall; cbv zeta; [auto|].
  inversion Hall as [|m l Ht Hrest]; subst. cbn [fst snd] in Ht.
  cbn [moveEvents map fst snd]. fold (moveEvents ms). rewrite trace_cons.
  cbn [step].
  assert (E : elapse t s = s).
  { revert Hu Hd Hr. open_state s. intros -> -> ->. open_elapse.
    assert (Hq : Qle_bool deadline_ t = false).
    { apply not_true_iff_false. rewrite Qle_bool_iff. now apply Qlt_not_le. }
    now rewrite Hq. }
  rewrite E.
  assert (Hsup : unsuppressed t s = false) by (unfold unsuppressed; now rewrite Hu).
  pose proof (handleMouseMove_suppressed w x y t s Hsup) as Md.
  destruct (handleMouseMove_frame w x y t s) as (_ & _ & Mc & Mu).
  destruct (handleMouseMove_flags w x y t s) as (_ & _ & _ & _ & Mr).
  destruct (IH (handleMouseMove w x y t s)) as (Ic & Iu & Id & Ir); try congruence.
  cbv zeta in Ic. repeat split; congruence.
Qed.

(** X21. After a drag the policy stays under manual control for ten
    seconds counted from the release: until then mouse movement commands
    nothing, and the first event at or after release + 10000 ms finds
    automatic control restored.  While the drag lasts no timer runs, so
    control stays manual however long it takes. *)
Theorem manual_control_cooldown (w : Screen) (t now : Q) (r : ZoneReport)
    (ms : list (Q * Q * Q)) (s : State) :
  cursorMoveDebounce s = None ->
  Forall (fun m : Q * Q * Q => fst (fst m) < t + 10000) ms ->
  let dragging := handlePipDragStart s in
  let released := handlePipDragEnd t r dragging in
  isUserControllingPip (elapse now dragging) = true /\
  commands (run w (moveEvents ms) released) = commands s /\
  isUserControllingPip (run w (moveEvents ms) released) = true /\
  (t + 10000 <= now ->
   isUserControllingPip (elapse now (run w (moveEvents ms) released)) = false).
Proof.
  intros Hd Hall. cbv zeta.
  assert (Hdrag : cursorMoveDebounce (handlePipDragStart s) = None).
  { unfold handlePipDragStart. cbn. rewrite Hd. now destruct (isUserControllingPip s). }
  assert (Hrel : cursorMoveDebounce (handlePipDragEnd t r (handlePipDragStart s)) = None).
  { unfold handlePipDragEnd. cbn [cursorMoveDebounce]. rewrite Hdrag.
    now destruct (MeetPip.isSome _). }
  split.
  - revert Hdrag. unfold handlePipDragStart. open_state s. cbn. intros ->.
    open_elapse. reflexivity.
  - destruct (user_controlled_moves w (t + 10000) ms
                (handlePipDragEnd t r (handlePipDragStart s)) eq_refl Hrel eq_refl Hall)
      as (Hc & Hu & Hdn & Hr).
    cbv zeta in Hc. split; [exact Hc|]. split; [exact Hu|].
    intros Hnow.
    set (s' := run w (moveEvents ms) (handlePipDragEnd t r (handlePipDragStart s))) in *.
    clearbody s'. revert Hu Hdn Hr. open_state s'. intros -> -> ->. open_elapse.
    assert (Hq : Qle_bool (t + 10000) now = true) by now apply Qle_bool_iff.
    now rewrite Hq.
Qed.

Lemma manual_control_cooldown_witness :
  let released := handlePipDragEnd 500 (mkReport Right Top)
                    (handlePipDragStart cursorOutside) in
  cursorMoveDebounce cursorOutside = None /\
  Forall (fun m : Q * Q * Q => fst (fst m) < 500 + 10000)
    [(600, 1100, 100); (10499, 100, 100)] /\
  commands (run demoScreen (moveEvents [(600, 1100, 100); (10499, 100, 100)]) released)
    = [] /\
  isUserControllingPip
    (elapse 10500 (run demoScreen (moveEvents [(600, 1100, 100); (10499, 100, 100)])
                     released)) = false.
Proof.
  cbv zeta.
  assert (Hall : Forall (fun m : Q * Q * Q => fst (fst m) < 500 + 10000)
                   [(600, 1100, 100); (10499, 100, 100)])
    by (repeat constructor; vm_compute; reflexivity).
  destruct (manual_control_cooldown demoScreen 500 10500 (mkReport Right Top)
              [(600, 1100, 100); (10499, 100, 100)] cursorOutside eq_refl Hall)
    as (_ & Hc & _ & He).
  split; [reflexivity|]. split; [exact Hall|]. split; [exact Hc|].
  apply He. vm_compute. discriminate.
Defined.

(** *** Last definitive gaze side *)

Lemma detect_definitive o s :
  definitiveFollowsGaze s ->
  definitiveFollowsGaze (detect o s) /\
  (lastDefinitiveGazeSide s <> None -> lastDefinitiveGazeSide (detect o s) <> None).
Proof.
  intros K. unfold definitiveFollowsGaze, detect in *.
  destruct o as [| |[|f fs]]; try (split; [exact K | auto]).
  destruct (leftIrisCenter f) as [l|], (rightIrisCenter f) as [r|];
    try (split; [exact K | auto]).
  cbn [gazeSide lastDefinitiveGazeSide].
  destruct (classifyGaze (normalizedX f l r)) as [d|]; split; intros; congruence.
Qed.

(** X22. The last definitive gaze side is sticky: once a frame has
    classified the gaze as left or right it is never null again, whatever
    frames follow, and whenever the current gaze side is left or right it
    equals it. *)
Theorem last_definitive_is_sticky (os : list FrameOutcome) (s : State) :
  definitiveFollowsGaze s ->
  definitiveFollowsGaze (detectLoop os s) /\
  (lastDefinitiveGazeSide s <> None ->
   lastDefinitiveGazeSide (detectLoop os s) <> None).
Proof.
  revert s. unfold detectLoop.
  induction os as [|o os IH]; intros s K; [auto|].
  cbn [fold_left].
  destruct (detect_definitive o s K) as [K1 N1].
  destruct (IH (detect o s) K1) as [K2 N2]. auto.
Qed.

Lemma last_definitive_is_sticky_witness :
  let os := [Faces [sampleFace 0]; DetectorThrows; Faces []; VideoNotReady] in
  definitiveFollowsGaze lookingLeft /\
  gazeSide (detectLoop os lookingLeft) = None /\
  lastDefinitiveGazeSide (detectLoop os lookingLeft) <> None.
Proof.
  cbv zeta.
  assert (K : definitiveFollowsGaze lookingLeft) by (intros _; reflexivity).
  split; [exact K|]. split; [reflexivity|].
  apply (proj2 (last_definitive_is_sticky _ lookingLeft K)). discriminate.
Defined.

(** *** The gaze threshold in terms of the landmarks *)

Lemma avgEyeWidth_nonneg f : 0 <= avgEyeWidth f.
Proof.
  unfold avgEyeWidth.
  pose proof (Qabs_nonneg (kx (leftEyeOuter f) - kx (leftEyeInner f))).
  pose proof (Qabs_nonneg (kx (rightEyeOuter f) - kx (rightEyeInner f))).
  qconst. lra.
Qed.

Lemma classify_landmarks f l r :
  (classifyGaze (normalizedX f l r) = Some Left <->
   0.025 * avgEyeWidth f < irisOffset f l r) /\
  (classifyGaze (normalizedX f l r) = Some Right <->
   irisOffset f l r < - (0.025 * avgEyeWidth f)) /\
  (classifyGaze (normalizedX f l r) = None <->
   Qabs (irisOffset f l r) <= 0.025 * avgEyeWidth f).
Proof.
  change (normalizedX f l r)
    with (jsAffineNeg 0.5 2 (jsDiv (irisOffset f l r) (avgEyeWidth f))).
  pose proof (avgEyeWidth_nonneg f) as HW.
  set (W := avgEyeWidth f) in *. set (o := irisOffset f l r).
  rewrite Qabs_Qle_condition.
  unfold jsDiv. destruct (Qeq_bool W 0) eqn:EW.
  - apply Qeq_bool_eq in EW.
    destruct (JsFacts.ltb_spec 0 o) as [[-> H]|[-> H]].
    + cbn. repeat split; intros; try discriminate; try reflexivity; lra.
    + destruct (JsFacts.ltb_spec o 0) as [[-> H']|[-> H']].
      * cbn. repeat split; intros; try discriminate; try reflexivity; lra.
      * cbn. repeat split; intros; try discriminate; try reflexivity; lra.
  - apply Qeq_bool_neq in EW.
    assert (HW' : 0 < W).
    { destruct (Qlt_le_dec 0 W) as [|Hle]; [assumption|].
      elim EW. apply Qle_antisym; assumption. }
    cbn [jsAffineNeg].
    assert (Hq : o == o / W * W) by (field; exact EW).
    set (q := o / W) in *. clearbody q.
    rewrite classifyGaze_left, classifyGaze_right, classifyGaze_center.
    unfold centerThreshold.
    repeat split; intros; nra.
Qed.

(** X23. The gaze classification in terms of the landmarks: the gaze is
    "left" exactly when the mean iris x lies more than 2.5 % of the mean eye
    width to the right of the mean eye centre in the camera image, "right"
    exactly when it lies more than 2.5 % to the left, and null exactly when
    it is within 2.5 %.  This holds for an eye width of zero as well, where
    the quotient is infinite or not a number. *)
Theorem gaze_threshold_in_landmarks (f : Face) (l r : Keypoint) :
  (classifyGaze (normalizedX f l r) = Some Left <->
   0.025 * avgEyeWidth f < irisOffset f l r) /\
  (classifyGaze (normalizedX f l r) = Some Right <->
   irisOffset f l r < - (0.025 * avgEyeWidth f)) /\
  (classifyGaze (normalizedX f l r) = None <->
   Qabs (irisOffset f l r) <= 0.025 * avgEyeWidth f).
Proof. apply classify_landmarks. Qed.

Lemma irisOffset_moved k a b f l r :
  irisOffset (moveFace k a b f) (moveKeypoint k a b l) (moveKeypoint k a b r)
  == k * irisOffset f l r.
Proof.
  unfold irisOffset, moveFace, moveKeypoint.
  cbn [kx leftEyeOuter leftEyeInner rightEyeOuter rightEyeInner]. field.
Qed.

Lemma avgEyeWidth_moved k a b f :
  0 < k -> avgEyeWidth (moveFace k a b f) == k * avgEyeWidth f.
Proof.
  intros Hk. unfold avgEyeWidth, moveFace, moveKeypoint.
  cbn [kx leftEyeOuter leftEyeInner rightEyeOuter rightEyeInner].
  assert (E : forall x y, Qabs (k * x + a - (k * y + a)) == k * Qabs (x - y)).
  { intros x y. setoid_replace (k * x + a - (k * y + a)) with (k * (x - y)) by ring.
    rewrite Qabs_Qmult. rewrite (Qabs_pos k) by lra. reflexivity. }
  rewrite !E. field.
Qed.

Lemma classify_moved k a b f l r :
  0 < k ->
  classifyGaze (normalizedX (moveFace k a b f) (moveKeypoint k a b l)
                  (moveKeypoint k a b r))
  = classifyGaze (normalizedX f l r).
Proof.
  intros Hk.
  destruct (classify_landmarks f l r) as (L & R & C).
  destruct (classify_landmarks (moveFace k a b f) (moveKeypoint k a b l)
              (moveKeypoint k a b r)) as (L' & R' & C').
  rewrite irisOffset_moved, avgEyeWidth_moved in L', R', C' by exact Hk.
  rewrite Qabs_Qmult, (Qabs_pos k) in C' by lra.
  set (W := avgEyeWidth f) in *. set (o := irisOffset f l r) in *.
  set (ao := Qabs o) in *. clearbody W o ao.
  destruct (classifyGaze (normalizedX f l r)) as [[|]|].
  - apply L'. assert (H : 0.025 * W < o) by now apply L. nra.
  - apply R'. assert (H : o < - (0.025 * W)) by now apply R. nra.
  - apply C'. assert (H : ao <= 0.025 * W) by now apply C. nra.
Qed.

(** X24. The gaze classification does not depend on where the face is in
    the camera image or on how near it is: scaling every landmark by a
    positive factor and shifting it by a fixed vector leaves the gaze side
    and the last definitive gaze side of the frame unchanged. *)
Theorem gaze_ignores_face_placement (k a b : Q) (f : Face) (fs fs' : list Face)
    (s : State) :
  0 < k ->
  gazeSide (detect (Faces (moveFace k a b f :: fs')) s)
    = gazeSide (detect (Faces (f :: fs)) s) /\
  lastDefinitiveGazeSide (detect (Faces (moveFace k a b f :: fs')) s)
    = lastDefinitiveGazeSide (detect (Faces (f :: fs)) s).
Proof.
  intros Hk. unfold detect.
  cbn [moveFace leftIrisCenter rightIrisCenter].
  destruct (leftIrisCenter f) as [l|], (rightIrisCenter f) as [r|];
    cbn [option_map]; try (split; reflexivity).
  cbn [gazeSide lastDefinitiveGazeSide].
  change (mkFace (Some (moveKeypoint k a b l)) (Some (moveKeypoint k a b r))
            (moveKeypoint k a b (leftEyeInner f)) (moveKeypoint k a b (leftEyeOuter f))
            (moveKeypoint k a b (rightEyeInner f)) (moveKeypoint k a b (rightEyeOuter f)))
    with (moveFace k a b
            (mkFace (Some l) (Some r) (leftEyeInner f) (leftEyeOuter f)
               (rightEyeInner f) (rightEyeOuter f))).
  change (normalizedX f l r)
    with (normalizedX (mkFace (Some l) (Some r) (leftEyeInner f) (leftEyeOuter f)
                         (rightEyeInner f) (rightEyeOuter f)) l r).
  rewrite (classify_moved k a b _ l r Hk). split; reflexivity.
Qed.

Lemma gaze_ignores_face_placement_witness :
  0 < 2 /\
  gazeSide (detect (Faces [moveFace 2 30 (- 5) (sampleFace 4)]) cursorOutside)
    = gazeSide (detect (Faces [sampleFace 4]) cursorOutside).
Proof.
  split; [reflexivity|].
  apply (gaze_ignores_face_placement 2 30 (- 5) (sampleFace 4) [] [] cursorOutside).
  reflexivity.
Defined.

(** *** Stopping the tracker *)

Lemma elapse_quiet now s :
  cursorMoveDebounce s = None ->
  cursorMoveDebounce (elapse now s) = None /\
  commands (elapse now s) = commands s /\
  targetVertical (elapse now s) = targetVertical s /\
  targetVerticalRef (elapse now s) = targetVerticalRef s.
Proof.
  open_state s. intros ->. open_elapse.
  destruct ret as [r|]; cbn;
    repeat match goal with
    | |- context [if ?b then _ else _] => destruct b; cbn
    end; auto.
Qed.

Lemma step_stopped w now ev s :
  isTracking s = false -> cursorMoveDebounce s = None ->
  cursorMoveDebounce (step w now ev s) = None /\
  commands (step w now ev s) = commands s.
Proof.
  intros Ht Hd. unfold step.
  destruct (elapse_frame now s) as (Et & _).
  destruct (elapse_quiet now s Hd) as (Ed & Ec & _).
  rewrite <- Ec. rewrite Ht in Et.
  set (s0 := elapse now s) in *. clearbody s0. clear Ec Ht Hd s.
  destruct ev.
  - unfold handleMouseMove. rewrite Et. cbn. auto.
  - unfold handleFrame, gazeEffect, mouseEffectCleanup, setDebounce, detect.
    destruct o as [| |[|f fs]];
      try (destruct (leftIrisCenter f), (rightIrisCenter f));
      destruct (Side_eqb _ _); cbn; rewrite ?Et; cbn; auto.
  - unfold handlePipHover, mouseEffectCleanup, setDebounce.
    destruct (Bool.eqb _ _); cbn; auto.
  - unfold handlePipHover, mouseEffectCleanup, setDebounce.
    destruct (Bool.eqb _ _); cbn; auto.
  - unfold handlePipPositionChange, gazeEffect.
    destruct (HSide_eqb _ _); cbn; rewrite ?Et; cbn; auto.
  - unfold handlePipDragStart. cbn. rewrite Ed.
    now destruct (isUserControllingPip s0).
  - unfold handlePipDragEnd. cbn. rewrite Ed.
    now destruct (MeetPip.isSome _).
  - auto.
Qed.

(** X25. Stopping the tracker silences the cursor-entry policy: a timeout
    pending at that moment is cancelled, the gaze side is null, and no
    later mouse movement, widget report, hover, drag or stray detection
    frame commands a move while tracking stays off. *)
Theorem stop_silences_policy (w : Screen) (evs : list (Q * Event)) (s : State) :
  isTracking s = true ->
  gazeSide (stopTracking s) = None /\
  cursorMoveDebounce (stopTracking s) = None /\
  isTracking (run w evs (stopTracking s)) = false /\
  commands (run w evs (stopTracking s)) = commands s.
Proof.
  intros Ht.
  assert (Hd : cursorMoveDebounce (stopTracking s) = None)
    by (unfold stopTracking; cbn; now rewrite Ht).
  split; [reflexivity|]. split; [exact Hd|].
  change (commands s) with (commands (stopTracking s)).
  assert (Hs : isTracking (stopTracking s) = false) by reflexivity.
  revert Hs Hd. generalize (stopTracking s). clear s Ht.
  induction evs as [|[t ev] evs IH]; intros s Hs Hd; [auto|].
  rewrite trace_cons.
  destruct (step_stopped w t ev s Hs Hd) as (Sd & Sc).
  rewrite <- Sc. apply IH; [|exact Sd].
  now rewrite step_tracking.
Qed.

Lemma stop_silences_policy_witness :
  let pending := run demoScreen [(0, MouseMove 100 400)] cursorOutside in
  isTracking pending = true /\
  cursorMoveDebounce pending <> None /\
  commands (run demoScreen [(100, MouseMove 900 400); (200, MouseMove 100 400);
                            (1000, Wait)] (stopTracking pending)) = [].
Proof.
  cbv zeta. split; [reflexivity|]. split; [discriminate|].
  apply (stop_silences_policy demoScreen
           [(100, MouseMove 900 400); (200, MouseMove 100 400); (1000, Wait)]
           (run demoScreen [(0, MouseMove 100 400)] cursorOutside)).
  reflexivity.
Defined.

(** *** A vertical move in a short window *)

Lemma short_window_reports_center e d pos :
  MeetPip.innerHeight e <= 72 + 1.5 * MeetPip.height d ->
  MeetPip.inBounds (MeetPip.getViewportBounds e d) pos ->
  r_vertical (MeetPip.updateDOM e d pos) = Center.
Proof.
  intros Hs (_ & _ & Hlo & Hhi).
  assert (Hlo' : MeetPip.VIEWPORT_PADDING + MeetPip.height d / 2
                 - MeetPip.innerHeight e / 2 <= Y pos)
    by (revert Hlo; unfold MeetPip.getViewportBounds;
        destruct (MeetPip.side e); exact (fun H => H)).
  assert (Hhi' : Y pos <= MeetPip.innerHeight e / 2
                 - MeetPip.VIEWPORT_PADDING - MeetPip.height d / 2)
    by (revert Hhi; unfold MeetPip.getViewportBounds;
        destruct (MeetPip.side e); exact (fun H => H)).
  clear Hlo Hhi. unfold MeetPip.updateDOM, MeetPip.reportedVertical.
  cbn [r_vertical]. unfold MeetPip.VIEWPORT_PADDING in *.
  set (vh := MeetPip.innerHeight e) in *. set (h := MeetPip.height d) in *.
  set (y := Y pos) in *.
  assert (A : Js.ltb y (- vh / 6) = false)
    by (apply JsFacts.ltb_ge; revert Hs Hlo'; qconst; intros; lra).
  assert (B : Js.ltb (vh / 6) y = false)
    by (apply JsFacts.ltb_ge; revert Hs Hhi'; qconst; intros; lra).
  now rewrite A, B.
Qed.

Lemma step_unacknowledged e d v now ev s :
  MeetPip.innerHeight e <= 72 + 1.5 * MeetPip.height d ->
  v <> Center -> widgetEvent e d ev ->
  targetVertical s = Some v -> targetVerticalRef s = Some v ->
  cursorMoveDebounce s = None ->
  let s' := step (screenOf e) now ev s in
  targetVertical s' = Some v /\ targetVerticalRef s' = Some v /\
  cursorMoveDebounce s' = None /\ commands s' = commands s.
Proof.
  intros Hs Hv Hev Htv Hr Hd. cbv zeta. unfold step.
  destruct (elapse_quiet now s Hd) as (Ed & Ec & Etv & Er).
  rewrite <- Ec. rewrite <- Etv in Htv. rewrite <- Er in Hr.
  set (s0 := elapse now s) in *. clearbody s0. clear Ec Etv Er Hd s.
  destruct ev.
  - assert (Hu : unsuppressed now s0 = false).
    { unfold unsuppressed. rewrite Htv. cbn. now rewrite andb_false_r. }
    pose proof (handleMouseMove_suppressed (screenOf e) clientX clientY now s0 Hu) as Md.
    destruct (handleMouseMove_frame (screenOf e) clientX clientY now s0) as (_ & _ & Mc & _).
    destruct (handleMouseMove_flags (screenOf e) clientX clientY now s0) as (_ & Mv & _).
    repeat split; try congruence.
    unfold handleMouseMove. now destruct (negb (isTracking s0)).
  - unfold handleFrame, gazeEffect, mouseEffectCleanup, setDebounce, detect.
    destruct o as [| |[|f fs]];
      try (destruct (leftIrisCenter f), (rightIrisCenter f));
      destruct (Side_eqb _ _); cbn; try (destruct (isTracking s0); cbn); auto.
  - unfold handlePipHover, mouseEffectCleanup, setDebounce.
    destruct (Bool.eqb _ _); cbn; auto.
  - unfold handlePipHover, mouseEffectCleanup, setDebounce.
    destruct (Bool.eqb _ _); cbn; auto.
  - destruct Hev as (pos & Hin & ->).
    pose proof (short_window_reports_center e d pos Hs Hin) as Hc.
    unfold handlePipPositionChange, gazeEffect. rewrite Hr, Hc.
    assert (Hne : Vertical_eqb Center v = false) by (destruct v; try reflexivity; now elim Hv).
    rewrite Hne.
    destruct (HSide_eqb _ _); cbn; try (destruct (isTracking s0); cbn); auto.
  - unfold handlePipDragStart. cbn. rewrite Ed.
    destruct (isUserControllingPip s0); auto.
  - elim Hev.
  - auto.
Qed.

(** X26. In a window no taller than 72 + 1.5 x the widget's height every
    position within the bounds is reported as vertically "center", so a
    commanded move to the top or to the bottom is never acknowledged by the
    widget's reports: the vertical target stays set and the cursor-entry
    policy commands nothing more, whatever the mouse, the gaze and the
    widget do, until a drag ends. *)
Theorem short_window_blocks_policy (e : MeetPip.Env) (d : MeetPip.Dimensions)
    (v : Vertical) (evs : list (Q * Event)) (s : State) :
  MeetPip.innerHeight e <= 72 + 1.5 * MeetPip.height d ->
  v <> Center ->
  targetVertical s = Some v -> targetVerticalRef s = Some v ->
  cursorMoveDebounce s = None ->
  Forall (fun tev : Q * Event => widgetEvent e d (snd tev)) evs ->
  (forall pos, MeetPip.inBounds (MeetPip.getViewportBounds e d) pos ->
               r_vertical (MeetPip.updateDOM e d pos) = Center) /\
  targetVertical (run (screenOf e) evs s) = Some v /\
  commands (run (screenOf e) evs s) = commands s.
Proof.
  intros Hs Hv Htv Hr Hd Hall.
  split; [intros pos; now apply short_window_reports_center|].
  revert s Htv Hr Hd.
  induction Hall as [|[t ev] evs Hev _ IH]; intros s Htv Hr Hd; [auto|].
  rewrite trace_cons. cbn [snd] in Hev.
  destruct (step_unacknowledged e d v t ev s Hs Hv Hev Htv Hr Hd)
    as (Sv & Sr & Sd & Sc).
  cbv zeta in Sv, Sr, Sd, Sc.
  rewrite <- Sc. apply IH; assumption.
Qed.

Lemma short_window_blocks_policy_witness :
  let e := MeetPip.mkEnv Left 1200 480 in
  let d := MeetPip.mkDim 320 280 in
  let s := run (screenOf e) [(0, MouseMove 100 100); (200, Wait)] cursorOutside in
  let evs := [(300, PipPositionChange (MeetPip.updateDOM e d (mkXY 832 76)));
              (400, MouseMove 600 100); (500, MouseMove 900 100); (1000, Wait)] in
  MeetPip.innerHeight e <= 72 + 1.5 * MeetPip.height d /\
  commands s = [mkReport Right Bottom] /\
  Forall (fun tev : Q * Event => widgetEvent e d (snd tev)) evs /\
  targetVertical (run (screenOf e) evs s) = Some Bottom /\
  commands (run (screenOf e) evs s) = commands s.
Proof.
  cbv zeta.
  assert (Hs : MeetPip.innerHeight (MeetPip.mkEnv Left 1200 480)
               <= 72 + 1.5 * MeetPip.height (MeetPip.mkDim 320 280))
    by (vm_compute; discriminate).
  assert (Hall : Forall (fun tev : Q * Event =>
                    widgetEvent (MeetPip.mkEnv Left 1200 480) (MeetPip.mkDim 320 280)
                      (snd tev))
                   [(300, PipPositionChange
                            (MeetPip.updateDOM (MeetPip.mkEnv Left 1200 480)
                               (MeetPip.mkDim 320 280) (mkXY 832 76)));
                    (400, MouseMove 600 100); (500, MouseMove 900 100); (1000, Wait)]).
  { repeat constructor. exists (mkXY 832 76). split; [|reflexivity].
    unfold MeetPip.inBounds. vm_compute. repeat split; discriminate. }
  split; [exact Hs|]. split; [reflexivity|]. split; [exact Hall|].
  assert (Hv : Bottom <> Center) by discriminate.
  apply (proj2 (short_window_blocks_policy (MeetPip.mkEnv Left 1200 480)
                  (MeetPip.mkDim 320 280) Bottom _
                  (run (screenOf (MeetPip.mkEnv Left 1200 480))
                     [(0, MouseMove 100 100); (200, Wait)] cursorOutside)
                  Hs Hv eq_refl eq_refl eq_refl Hall)).
Defined.

End EyeTrackerExtra.
